(** * Clementine device manager: a shallow embedding of
      [src/devices/devicemanager.cpp] and the properties of its registry.

    The C++ class [DeviceManager] is a [QAbstractListModel] over a
    [QList<DeviceInfo>].  Every member function is translated into a Rocq
    function over an explicit manager state.  A function returns [None]
    where the C++ code has undefined behaviour (an out-of-range
    [QList::operator[]], a dereferenced null [BestBackend()]); otherwise it
    returns the new state together with the ordered list of effects it
    produced (Qt signals, calls into the persistent storage, calls into a
    lister).  The collaborators that live outside the file (listers, the
    storage backend, the icon loader, the meta-object factory) are gathered
    in a [World] record of oracles that is passed to every call, so that
    they may answer differently from one call to the next.

    Left out of the state: the [qDebug] traces, the pixmap of an icon (its
    name is kept), the signal connections made on a new session (a
    task-started signal is a call of [DeviceTaskStarted] with the session
    as sender) and the diagnostics Qt prints on its own.  The removal of
    a row is modelled with what Qt does to the persistent indexes inside
    [beginRemoveRows] and [endRemoveRows] around the explicit loop of the
    file over [persistentIndexList()]. *)

From Stdlib Require Import ZArith List String Ascii Bool Lia.
From Stdlib Require Import Floats.SpecFloat.
Import ListNotations.
Local Open Scope Z_scope.

(** ** The parts of Qt the file relies on *)

Module Qt.

(** [QUrl], reduced to the components of a device URL
    [scheme://authority/path]: [QUrl::scheme()], [QUrl::authority()] and
    [QUrl::path()], which starts at the first slash after the authority
    and is empty when there is none. *)
Record QUrl := mkUrl { scheme : string; authority : string; path : string }.

Definition emptyUrl : QUrl := mkUrl EmptyString EmptyString EmptyString.

Definition isEmpty (u : QUrl) : bool :=
  String.eqb (scheme u) EmptyString
  && String.eqb (authority u) EmptyString
  && String.eqb (path u) EmptyString.

Definition toString (u : QUrl) : string :=
  (scheme u ++ "://" ++ authority u ++ path u)%string.

Definition url_eqb (u v : QUrl) : bool :=
  String.eqb (scheme u) (scheme v)
  && String.eqb (authority u) (authority v)
  && String.eqb (path u) (path v).

(** [QModelIndex] of a one-column list model: [None] is the invalid
    index, [Some (row, column)] a valid one. *)
Definition QModelIndex : Type := option (Z * Z).

Definition index_eqb (a b : QModelIndex) : bool :=
  match a, b with
  | None, None => true
  | Some (r1, c1), Some (r2, c2) => (r1 =? r2) && (c1 =? c2)
  | _, _ => false
  end.

(** [QString::split(',')] with the default [KeepEmptyParts]. *)
Fixpoint split (sep : ascii) (s : string) : list string :=
  match s with
  | EmptyString => [EmptyString]
  | String c s' =>
      if Ascii.eqb c sep then EmptyString :: split sep s'
      else match split sep s' with
           | [] => [String c EmptyString]
           | x :: xs => String c x :: xs
           end
  end.

(** [QStringList::join]. *)
Definition join (sep : string) (l : list string) : string :=
  String.concat sep l.

(** [QString::toLower] on the ASCII letters. *)
Definition lower_ascii (c : ascii) : ascii :=
  let n := nat_of_ascii c in
  if (Nat.leb 65 n && Nat.leb n 90)%bool then ascii_of_nat (n + 32) else c.

Fixpoint toLower (s : string) : string :=
  match s with
  | EmptyString => EmptyString
  | String c s' => String (lower_ascii c) (toLower s')
  end.

(** [QString::contains]. *)
Fixpoint contains (s needle : string) : bool :=
  String.prefix needle s
  || match s with
     | EmptyString => false
     | String _ s' => contains s' needle
     end.

(** [QList::operator[]]: [None] outside [0 .. count-1]. *)
Definition at_ {A} (l : list A) (i : Z) : option A :=
  if i <? 0 then None else nth_error l (Z.to_nat i).

Fixpoint replace_nth {A} (l : list A) (n : nat) (x : A) : list A :=
  match l, n with
  | [], _ => []
  | _ :: t, O => x :: t
  | h :: t, S n' => h :: replace_nth t n' x
  end.

(** Assignment through the reference [l[i]]. *)
Definition replace {A} (l : list A) (i : Z) (x : A) : list A :=
  if i <? 0 then l else replace_nth l (Z.to_nat i) x.

Fixpoint remove_nth {A} (l : list A) (n : nat) : list A :=
  match l, n with
  | [], _ => []
  | _ :: t, O => t
  | h :: t, S n' => h :: remove_nth t n'
  end.

(** [QList::removeAt]. *)
Definition removeAt {A} (l : list A) (i : Z) : list A :=
  if i <? 0 then l else remove_nth l (Z.to_nat i).

(** [QList::count]. *)
Definition count {A} (l : list A) : Z := Z.of_nat (List.length l).

(** [QList<QPersistentModelIndex>::removeAll]. *)
Definition removeAll (x : QModelIndex) (l : list QModelIndex)
  : list QModelIndex :=
  filter (fun y => negb (index_eqb y x)) l.

(** [QMap<int, V>]: an association list kept in ascending key order. *)
Definition QMap (V : Type) : Type := list (Z * V).

Fixpoint qmap_find {V} (k : Z) (m : QMap V) : option V :=
  match m with
  | [] => None
  | (k', v) :: m' => if k' =? k then Some v else qmap_find k m'
  end.

(** [map[k] = v]. *)
Fixpoint qmap_insert {V} (k : Z) (v : V) (m : QMap V) : QMap V :=
  match m with
  | [] => [(k, v)]
  | (k', v') :: m' =>
      if k <? k' then (k, v) :: (k', v') :: m'
      else if k =? k' then (k, v) :: m'
      else (k', v') :: qmap_insert k v m'
  end.

(** [QMap::values]: the values in key order. *)
Definition qmap_values {V} (m : QMap V) : list V := map snd m.

(** [QMap<QString, V>] of the device classes, looked up by scheme. *)
Fixpoint smap_find {V} (k : string) (m : list (string * V)) : option V :=
  match m with
  | [] => None
  | (k', v) :: m' => if String.eqb k' k then Some v else smap_find k m'
  end.

Definition smap_contains {V} (k : string) (m : list (string * V)) : bool :=
  match smap_find k m with Some _ => true | None => false end.

End Qt.
Import Qt.

(** ** Single-precision arithmetic of [TasksChanged] *)

Module Float32.

Definition prec : Z := 24.
Definition emax : Z := 128.

(** Conversion of an [int] to [float] (round to nearest even). *)
Definition of_int (n : Z) : spec_float :=
  binary_normalize prec emax n 0 false.

Definition div (x y : spec_float) : spec_float := SFdiv prec emax x y.
Definition mul (x y : spec_float) : spec_float := SFmul prec emax x y.

Definition INT_MIN : Z := - 2 ^ 31.
Definition INT_MAX : Z := 2 ^ 31 - 1.

(** Conversion of a [float] to [int]: truncation toward zero, undefined
    ([None]) for a NaN, an infinity or a value outside the range of
    [int]. *)
Definition to_int (f : spec_float) : option Z :=
  match f with
  | S754_zero _ => Some 0
  | S754_finite s m e =>
      let v := if 0 <=? e then Z.pos m * 2 ^ e
               else Z.quot (Z.pos m) (2 ^ (- e)) in
      let r := if s then - v else v in
      if (INT_MIN <=? r) && (r <=? INT_MAX) then Some r else None
  | _ => None
  end.

(** [float(progress) / progress_max * 100], stored into an [int]. *)
Definition percentage (progress progress_max : Z) : option Z :=
  to_int (mul (div (of_int progress) (of_int progress_max)) (of_int 100)).

End Float32.

(** ** Data model *)

(** A [DeviceLister*] is the identity of a lister object; [None] in an
    [option DeviceLister] is the null pointer. *)
Definition DeviceLister : Type := nat.

Definition lister_eqb (a b : option DeviceLister) : bool :=
  match a, b with
  | None, None => true
  | Some x, Some y => Nat.eqb x y
  | _, _ => false
  end.

(** [DeviceManager::DeviceInfo::Backend]. *)
Record Backend := mkBackend {
  lister_ : option DeviceLister;
  unique_id_ : string
}.

(** Modelled from the spec: the class [ConnectedDevice] is declared outside
    this file.  An instance is the object the factory allocated
    ([object_]) together with the constructor arguments it keeps: the URL,
    the lister answered by [lister()], the native id, the persisted id and
    the first-time flag. *)
Record ConnectedDevice := mkConnectedDevice {
  object_ : nat;
  url_ : QUrl;
  lister : DeviceLister;
  device_unique_id_ : string;
  device_database_id_ : Z;
  first_time_ : bool
}.

(** Modelled from the spec: [DeviceDatabaseBackend::Device], the snapshot
    exchanged with the persistent storage (id, friendly_name, size,
    icon_name, unique_id). *)
Record Device := mkDevice {
  id_ : Z;
  dev_friendly_name_ : string;
  dev_size_ : Z;
  dev_icon_name_ : string;
  dev_unique_id_ : string
}.

(** Modelled from the spec: [TaskManager::Task], one entry of the task
    snapshot (task id and progress fraction). *)
Record Task := mkTask {
  task_id : Z;
  progress : Z;
  progress_max : Z
}.

(** [DeviceManager::DeviceInfo].  The icon itself is presentation; its
    name is kept. *)
Record DeviceInfo := mkDeviceInfo {
  database_id_ : Z;
  device_ : option ConnectedDevice;
  friendly_name_ : string;
  size_ : Z;
  icon_name_ : string;
  backends_ : list Backend;
  task_percentage_ : Z
}.

(** The default constructor: [database_id_(-1), task_percentage_(-1)]. *)
Definition DeviceInfo_new : DeviceInfo :=
  mkDeviceInfo (-1) None EmptyString 0 EmptyString [] (-1).

Definition set_database_id (v : Z) (i : DeviceInfo) : DeviceInfo :=
  mkDeviceInfo v (device_ i) (friendly_name_ i) (size_ i) (icon_name_ i)
               (backends_ i) (task_percentage_ i).
Definition set_device (v : option ConnectedDevice) (i : DeviceInfo)
  : DeviceInfo :=
  mkDeviceInfo (database_id_ i) v (friendly_name_ i) (size_ i) (icon_name_ i)
               (backends_ i) (task_percentage_ i).
Definition set_friendly_name (v : string) (i : DeviceInfo) : DeviceInfo :=
  mkDeviceInfo (database_id_ i) (device_ i) v (size_ i) (icon_name_ i)
               (backends_ i) (task_percentage_ i).
Definition set_size (v : Z) (i : DeviceInfo) : DeviceInfo :=
  mkDeviceInfo (database_id_ i) (device_ i) (friendly_name_ i) v
               (icon_name_ i) (backends_ i) (task_percentage_ i).
Definition set_icon_name (v : string) (i : DeviceInfo) : DeviceInfo :=
  mkDeviceInfo (database_id_ i) (device_ i) (friendly_name_ i) (size_ i) v
               (backends_ i) (task_percentage_ i).
Definition set_backends (v : list Backend) (i : DeviceInfo) : DeviceInfo :=
  mkDeviceInfo (database_id_ i) (device_ i) (friendly_name_ i) (size_ i)
               (icon_name_ i) v (task_percentage_ i).
Definition set_task_percentage (v : Z) (i : DeviceInfo) : DeviceInfo :=
  mkDeviceInfo (database_id_ i) (device_ i) (friendly_name_ i) (size_ i)
               (icon_name_ i) (backends_ i) v.

(** The collaborators outside the file, as oracles. *)
Record World := mkWorld {
  (* DeviceLister *)
  priority : DeviceLister -> Z;
  MakeDeviceUrls : DeviceLister -> string -> list QUrl;
  MakeFriendlyName : DeviceLister -> string -> string;
  DeviceCapacity : DeviceLister -> string -> Z;
  DeviceIcons : DeviceLister -> string -> list string;
  DeviceFreeSpace : DeviceLister -> string -> Z;
  (* IconLoader::Load: is the loaded icon non-null *)
  IconLoader_Load : string -> bool;
  (* Utilities::PrettySize *)
  PrettySize : Z -> string;
  (* DeviceDatabaseBackend::AddDevice: the id it returns *)
  AddDevice : Device -> Z;
  (* QMetaObject::newInstance of a device class: the address of the new
     object, or null *)
  newInstance : nat -> QUrl -> DeviceLister -> string -> Z -> bool
                -> option nat
}.

(** What a member function does to the outside, in order. *)
Inductive Effect :=
| dataChanged (topLeft bottomRight : QModelIndex)
| rowsInserted (first last : Z)
| rowsRemoved (first last : Z)
| DeviceConnected (row : Z)
| DeviceDisconnected (row : Z)
| Error (message : string)
| qWarning (message : string)
| backend_AddDevice (dev : Device)
| backend_RemoveDevice (database_id : Z)
| backend_SetDeviceIdentity (database_id : Z) (name icon : string)
| lister_UnmountDevice (l : DeviceLister) (unique_id : string).

(** The manager.  [persistent_] holds the [QPersistentModelIndex]es that
    views and proxies keep on the model; the values of [active_tasks_] are
    persistent indexes on the same model, so [persistentIndexList()] is
    the two together. *)
Record DeviceManager := mkDeviceManager {
  devices_ : list DeviceInfo;
  device_classes_ : list (string * nat);
  active_tasks_ : QMap QModelIndex;
  persistent_ : list QModelIndex
}.

Definition set_devices (v : list DeviceInfo) (m : DeviceManager)
  : DeviceManager :=
  mkDeviceManager v (device_classes_ m) (active_tasks_ m) (persistent_ m).

(** ** [DeviceInfo] member functions *)

Definition SaveToDb (info : DeviceInfo) : Device :=
  mkDevice (database_id_ info) (friendly_name_ info) (size_ info)
           (icon_name_ info)
           (join "," (map unique_id_ (backends_ info))).

Definition usb_pendrive : string := "drive-removable-media-usb-pendrive".

Definition LoadIcon (w : World) (icons : list string) (name_hint : string)
           (info : DeviceInfo) : DeviceInfo :=
  match icons with
  | [] => set_icon_name usb_pendrive info
  | first :: _ =>
      match find (IconLoader_Load w) icons with
      | Some name => set_icon_name name info
      | None =>
          let hint := toLower (first ++ name_hint) in
          if contains hint "phone" then set_icon_name "phone" info
          else if contains hint "ipod" || contains hint "apple"
          then set_icon_name "multimedia-player-ipod-standard-monochrome" info
          else set_icon_name usb_pendrive info
      end
  end.

Definition InitFromDb (w : World) (dev : Device) (info : DeviceInfo)
  : DeviceInfo :=
  let info := set_database_id (id_ dev) info in
  let info := set_friendly_name (dev_friendly_name_ dev) info in
  let info := set_size (dev_size_ dev) info in
  let info := LoadIcon w (split "," (dev_icon_name_ dev))
                       (friendly_name_ info) info in
  set_backends
    (backends_ info
     ++ map (fun id => mkBackend None id) (split "," (dev_unique_id_ dev)))
    info.

(** The loop of [BestBackend]: [ret] is the null pointer or the binding
    chosen so far. *)
Fixpoint BestBackend_loop (w : World) (bs : list Backend)
         (best_priority : Z) (ret : option Backend) : option Backend :=
  match bs with
  | [] => ret
  | b :: bs' =>
      match lister_ b with
      | Some l =>
          if priority w l >? best_priority
          then BestBackend_loop w bs' (priority w l) (Some b)
          else BestBackend_loop w bs' best_priority ret
      | None => BestBackend_loop w bs' best_priority ret
      end
  end.

Definition BestBackend (w : World) (info : DeviceInfo) : option Backend :=
  match BestBackend_loop w (backends_ info) (-1) None with
  | Some b => Some b
  | None =>
      match backends_ info with
      | b :: _ => Some b
      | [] => None
      end
  end.

(** ** [DeviceManager] member functions *)

(** The constructor: one record per persisted device, no task, no
    outstanding index. *)
Definition DeviceManager_new (w : World) (devices : list Device)
           (classes : list (string * nat)) : DeviceManager :=
  mkDeviceManager (map (fun dev => InitFromDb w dev DeviceInfo_new) devices)
                  classes [] [].

Definition rowCount (m : DeviceManager) : Z := count (devices_ m).

(** [QAbstractListModel::index]: valid when [hasIndex(row, column)]. *)
Definition index (m : DeviceManager) (row column : Z) : QModelIndex :=
  if (0 <=? row) && (row <? rowCount m) && (column =? 0)
  then Some (row, column) else None.

Definition has_unique_id (id : string) (info : DeviceInfo) : bool :=
  existsb (fun b => String.eqb (unique_id_ b) id) (backends_ info).

Fixpoint FindDeviceById_from (id : string) (ds : list DeviceInfo) (i : Z)
  : Z :=
  match ds with
  | [] => -1
  | d :: ds' =>
      if has_unique_id id d then i else FindDeviceById_from id ds' (i + 1)
  end.

Definition FindDeviceById (m : DeviceManager) (id : string) : Z :=
  FindDeviceById_from id (devices_ m) 0.

Definition has_url (w : World) (urls : list QUrl) (info : DeviceInfo) : bool :=
  existsb
    (fun b =>
       match lister_ b with
       | None => false
       | Some l =>
           existsb (fun url => existsb (url_eqb url) urls)
                   (MakeDeviceUrls w l (unique_id_ b))
       end)
    (backends_ info).

Fixpoint FindDeviceByUrl_from (w : World) (urls : list QUrl)
         (ds : list DeviceInfo) (i : Z) : Z :=
  match ds with
  | [] => -1
  | d :: ds' =>
      if has_url w urls d then i else FindDeviceByUrl_from w urls ds' (i + 1)
  end.

Definition FindDeviceByUrl (w : World) (m : DeviceManager)
           (urls : list QUrl) : Z :=
  match urls with
  | [] => -1
  | _ => FindDeviceByUrl_from w urls (devices_ m) 0
  end.

(** The loop that stores [l] in the first binding whose id is [id]. *)
Fixpoint set_lister (id : string) (l : option DeviceLister)
         (bs : list Backend) : list Backend :=
  match bs with
  | [] => []
  | b :: bs' =>
      if String.eqb (unique_id_ b) id
      then mkBackend l (unique_id_ b) :: bs'
      else b :: set_lister id l bs'
  end.

(** The loop that removes the first binding whose id is [id]. *)
Fixpoint remove_backend (id : string) (bs : list Backend) : list Backend :=
  match bs with
  | [] => []
  | b :: bs' =>
      if String.eqb (unique_id_ b) id then bs'
      else b :: remove_backend id bs'
  end.

(** Name, size and icon taken from the lister. *)
Definition refresh_from_lister (w : World) (sender : DeviceLister)
           (id : string) (info : DeviceInfo) : DeviceInfo :=
  let info := set_friendly_name (MakeFriendlyName w sender id) info in
  let info := set_size (DeviceCapacity w sender id) info in
  LoadIcon w (DeviceIcons w sender id) (friendly_name_ info) info.

Definition PhysicalDeviceAdded (w : World) (sender : DeviceLister)
           (id : string) (m : DeviceManager)
  : option (DeviceManager * list Effect) :=
  let i := FindDeviceById m id in
  if negb (i =? -1) then
    match at_ (devices_ m) i with
    | None => None
    | Some info =>
        let info :=
          set_backends (set_lister id (Some sender) (backends_ info)) info in
        Some (set_devices (replace (devices_ m) i info) m,
              [dataChanged (index m i 0) (index m i 0)])
    end
  else
    let i := FindDeviceByUrl w m (MakeDeviceUrls w sender id) in
    if negb (i =? -1) then
      match at_ (devices_ m) i with
      | None => None
      | Some info =>
          let info :=
            set_backends (backends_ info ++ [mkBackend (Some sender) id])
                         info in
          let is_best :=
            if database_id_ info =? -1
            then option_map
                   (fun b => lister_eqb (lister_ b) (Some sender))
                   (BestBackend w info)
            else Some false in
          match is_best with
          | None => None
          | Some overwrite =>
              let info :=
                if overwrite then refresh_from_lister w sender id info
                else info in
              Some (set_devices (replace (devices_ m) i info) m,
                    [dataChanged (index m i 0) (index m i 0)])
          end
      end
    else
      let info :=
        set_backends (backends_ DeviceInfo_new ++ [mkBackend (Some sender) id])
                     DeviceInfo_new in
      let info := refresh_from_lister w sender id info in
      Some (set_devices (devices_ m ++ [info]) m,
            [rowsInserted (rowCount m) (rowCount m)]).

(** What the loop over [persistentIndexList()] does to one persistent
    index once row [i] is gone; [m] is the manager after [removeAt]. *)
Definition changePersistentIndex (m : DeviceManager) (i : Z)
           (idx : QModelIndex) : QModelIndex :=
  match idx with
  | None => None
  | Some (r, c) =>
      if r =? i then None
      else if r >? i then index m (r - 1) c
      else idx
  end.

(** [QAbstractItemModelPrivate::rowsRemoved], which [endRemoveRows] runs,
    on a persistent index that [beginRemoveRows] found above the removed
    row: the index is read again, as the loop of the file left it, and
    replaced by [index(old.row() - 1, old.column())]; [m] is the manager
    after [removeAt].  The row and column of an invalid index are -1. *)
Definition rowsRemoved_moved (m : DeviceManager) (idx : QModelIndex)
  : QModelIndex :=
  match idx with
  | None => index m (-1 - 1) (-1)
  | Some (r, c) => index m (r - 1) c
  end.

(** One persistent index through the removal of row [i]:
    [beginRemoveRows(QModelIndex(), i, i)] notes the valid indexes above
    row [i] as moved and those on row [i] as invalidated, the loop of the
    file calls [changePersistentIndex], and [endRemoveRows] moves the
    ones noted as moved and invalidates the ones noted as invalidated;
    [m] is the manager after [removeAt]. *)
Definition removedPersistentIndex (m : DeviceManager) (i : Z)
           (idx : QModelIndex) : QModelIndex :=
  match idx with
  | None => None
  | Some (r, c) =>
      let looped := changePersistentIndex m i idx in
      if r >? i then rowsRemoved_moved m looped
      else if r =? i then None
      else looped
  end.

(** [beginRemoveRows; devices_.removeAt(i); foreach ...; endRemoveRows]. *)
Definition removeRow (i : Z) (m : DeviceManager) : DeviceManager :=
  let m1 := set_devices (removeAt (devices_ m) i) m in
  mkDeviceManager
    (devices_ m1) (device_classes_ m1)
    (map (fun kv => (fst kv, removedPersistentIndex m1 i (snd kv)))
         (active_tasks_ m1))
    (map (removedPersistentIndex m1 i) (persistent_ m1)).

Definition PhysicalDeviceRemoved (sender : DeviceLister) (id : string)
           (m : DeviceManager) : option (DeviceManager * list Effect) :=
  let i := FindDeviceById m id in
  if i =? -1 then Some (m, [])
  else
    match at_ (devices_ m) i with
    | None => None
    | Some info =>
        if negb (database_id_ info =? -1) then
          let info :=
            set_backends (set_lister id None (backends_ info)) info in
          let info :=
            match device_ info with
            | Some d =>
                if Nat.eqb (lister d) sender then set_device None info
                else info
            | None => info
            end in
          Some (set_devices (replace (devices_ m) i info) m,
                dataChanged (index m i 0) (index m i 0)
                :: match device_ info with
                   | None => [DeviceDisconnected i]
                   | Some _ => []
                   end)
        else
          let info :=
            set_backends (remove_backend id (backends_ info)) info in
          let m := set_devices (replace (devices_ m) i info) m in
          match backends_ info with
          | [] => Some (removeRow i m, [rowsRemoved i i])
          | _ :: _ => Some (m, [])
          end
    end.

Definition PhysicalDeviceChanged (sender : DeviceLister) (id : string)
           (m : DeviceManager) : option (DeviceManager * list Effect) :=
  Some (m, []).

(** The [foreach] of [Connect] over the candidate URLs: every URL whose
    scheme is registered overwrites [device_url]. *)
Definition choose_url (classes : list (string * nat)) (urls : list QUrl)
  : QUrl :=
  fold_left
    (fun device_url url =>
       if smap_contains (scheme url) classes then url else device_url)
    urls emptyUrl.

Definition unsupported_message (urls : list QUrl) : string :=
  ("This type of device is not supported: "
   ++ join ", " (map toString urls))%string.

Definition Connect (w : World) (row : Z) (m : DeviceManager)
  : option (option ConnectedDevice * DeviceManager * list Effect) :=
  match at_ (devices_ m) row with
  | None => None
  | Some info =>
      match device_ info with
      | Some d => Some (Some d, m, [])
      | None =>
          match BestBackend w info with
          | None => None
          | Some b =>
              match lister_ b with
              | None => Some (None, m, [])
              | Some _ =>
                  let first_time := database_id_ info =? -1 in
                  let saved :=
                    if first_time then [backend_AddDevice (SaveToDb info)]
                    else [] in
                  let info :=
                    if first_time
                    then set_database_id (AddDevice w (SaveToDb info)) info
                    else info in
                  let m := set_devices (replace (devices_ m) row info) m in
                  match BestBackend w info with
                  | None => None
                  | Some best =>
                      match lister_ best with
                      | None => None
                      | Some l =>
                          let urls :=
                            MakeDeviceUrls w l (unique_id_ best) in
                          match urls with
                          | [] => Some (None, m, saved)
                          | _ :: _ =>
                              let device_url :=
                                choose_url (device_classes_ m) urls in
                              if isEmpty device_url then
                                Some (None, m,
                                      saved
                                      ++ [Error (unsupported_message urls)])
                              else
                                let instance :=
                                  match smap_find (scheme device_url)
                                                  (device_classes_ m) with
                                  | Some meta_object =>
                                      newInstance w meta_object device_url l
                                                  (unique_id_ best)
                                                  (database_id_ info)
                                                  first_time
                                  | None => None
                                  end in
                                match instance with
                                | None =>
                                    Some (None, m,
                                          saved
                                          ++ [qWarning
                                                ("Could not create device for "
                                                 ++ toString device_url);
                                              DeviceConnected row])
                                | Some obj =>
                                    let ret :=
                                      mkConnectedDevice
                                        obj device_url l (unique_id_ best)
                                        (database_id_ info) first_time in
                                    let info := set_device (Some ret) info in
                                    Some (Some ret,
                                          set_devices
                                            (replace (devices_ m) row info)
                                            m,
                                          saved
                                          ++ [dataChanged (index m row 0)
                                                          (index m row 0);
                                              DeviceConnected row])
                                end
                          end
                      end
                  end
              end
          end
      end
  end.

Definition GetConnectedDevice (m : DeviceManager) (row : Z)
  : option (option ConnectedDevice) :=
  option_map device_ (at_ (devices_ m) row).

Definition GetDatabaseId (m : DeviceManager) (row : Z) : option Z :=
  option_map database_id_ (at_ (devices_ m) row).

Definition Disconnect (row : Z) (m : DeviceManager)
  : option (DeviceManager * list Effect) :=
  match at_ (devices_ m) row with
  | None => None
  | Some info =>
      match device_ info with
      | None => Some (m, [])
      | Some _ =>
          Some (set_devices (replace (devices_ m) row (set_device None info))
                            m,
                [DeviceDisconnected row;
                 dataChanged (index m row 0) (index m row 0)])
      end
  end.

Definition Forget (w : World) (row : Z) (m : DeviceManager)
  : option (DeviceManager * list Effect) :=
  match at_ (devices_ m) row with
  | None => None
  | Some info =>
      if database_id_ info =? -1 then Some (m, [])
      else
        let disconnected :=
          match device_ info with
          | Some _ => Disconnect row m
          | None => Some (m, [])
          end in
        match disconnected with
        | None => None
        | Some (m, effects) =>
            match at_ (devices_ m) row with
            | None => None
            | Some info =>
                let removed := [backend_RemoveDevice (database_id_ info)] in
                let info := set_database_id (-1) info in
                let m := set_devices (replace (devices_ m) row info) m in
                match BestBackend w info with
                | None => None
                | Some best =>
                    match lister_ best with
                    | None =>
                        Some (removeRow row m,
                              effects ++ removed ++ [rowsRemoved row row])
                    | Some l =>
                        let id := unique_id_ best in
                        let info :=
                          set_friendly_name (MakeFriendlyName w l id) info in
                        let info :=
                          LoadIcon w (DeviceIcons w l id)
                                   (friendly_name_ info) info in
                        Some (set_devices (replace (devices_ m) row info) m,
                              effects ++ removed
                              ++ [dataChanged (index m row 0)
                                              (index m row 0)])
                    end
                end
            end
        end
  end.

Definition SetDeviceIdentity (w : World) (row : Z)
           (friendly_name icon_name : string) (m : DeviceManager)
  : option (DeviceManager * list Effect) :=
  match at_ (devices_ m) row with
  | None => None
  | Some info =>
      let info := set_friendly_name friendly_name info in
      let info := LoadIcon w [icon_name] friendly_name info in
      Some (set_devices (replace (devices_ m) row info) m,
            dataChanged (index m row 0) (index m row 0)
            :: if negb (database_id_ info =? -1)
               then [backend_SetDeviceIdentity (database_id_ info)
                                               friendly_name icon_name]
               else [])
  end.

(** The loop of [DeviceTaskStarted]: the first row whose session is the
    object [device]. *)
Fixpoint find_session (device : nat) (ds : list DeviceInfo) (i : Z)
  : option Z :=
  match ds with
  | [] => None
  | info :: ds' =>
      match device_ info with
      | Some d =>
          if Nat.eqb (object_ d) device then Some i
          else find_session device ds' (i + 1)
      | None => find_session device ds' (i + 1)
      end
  end.

(** [device] is [qobject_cast<ConnectedDevice*>(sender())]. *)
Definition DeviceTaskStarted (device : option nat) (id : Z)
           (m : DeviceManager) : option (DeviceManager * list Effect) :=
  match device with
  | None => Some (m, [])
  | Some dev =>
      match find_session dev (devices_ m) 0 with
      | None => Some (m, [])
      | Some i =>
          match at_ (devices_ m) i with
          | None => None
          | Some info =>
              Some (mkDeviceManager
                      (replace (devices_ m) i (set_task_percentage 0 info))
                      (device_classes_ m)
                      (qmap_insert id (index m i 0) (active_tasks_ m))
                      (persistent_ m),
                    [dataChanged (index m i 0) (index m i 0)])
          end
      end
  end.

(** First loop of [TasksChanged], over the snapshot. *)
Fixpoint TasksChanged_tasks (tasks : list Task) (m : DeviceManager)
         (finished_tasks : list QModelIndex) (effects : list Effect)
  : option (DeviceManager * list QModelIndex * list Effect) :=
  match tasks with
  | [] => Some (m, finished_tasks, effects)
  | task :: tasks' =>
      match qmap_find (task_id task) (active_tasks_ m) with
      | None => TasksChanged_tasks tasks' m finished_tasks effects
      | Some None => TasksChanged_tasks tasks' m finished_tasks effects
      | Some (Some (r, c)) =>
          match at_ (devices_ m) r with
          | None => None
          | Some info =>
              let percentage :=
                if negb (progress_max task =? 0)
                then Float32.percentage (progress task) (progress_max task)
                else Some 0 in
              match percentage with
              | None => None
              | Some p =>
                  TasksChanged_tasks
                    tasks'
                    (set_devices
                       (replace (devices_ m) r (set_task_percentage p info))
                       m)
                    (removeAll (Some (r, c)) finished_tasks)
                    (effects ++ [dataChanged (Some (r, c)) (Some (r, c))])
              end
          end
      end
  end.

(** Second loop of [TasksChanged], over the tasks that are gone. *)
Fixpoint TasksChanged_finished (finished_tasks : list QModelIndex)
         (m : DeviceManager) (effects : list Effect)
  : option (DeviceManager * list Effect) :=
  match finished_tasks with
  | [] => Some (m, effects)
  | None :: rest => TasksChanged_finished rest m effects
  | Some (r, c) :: rest =>
      match at_ (devices_ m) r with
      | None => None
      | Some info =>
          TasksChanged_finished
            rest
            (set_devices
               (replace (devices_ m) r (set_task_percentage (-1) info)) m)
            (effects ++ [dataChanged (Some (r, c)) (Some (r, c))])
      end
  end.

(** [tasks] is the snapshot [task_manager_->GetTasks()]. *)
Definition TasksChanged (tasks : list Task) (m : DeviceManager)
  : option (DeviceManager * list Effect) :=
  match TasksChanged_tasks tasks m (qmap_values (active_tasks_ m)) [] with
  | None => None
  | Some (m, finished_tasks, effects) =>
      TasksChanged_finished finished_tasks m effects
  end.

Definition Unmount (w : World) (row : Z) (m : DeviceManager)
  : option (DeviceManager * list Effect) :=
  match at_ (devices_ m) row with
  | None => None
  | Some info =>
      if database_id_ info =? -1 then Some (m, [])
      else
        let disconnected :=
          match device_ info with
          | Some _ => Disconnect row m
          | None => Some (m, [])
          end in
        match disconnected with
        | None => None
        | Some (m, effects) =>
            match at_ (devices_ m) row with
            | None => None
            | Some info =>
                match BestBackend w info with
                | None => None
                | Some best =>
                    match lister_ best with
                    | Some l =>
                        Some (m,
                              effects
                              ++ [lister_UnmountDevice l (unique_id_ best)])
                    | None => Some (m, effects)
                    end
                end
            end
        end
  end.

(** ** [DeviceManager::data] *)

Inductive State := State_Remembered | State_NotConnected | State_Connected.

Inductive Role :=
| DisplayRole | DecorationRole | Role_FriendlyName | Role_UniqueId
| Role_IconName | Role_Capacity | Role_FreeSpace | Role_State
| Role_UpdatingPercentage | Role_MountPath | OtherRole.

(** The values [data] answers; [Invalid] is the null [QVariant].  The
    decoration is the icon name and whether the not-connected overlay is
    painted over it. *)
Inductive QVariant :=
| Invalid
| VString (s : string)
| VInt (z : Z)
| VState (s : State)
| VPixmap (icon : string) (overlay : bool).

(** The read-only roles of [data].  [MusicStorage::Role_Storage], which
    connects the row, is [Connect] followed by [GetConnectedDevice]. *)
Definition data (w : World) (m : DeviceManager) (idx : QModelIndex)
           (role : Role) : option QVariant :=
  match idx with
  | None => Some Invalid
  | Some (row, column) =>
      if negb (column =? 0) then Some Invalid
      else
        match at_ (devices_ m) row with
        | None => None
        | Some info =>
            let best := BestBackend w info in
            match role with
            | DisplayRole =>
                let text :=
                  if negb (String.eqb (friendly_name_ info) EmptyString)
                  then Some (friendly_name_ info)
                  else option_map unique_id_ best in
                match text with
                | None => None
                | Some text =>
                    if negb (size_ info =? 0)
                    then Some (VString (text ++ " ("
                                        ++ PrettySize w (size_ info) ++ ")"))
                    else Some (VString text)
                end
            | DecorationRole =>
                option_map
                  (fun b =>
                     VPixmap (icon_name_ info)
                             (match lister_ b with
                              | None => true
                              | Some _ => false
                              end))
                  best
            | Role_FriendlyName => Some (VString (friendly_name_ info))
            | Role_UniqueId =>
                option_map (fun b => VString (unique_id_ b)) best
            | Role_IconName => Some (VString (icon_name_ info))
            | Role_Capacity => Some (VInt (size_ info))
            | Role_FreeSpace =>
                option_map
                  (fun b =>
                     match lister_ b with
                     | Some l => VInt (DeviceFreeSpace w l (unique_id_ b))
                     | None => Invalid
                     end)
                  best
            | Role_State =>
                match device_ info with
                | Some _ => Some (VState State_Connected)
                | None =>
                    option_map
                      (fun b =>
                         match lister_ b with
                         | Some _ => VState State_NotConnected
                         | None => VState State_Remembered
                         end)
                      best
                end
            | Role_UpdatingPercentage =>
                if task_percentage_ info =? -1 then Some Invalid
                else Some (VInt (task_percentage_ info))
            | Role_MountPath =>
                match device_ info with
                | None => Some Invalid
                | Some d => Some (VString (path (url_ d)))
                end
            | OtherRole => Some Invalid
            end
        end
  end.

(** ** Runs of the manager *)

(** A call into the manager from outside: a lister signal, a request of
    the user interface, a signal of a connected device or of the task
    manager. *)
Inductive Call :=
| CallPhysicalDeviceAdded (sender : DeviceLister) (id : string)
| CallPhysicalDeviceRemoved (sender : DeviceLister) (id : string)
| CallPhysicalDeviceChanged (sender : DeviceLister) (id : string)
| CallConnect (row : Z)
| CallDisconnect (row : Z)
| CallForget (row : Z)
| CallSetDeviceIdentity (row : Z) (friendly_name icon_name : string)
| CallDeviceTaskStarted (device : option nat) (id : Z)
| CallTasksChanged (tasks : list Task)
| CallUnmount (row : Z).

Definition call (w : World) (c : Call) (m : DeviceManager)
  : option (DeviceManager * list Effect) :=
  match c with
  | CallPhysicalDeviceAdded sender id => PhysicalDeviceAdded w sender id m
  | CallPhysicalDeviceRemoved sender id => PhysicalDeviceRemoved sender id m
  | CallPhysicalDeviceChanged sender id => PhysicalDeviceChanged sender id m
  | CallConnect row =>
      match Connect w row m with
      | Some (_, m', effects) => Some (m', effects)
      | None => None
      end
  | CallDisconnect row => Disconnect row m
  | CallForget row => Forget w row m
  | CallSetDeviceIdentity row friendly_name icon_name =>
      SetDeviceIdentity w row friendly_name icon_name m
  | CallDeviceTaskStarted device id => DeviceTaskStarted device id m
  | CallTasksChanged tasks => TasksChanged tasks m
  | CallUnmount row => Unmount w row m
  end.

(** The managers that a run can be in: the freshly constructed one and
    whatever a call that returns leaves behind, each call seeing its own
    world. *)
Inductive reachable : DeviceManager -> Prop :=
| reachable_new w devices classes :
    reachable (DeviceManager_new w devices classes)
| reachable_call w c m m' effects :
    reachable m -> call w c m = Some (m', effects) -> reachable m'.


(** ** Notions used by the statements *)

(** Every listed record has at least one binding. *)
Definition bound (m : DeviceManager) : Prop :=
  forall info, In info (devices_ m) -> backends_ info <> [].

(** A sequence of calls, each made in its own world; the effects are
    concatenated in order. *)
Fixpoint calls (cs : list (World * Call)) (m : DeviceManager)
  : option (DeviceManager * list Effect) :=
  match cs with
  | [] => Some (m, [])
  | (w, c) :: cs' =>
      match call w c m with
      | None => None
      | Some (m1, effects1) =>
          match calls cs' m1 with
          | None => None
          | Some (m2, effects2) => Some (m2, effects1 ++ effects2)
          end
      end
  end.

Definition is_AddDevice (e : Effect) : bool :=
  match e with
  | backend_AddDevice _ => true
  | _ => false
  end.

(** A [Connect] or a [Disconnect] of the given row. *)
Definition connects_or_disconnects (row : Z) (c : World * Call) : Prop :=
  snd c = CallConnect row \/ snd c = CallDisconnect row.

(** No candidate URL has a registered scheme. *)
Definition unsupported (classes : list (string * nat)) (urls : list QUrl)
  : Prop :=
  forall url, In url urls -> smap_contains (scheme url) classes = false.

(** [QAbstractItemModel::persistentIndexList()]: the indexes held from
    outside and those of the tracked tasks. *)
Definition persistentIndexList (m : DeviceManager) : list QModelIndex :=
  persistent_ m ++ qmap_values (active_tasks_ m).

(** A persistent index is invalid or designates a row of the model. *)
Definition on_model (m : DeviceManager) (idx : QModelIndex) : Prop :=
  match idx with
  | None => True
  | Some (r, c) => index m r c = Some (r, c)
  end.

(** The renumbering by one of a row reference for a removed row [i]:
    above [i] it moves down by one, at [i] it becomes invalid, below [i]
    it stays. *)
Inductive renumbered (i : Z) : QModelIndex -> QModelIndex -> Prop :=
| renumbered_above r c :
    i < r -> renumbered i (Some (r, c)) (Some (r - 1, c))
| renumbered_at c : renumbered i (Some (i, c)) None
| renumbered_below r c : r < i -> renumbered i (Some (r, c)) (Some (r, c))
| renumbered_invalid : renumbered i None None.

(** What becomes of a row reference when row [i] is removed by
    [removeRow]: above [i] it is moved down twice, once by the loop of the
    file and once by [endRemoveRows], and becomes invalid when that leaves
    the model (the reference on row 1 when row 0 is removed); at [i] it
    becomes invalid; below [i] it stays. *)
Inductive moved_twice (i : Z) : QModelIndex -> QModelIndex -> Prop :=
| moved_twice_above r c :
    i < r -> 2 <= r -> moved_twice i (Some (r, c)) (Some (r - 2, c))
| moved_twice_out c : i = 0 -> moved_twice i (Some (1, c)) None
| moved_twice_at c : moved_twice i (Some (i, c)) None
| moved_twice_below r c : r < i -> moved_twice i (Some (r, c)) (Some (r, c))
| moved_twice_invalid : moved_twice i None None.

(** All the bindings of the registry, record after record. *)
Definition bindings (m : DeviceManager) : list Backend :=
  flat_map backends_ (devices_ m).

(** The bindings that carry a given native id. *)
Definition with_unique_id (id : string) (bs : list Backend) : list Backend :=
  filter (fun b => String.eqb (unique_id_ b) id) bs.


(** The percentage [TasksChanged] computes for one task of the snapshot;
    [None] where the conversion to [int] is undefined. *)
Definition fraction (task : Task) : option Z :=
  if negb (progress_max task =? 0)
  then Float32.percentage (progress task) (progress_max task)
  else Some 0.

(** Every fraction of the snapshot converts to an [int]. *)
Definition converts (tasks : list Task) : Prop :=
  forall task, In task tasks -> fraction task <> None.


(** The persistent index designates row [r]. *)
Definition row_is (r : Z) (idx : QModelIndex) : bool :=
  match idx with
  | Some (r', _) => r' =? r
  | None => false
  end.

(** ** Further notions *)

(** [DeviceManager::GetLister]: the lister of the primary binding. *)
Definition GetLister (w : World) (m : DeviceManager) (row : Z)
  : option (option DeviceLister) :=
  match at_ (devices_ m) row with
  | None => None
  | Some info => option_map lister_ (BestBackend w info)
  end.

(** The record has a binding with that native id. *)
Definition knows (id : string) (info : DeviceInfo) : Prop :=
  exists b, In b (backends_ info) /\ unique_id_ b = id.

(** The record has a live binding that its lister resolves to one of the
    URLs. *)
Definition shares_url (w : World) (urls : list QUrl) (info : DeviceInfo)
  : Prop :=
  exists b l url,
    In b (backends_ info) /\ lister_ b = Some l
    /\ In url (MakeDeviceUrls w l (unique_id_ b)) /\ In url urls.

(** No two bindings of the registry carry the same native id. *)
Definition ids_distinct (m : DeviceManager) : Prop :=
  NoDup (map unique_id_ (bindings m)).

(** The string has no comma. *)
Fixpoint comma_free (s : string) : bool :=
  match s with
  | EmptyString => true
  | String c s' => negb (Ascii.eqb c ",") && comma_free s'
  end.

(** The calls that may add or remove a row or a binding. *)
Definition structural (c : Call) : bool :=
  match c with
  | CallPhysicalDeviceAdded _ _ => true
  | CallPhysicalDeviceRemoved _ _ => true
  | CallForget _ => true
  | _ => false
  end.

(** The call addresses a row of the model and, for a refresh, brings
    fractions that convert to [int]. *)
Definition addressed (m : DeviceManager) (c : Call) : Prop :=
  match c with
  | CallConnect row | CallDisconnect row | CallForget row
  | CallSetDeviceIdentity row _ _ | CallUnmount row =>
      0 <= row < rowCount m
  | CallTasksChanged tasks => converts tasks
  | _ => True
  end.

(** The effects of dropping the session of a row, if it has one. *)
Definition disconnected (row : Z) (info : DeviceInfo) : list Effect :=
  match device_ info with
  | Some _ =>
      [DeviceDisconnected row; dataChanged (Some (row, 0)) (Some (row, 0))]
  | None => []
  end.

(** ** A small registry to run the code on *)

Module Scenario.

(** A world with one kind of answer: every lister has priority 0 and
    resolves every id to [urls], the storage answers [added] to
    [AddDevice], the factory answers [instance]. *)
Definition world (urls : list QUrl) (added : Z) (instance : option nat)
  : World :=
  mkWorld (fun _ => 0) (fun _ _ => urls) (fun _ id => id) (fun _ _ => 0)
          (fun _ _ => []) (fun _ _ => 0) (fun _ => false)
          (fun _ => EmptyString) (fun _ => added)
          (fun _ _ _ _ _ _ => instance).

Definition usb_dev1 : QUrl := mkUrl "usb" "dev1" "".
Definition file_dev1 : QUrl := mkUrl "file" "" "/mnt/dev1".

(** Two registered device classes. *)
Definition classes : list (string * nat) :=
  [("file"%string, 0%nat); ("usb"%string, 1%nat)].

Definition empty : DeviceManager :=
  DeviceManager_new (world [] 1 None) [] classes.

(** Lister 0 has reported the device "X"; it was never connected. *)
Definition X_present : DeviceInfo :=
  mkDeviceInfo (-1) None "X" 0 usb_pendrive [mkBackend (Some 0%nat) "X"] (-1).

(** The session the factory builds for "X" at object address 7. *)
Definition X_session : ConnectedDevice :=
  mkConnectedDevice 7%nat usb_dev1 0%nat "X" 1 true.

(** "X" saved under id 1 and connected through lister 0. *)
Definition X_connected : DeviceInfo :=
  mkDeviceInfo 1 (Some X_session) "X" 0 usb_pendrive
               [mkBackend (Some 0%nat) "X"] (-1).

(** "X" saved under id 1, its lister gone. *)
Definition X_remembered : DeviceInfo :=
  mkDeviceInfo 1 None "X" 0 usb_pendrive [mkBackend None "X"] (-1).

(** Lister 0 has reported the device "Y"; it was never connected. *)
Definition Y_present : DeviceInfo :=
  mkDeviceInfo (-1) None "Y" 0 usb_pendrive [mkBackend (Some 0%nat) "Y"] (-1).

Definition manager (devices : list DeviceInfo) : DeviceManager :=
  mkDeviceManager devices classes [] [].

(** A remembered device on row 0 and an attached one on row 1; a view
    holds a persistent index on each row. *)
Definition remembered_first : DeviceManager :=
  mkDeviceManager [X_remembered; Y_present] classes []
                  [Some (0, 0); Some (1, 0)].

(** Lister 0 has reported the device "Z"; it was never connected. *)
Definition Z_present : DeviceInfo :=
  mkDeviceInfo (-1) None "Z" 0 usb_pendrive [mkBackend (Some 0%nat) "Z"] (-1).

(** Three unpersisted devices; a view holds a persistent index on each
    row. *)
Definition three_devices : DeviceManager :=
  mkDeviceManager [X_present; Y_present; Z_present] classes []
                  [Some (0, 0); Some (1, 0); Some (2, 0)].

(** The manager at start-up when the storage holds two devices and the
    native id "X" is among the ids of both. *)
Definition stored_twice : DeviceManager :=
  DeviceManager_new (world [] 1 None)
                    [mkDevice 1 "X" 0 "" "X"; mkDevice 2 "Y" 0 "" "Y,X"]
                    classes.

(** "X" saved under id 1 and attached through lister 0; the user has
    given it a name and an icon. *)
Definition X_renamed : DeviceInfo :=
  mkDeviceInfo 1 None "My player" 0 "my-custom-icon"
               [mkBackend (Some 0%nat) "X"] (-1).

(** The percentage read on row 0 after a sequence of calls. *)
Definition percentage_after (cs : list (World * Call)) (m : DeviceManager)
  : option (option QVariant) :=
  option_map
    (fun s => data (world [] 1 None) (fst s) (Some (0, 0))
                   Role_UpdatingPercentage)
    (calls cs m).

End Scenario.

(** * Properties *)

(** ** Lists addressed by [int] *)

Section QListFacts.
Context {A : Type}.
Implicit Types (l : list A) (i j : Z) (x y : A).

Lemma at_range l i x : at_ l i = Some x -> 0 <= i < count l.
Proof.
  unfold at_, count. destruct (Z.ltb_spec i 0); [discriminate|].
  intros E. assert (nth_error l (Z.to_nat i) <> None) as N by congruence.
  apply nth_error_Some in N. lia.
Qed.

Lemma at_in_range l i : 0 <= i < count l -> exists x, at_ l i = Some x.
Proof.
  unfold at_, count. intros R. destruct (Z.ltb_spec i 0); [lia|].
  destruct (nth_error l (Z.to_nat i)) eqn:E; [eauto|].
  apply nth_error_None in E. lia.
Qed.

Lemma at_In l i x : at_ l i = Some x -> In x l.
Proof.
  unfold at_. destruct (i <? 0); [discriminate|]. apply nth_error_In.
Qed.

Lemma length_replace_nth l n x :
  List.length (replace_nth l n x) = List.length l.
Proof.
  revert n. induction l as [|h t IH]; intros [|n]; simpl; auto.
Qed.

Lemma count_replace l i x : count (replace l i x) = count l.
Proof.
  unfold count, replace. destruct (i <? 0); [reflexivity|].
  now rewrite length_replace_nth.
Qed.

Lemma nth_replace_nth_same l n x y :
  nth_error l n = Some x -> nth_error (replace_nth l n y) n = Some y.
Proof.
  revert n. induction l as [|h t IH]; intros [|n]; simpl;
    try discriminate; auto.
Qed.

Lemma nth_replace_nth_other l n k y :
  n <> k -> nth_error (replace_nth l n y) k = nth_error l k.
Proof.
  revert n k. induction l as [|h t IH]; intros [|n] [|k] N; simpl;
    auto; try congruence.
Qed.

Lemma at_replace_same l i x y :
  at_ l i = Some x -> at_ (replace l i y) i = Some y.
Proof.
  unfold at_, replace. destruct (i <? 0); [discriminate|].
  apply nth_replace_nth_same.
Qed.

Lemma at_replace_other l i j y :
  i <> j -> at_ (replace l i y) j = at_ l j.
Proof.
  unfold at_, replace. intros N.
  destruct (Z.ltb_spec i 0), (Z.ltb_spec j 0); auto.
  apply nth_replace_nth_other. lia.
Qed.

Lemma replace_nth_id l n x : nth_error l n = Some x -> replace_nth l n x = l.
Proof.
  revert n. induction l as [|h t IH]; intros [|n]; simpl;
    try discriminate.
  - now intros [= ->].
  - intros E. now rewrite IH.
Qed.

Lemma replace_id l i x : at_ l i = Some x -> replace l i x = l.
Proof.
  unfold at_, replace. destruct (i <? 0); [discriminate|].
  apply replace_nth_id.
Qed.

Lemma replace_nth_twice l n x y :
  replace_nth (replace_nth l n x) n y = replace_nth l n y.
Proof.
  revert n. induction l as [|h t IH]; intros [|n]; simpl; auto.
  now rewrite IH.
Qed.

Lemma replace_twice l i x y : replace (replace l i x) i y = replace l i y.
Proof.
  unfold replace. destruct (i <? 0); auto. apply replace_nth_twice.
Qed.

Lemma In_replace_nth l n x y :
  In y (replace_nth l n x) -> y = x \/ In y l.
Proof.
  revert n. induction l as [|h t IH]; intros [|n]; simpl; auto.
  - intros [->|H]; auto.
  - intros [->|H]; auto. destruct (IH _ H); auto.
Qed.

Lemma In_replace l i x y : In y (replace l i x) -> y = x \/ In y l.
Proof.
  unfold replace. destruct (i <? 0); auto. apply In_replace_nth.
Qed.

Lemma In_remove_nth l n y : In y (remove_nth l n) -> In y l.
Proof.
  revert n. induction l as [|h t IH]; intros [|n]; simpl; auto.
  intros [->|H]; eauto.
Qed.

Lemma In_removeAt l i y : In y (removeAt l i) -> In y l.
Proof.
  unfold removeAt. destruct (i <? 0); auto. apply In_remove_nth.
Qed.

Lemma length_remove_nth l n :
  (n < List.length l)%nat ->
  List.length (remove_nth l n) = pred (List.length l).
Proof.
  revert n. induction l as [|h t IH]; intros [|n]; simpl; try lia.
  intros L. rewrite IH by lia. lia.
Qed.

Lemma nth_remove_nth_below l n k :
  (k < n)%nat -> nth_error (remove_nth l n) k = nth_error l k.
Proof.
  revert n k. induction l as [|h t IH]; intros [|n] [|k] L; simpl;
    auto; try lia.
  apply IH. lia.
Qed.

Lemma nth_remove_nth_above l n k :
  (n <= k)%nat -> nth_error (remove_nth l n) k = nth_error l (S k).
Proof.
  revert n k. induction l as [|h t IH]; intros [|n] [|k] L;
    cbn [remove_nth nth_error]; auto; try lia.
  apply IH. lia.
Qed.

Lemma count_removeAt l i :
  0 <= i < count l -> count (removeAt l i) = count l - 1.
Proof.
  unfold count, removeAt. intros R. destruct (Z.ltb_spec i 0); [lia|].
  rewrite length_remove_nth by lia. lia.
Qed.

Lemma at_removeAt_below l i j :
  0 <= j < i -> at_ (removeAt l i) j = at_ l j.
Proof.
  unfold at_, removeAt. intros R.
  destruct (Z.ltb_spec i 0), (Z.ltb_spec j 0); try lia.
  apply nth_remove_nth_below. lia.
Qed.

Lemma at_removeAt_above l i j :
  0 <= i <= j -> at_ (removeAt l i) j = at_ l (j + 1).
Proof.
  unfold at_, removeAt. intros R.
  destruct (Z.ltb_spec i 0), (Z.ltb_spec j 0), (Z.ltb_spec (j + 1) 0);
    try lia.
  rewrite nth_remove_nth_above by lia. f_equal. lia.
Qed.

Lemma remove_nth_replace_nth l n x :
  remove_nth (replace_nth l n x) n = remove_nth l n.
Proof.
  revert n. induction l as [|h t IH]; intros [|n]; simpl; auto.
  now rewrite IH.
Qed.

Lemma removeAt_replace l i x : removeAt (replace l i x) i = removeAt l i.
Proof.
  unfold removeAt, replace. destruct (i <? 0); auto.
  apply remove_nth_replace_nth.
Qed.

Lemma at_app_last l x : at_ (l ++ [x]) (count l) = Some x.
Proof.
  unfold at_, count. destruct (Z.ltb_spec (Z.of_nat (List.length l)) 0);
    [lia|].
  rewrite Nat2Z.id, nth_error_app2, Nat.sub_diag by lia. reflexivity.
Qed.

End QListFacts.

(** ** Lookups *)

Lemma FindDeviceById_from_spec id ds k :
  0 <= k ->
  (FindDeviceById_from id ds k = -1
   /\ forall d, In d ds -> has_unique_id id d = false)
  \/ (exists info,
        k <= FindDeviceById_from id ds k < k + count ds
        /\ at_ ds (FindDeviceById_from id ds k - k) = Some info
        /\ has_unique_id id info = true).
Proof.
  revert k. induction ds as [|d ds IH]; intros k Hk; simpl.
  - left. split; [reflexivity|]. intros ? [].
  - destruct (has_unique_id id d) eqn:E.
    + right. exists d. unfold count. simpl List.length.
      rewrite Z.sub_diag. repeat split; auto; lia.
    + destruct (IH (k + 1)) as [[F N]|(info & R & L & H)]; [lia| |].
      * left. split; [exact F|]. intros d' [<-|I]; auto.
      * right. exists info. unfold count in *. simpl List.length.
        repeat split; auto; try lia.
        revert L. unfold at_.
        destruct (Z.ltb_spec (FindDeviceById_from id ds (k + 1) - (k + 1)) 0),
                 (Z.ltb_spec (FindDeviceById_from id ds (k + 1) - k) 0);
          try lia; try discriminate.
        replace (Z.to_nat (FindDeviceById_from id ds (k + 1) - k))
          with (S (Z.to_nat (FindDeviceById_from id ds (k + 1) - (k + 1))))
          by lia.
        auto.
Qed.

Lemma FindDeviceById_found m id :
  FindDeviceById m id <> -1 ->
  exists info, at_ (devices_ m) (FindDeviceById m id) = Some info
               /\ has_unique_id id info = true.
Proof.
  unfold FindDeviceById. intros N.
  destruct (FindDeviceById_from_spec id (devices_ m) 0)
    as [[F _]|(i & _ & L & H)]; [lia|contradiction|].
  rewrite Z.sub_0_r in L. eauto.
Qed.

Lemma FindDeviceById_none m id :
  FindDeviceById m id = -1 ->
  forall d, In d (devices_ m) -> has_unique_id id d = false.
Proof.
  unfold FindDeviceById. intros E.
  destruct (FindDeviceById_from_spec id (devices_ m) 0) as [[_ N]|(i & R & _)];
    [lia|exact N|lia].
Qed.

Lemma FindDeviceByUrl_from_spec w urls ds k :
  0 <= k ->
  FindDeviceByUrl_from w urls ds k = -1
  \/ (exists info,
        k <= FindDeviceByUrl_from w urls ds k < k + count ds
        /\ at_ ds (FindDeviceByUrl_from w urls ds k - k) = Some info).
Proof.
  revert k. induction ds as [|d ds IH]; intros k Hk; simpl; auto.
  destruct (has_url w urls d).
  - right. exists d. unfold count. simpl List.length.
    rewrite Z.sub_diag. repeat split; auto; lia.
  - destruct (IH (k + 1)) as [F|(info & R & L)]; [lia|auto|].
    right. exists info. unfold count in *. simpl List.length.
    split; [lia|]. revert L. unfold at_.
    destruct (Z.ltb_spec (FindDeviceByUrl_from w urls ds (k + 1) - (k + 1)) 0),
             (Z.ltb_spec (FindDeviceByUrl_from w urls ds (k + 1) - k) 0);
      try lia; try discriminate.
    replace (Z.to_nat (FindDeviceByUrl_from w urls ds (k + 1) - k))
      with (S (Z.to_nat (FindDeviceByUrl_from w urls ds (k + 1) - (k + 1))))
      by lia.
    auto.
Qed.

Lemma FindDeviceByUrl_found w m urls :
  FindDeviceByUrl w m urls <> -1 ->
  exists info, at_ (devices_ m) (FindDeviceByUrl w m urls) = Some info.
Proof.
  unfold FindDeviceByUrl. destruct urls as [|u urls]; [congruence|].
  intros N.
  destruct (FindDeviceByUrl_from_spec w (u :: urls) (devices_ m) 0)
    as [F|(i & _ & L)]; [lia|contradiction|].
  rewrite Z.sub_0_r in L. eauto.
Qed.

(** ** The primary binding *)

Lemma BestBackend_loop_In w bs best_priority ret b :
  BestBackend_loop w bs best_priority ret = Some b ->
  ret = Some b \/ In b bs.
Proof.
  revert best_priority ret.
  induction bs as [|x bs IH]; intros bp ret; simpl; auto.
  destruct (lister_ x) as [l|].
  - destruct (priority w l >? bp); intros E; apply IH in E as [E|I]; auto.
    injection E as <-. auto.
  - intros E; apply IH in E as [E|I]; auto.
Qed.

Lemma BestBackend_In w info b :
  BestBackend w info = Some b -> In b (backends_ info).
Proof.
  unfold BestBackend.
  destruct (BestBackend_loop w (backends_ info) (-1) None) eqn:E.
  - intros [= <-]. apply BestBackend_loop_In in E as [E|I];
      [discriminate|exact I].
  - destruct (backends_ info); [discriminate|]. intros [= <-]. now left.
Qed.

Lemma BestBackend_nonempty w info :
  backends_ info <> [] -> exists b, BestBackend w info = Some b.
Proof.
  unfold BestBackend. intros N.
  destruct (BestBackend_loop w (backends_ info) (-1) None); eauto.
  destruct (backends_ info); [contradiction|eauto].
Qed.

Lemma BestBackend_loop_no_lister w bs best_priority ret :
  (forall b, In b bs -> lister_ b = None) ->
  BestBackend_loop w bs best_priority ret = ret.
Proof.
  induction bs as [|x bs IH]; simpl; intros H; auto.
  rewrite (H x) by auto. auto.
Qed.

Lemma BestBackend_no_lister w info :
  (forall b, In b (backends_ info) -> lister_ b = None) ->
  BestBackend w info = hd_error (backends_ info).
Proof.
  unfold BestBackend. intros H.
  rewrite BestBackend_loop_no_lister by exact H.
  now destruct (backends_ info).
Qed.

Lemma BestBackend_backends w info info' :
  backends_ info' = backends_ info -> BestBackend w info' = BestBackend w info.
Proof. unfold BestBackend. now intros ->. Qed.

Lemma split_nonempty sep s : split sep s <> [].
Proof.
  destruct s as [|c s]; simpl; [discriminate|].
  destruct (Ascii.eqb c sep); [discriminate|].
  destruct (split sep s); discriminate.
Qed.

Lemma LoadIcon_fields w icons hint info :
  database_id_ (LoadIcon w icons hint info) = database_id_ info
  /\ device_ (LoadIcon w icons hint info) = device_ info
  /\ backends_ (LoadIcon w icons hint info) = backends_ info
  /\ task_percentage_ (LoadIcon w icons hint info) = task_percentage_ info.
Proof.
  unfold LoadIcon. destruct icons as [|first icons]; [now simpl|].
  destruct (find (IconLoader_Load w) (first :: icons)); [now simpl|].
  destruct (contains _ "phone"); [now simpl|].
  destruct (contains _ "ipod" || contains _ "apple"); now simpl.
Qed.

Lemma LoadIcon_backends w icons hint info :
  backends_ (LoadIcon w icons hint info) = backends_ info.
Proof. apply LoadIcon_fields. Qed.

Lemma set_lister_nil id l bs : set_lister id l bs = [] -> bs = [].
Proof.
  destruct bs as [|b bs]; simpl; auto.
  destruct (String.eqb (unique_id_ b) id); discriminate.
Qed.

(** ** Every listed record keeps a binding *)

Ltac break_in H :=
  match type of H with
  | context [match ?x with _ => _ end] => destruct x eqn:?
  end.

Ltac returned H :=
  cbv zeta in H; repeat break_in H; try discriminate;
  injection H as <- <-.

Lemma refresh_from_lister_backends w sender id info :
  backends_ (refresh_from_lister w sender id info) = backends_ info.
Proof. unfold refresh_from_lister. now rewrite LoadIcon_backends. Qed.

Lemma bound_replace m i info x :
  bound m -> at_ (devices_ m) i = Some info ->
  (backends_ info <> [] -> backends_ x <> []) ->
  bound (set_devices (replace (devices_ m) i x) m).
Proof.
  intros B A N y I. simpl in I. apply In_replace in I as [->|I]; auto.
  apply N, B. eapply at_In, A.
Qed.

Lemma bound_removeRow m i x :
  bound m -> bound (removeRow i (set_devices (replace (devices_ m) i x) m)).
Proof.
  intros B y I. simpl in I. rewrite removeAt_replace in I.
  apply In_removeAt in I. auto.
Qed.

Lemma app_not_nil {A} (l : list A) x : l ++ [x] <> [].
Proof. destruct l; discriminate. Qed.

Lemma PhysicalDeviceAdded_bound w sender id m m' effects :
  PhysicalDeviceAdded w sender id m = Some (m', effects) ->
  bound m -> bound m'.
Proof.
  unfold PhysicalDeviceAdded. intros H B. returned H.
  - eapply bound_replace; eauto. simpl. intros N E.
    apply set_lister_nil in E. auto.
  - eapply bound_replace; eauto. intros _.
    rewrite refresh_from_lister_backends. apply app_not_nil.
  - eapply bound_replace; eauto. intros _. apply app_not_nil.
  - intros y I. simpl in I. apply in_app_or in I as [I|[<-|[]]]; auto.
    rewrite refresh_from_lister_backends. discriminate.
Qed.

Lemma PhysicalDeviceRemoved_bound sender id m m' effects :
  PhysicalDeviceRemoved sender id m = Some (m', effects) ->
  bound m -> bound m'.
Proof.
  unfold PhysicalDeviceRemoved. intros H B. returned H; auto.
  all: try (eapply bound_replace; eauto; simpl; intros N E;
            apply set_lister_nil in E; auto).
  - now apply bound_removeRow.
  - eapply bound_replace; eauto. intros _. congruence.
Qed.


Arguments LoadIcon : simpl never.

(** Closes [bound] of a manager whose records were assigned through
    [replace] without touching their bindings. *)
Ltac keeps_bound B :=
  let y := fresh "y" in
  let I := fresh "I" in
  intros y I; simpl in I;
  repeat (apply In_replace in I as [->|I]);
  try (apply B; exact I);
  simpl; repeat rewrite LoadIcon_backends; simpl;
  apply B; eapply at_In; eassumption.

Lemma Connect_bound w row m r m' effects :
  Connect w row m = Some (r, m', effects) -> bound m -> bound m'.
Proof.
  unfold Connect. intros H B.
  cbv zeta in H; repeat break_in H; try discriminate.
  all: injection H as <- <- <-; auto.
  all: keeps_bound B.
Qed.

Lemma Disconnect_bound row m m' effects :
  Disconnect row m = Some (m', effects) -> bound m -> bound m'.
Proof.
  unfold Disconnect. intros H B. returned H; auto. keeps_bound B.
Qed.

Lemma Forget_bound w row m m' effects :
  Forget w row m = Some (m', effects) -> bound m -> bound m'.
Proof.
  unfold Forget. intros H B.
  destruct (at_ (devices_ m) row) as [info|] eqn:A; [|discriminate].
  destruct (database_id_ info =? -1); [now injection H as <- <-|].
  set (disconnected := match device_ info with
                       | Some _ => Disconnect row m
                       | None => Some (m, [])
                       end) in H.
  assert (forall m1 e1, disconnected = Some (m1, e1) -> bound m1) as B1.
  { subst disconnected. intros m1 e1 E.
    destruct (device_ info).
    - eapply Disconnect_bound; eauto.
    - now injection E as <- <-. }
  destruct disconnected as [[m1 e1]|]; [|discriminate].
  specialize (B1 _ _ eq_refl). returned H.
  - keeps_bound B1.
  - now apply bound_removeRow.
Qed.

Lemma SetDeviceIdentity_bound w row name icon m m' effects :
  SetDeviceIdentity w row name icon m = Some (m', effects) ->
  bound m -> bound m'.
Proof.
  unfold SetDeviceIdentity. intros H B.
  destruct (at_ (devices_ m) row) as [info|] eqn:A; [|discriminate].
  cbv zeta in H. injection H as <- _. keeps_bound B.
Qed.

Lemma DeviceTaskStarted_bound device id m m' effects :
  DeviceTaskStarted device id m = Some (m', effects) -> bound m -> bound m'.
Proof.
  unfold DeviceTaskStarted. intros H B. returned H; auto. keeps_bound B.
Qed.

Lemma TasksChanged_tasks_bound tasks :
  forall m finished effects m' finished' effects',
    TasksChanged_tasks tasks m finished effects
    = Some (m', finished', effects') ->
    bound m -> bound m'.
Proof.
  induction tasks as [|task tasks IH]; simpl; intros m f e m' f' e' H B.
  - now injection H as <- _ _.
  - repeat break_in H; try discriminate; eauto.
    all: eapply IH; [exact H|]; keeps_bound B.
Qed.

Lemma TasksChanged_finished_bound finished :
  forall m effects m' effects',
    TasksChanged_finished finished m effects = Some (m', effects') ->
    bound m -> bound m'.
Proof.
  induction finished as [|[[r c]|] rest IH]; simpl; intros m e m' e' H B.
  - now injection H as <- _.
  - destruct (at_ (devices_ m) r) eqn:A; [|discriminate].
    eapply IH; [exact H|]. keeps_bound B.
  - eauto.
Qed.

Lemma TasksChanged_bound tasks m m' effects :
  TasksChanged tasks m = Some (m', effects) -> bound m -> bound m'.
Proof.
  unfold TasksChanged. intros H B.
  destruct (TasksChanged_tasks tasks m (qmap_values (active_tasks_ m)) [])
    as [[[m1 f1] e1]|] eqn:E; [|discriminate].
  eapply TasksChanged_finished_bound; [exact H|].
  eapply TasksChanged_tasks_bound; eauto.
Qed.

Lemma Unmount_bound w row m m' effects :
  Unmount w row m = Some (m', effects) -> bound m -> bound m'.
Proof.
  unfold Unmount. intros H B.
  destruct (at_ (devices_ m) row) as [info|] eqn:A; [|discriminate].
  destruct (database_id_ info =? -1); [now injection H as <- <-|].
  destruct (device_ info).
  - destruct (Disconnect row m) as [[m1 e1]|] eqn:D; [|discriminate].
    apply Disconnect_bound in D; auto. returned H; auto.
  - returned H; auto.
Qed.

Lemma DeviceManager_new_bound w devices classes :
  bound (DeviceManager_new w devices classes).
Proof.
  intros info I. simpl in I. apply in_map_iff in I as (dev & <- & _).
  unfold InitFromDb. simpl. rewrite LoadIcon_backends. simpl.
  intros E. apply map_eq_nil in E. now apply split_nonempty in E.
Qed.

Lemma call_bound w c m m' effects :
  call w c m = Some (m', effects) -> bound m -> bound m'.
Proof.
  destruct c; simpl; intros H B.
  - eapply PhysicalDeviceAdded_bound; eauto.
  - eapply PhysicalDeviceRemoved_bound; eauto.
  - now injection H as <- _.
  - destruct (Connect w row m) as [[[r m1] e1]|] eqn:E; [|discriminate].
    injection H as <- _. eapply Connect_bound; eauto.
  - eapply Disconnect_bound; eauto.
  - eapply Forget_bound; eauto.
  - eapply SetDeviceIdentity_bound; eauto.
  - eapply DeviceTaskStarted_bound; eauto.
  - eapply TasksChanged_bound; eauto.
  - eapply Unmount_bound; eauto.
Qed.

Lemma reachable_bound m : reachable m -> bound m.
Proof.
  induction 1 as [w devices classes|w c m m' effects _ IH H].
  - apply DeviceManager_new_bound.
  - eapply call_bound; eauto.
Qed.

(** ** [Connect] *)

Lemma Connect_total w row m info :
  at_ (devices_ m) row = Some info ->
  backends_ info <> [] ->
  exists ret m' effects, Connect w row m = Some (ret, m', effects).
Proof.
  intros A N. unfold Connect. rewrite A.
  destruct (device_ info); [eauto|].
  destruct (BestBackend_nonempty w info N) as [b Bb]. rewrite Bb.
  destruct (lister_ b) as [l|] eqn:L; [|eauto].
  cbv zeta.
  assert (BestBackend w
            (if database_id_ info =? -1
             then set_database_id (AddDevice w (SaveToDb info)) info
             else info) = Some b) as ->.
  { destruct (database_id_ info =? -1); auto. }
  rewrite L. destruct (MakeDeviceUrls w l (unique_id_ b)); [eauto|].
  destruct (isEmpty _); [eauto|].
  match goal with
  | |- context [match ?x with Some obj => _ | None => _ end] => destruct x
  end; eauto.
Qed.

Lemma choose_url_unsupported classes urls device_url :
  unsupported classes urls ->
  fold_left
    (fun device_url url =>
       if smap_contains (scheme url) classes then url else device_url)
    urls device_url = device_url.
Proof.
  revert device_url. induction urls as [|u urls IH]; simpl; intros d U; auto.
  rewrite (U u) by (now left). apply IH. intros x I. apply U. now right.
Qed.

(** Closes the cases of a failed attempt: the record at the row is the
    saved one, without session. *)
Ltac still_saved A D :=
  simpl app; cbn [devices_ set_devices];
  rewrite (at_replace_same _ _ _ _ A); simpl; rewrite D;
  repeat split; auto; try discriminate; try contradiction; try congruence.

(** Whatever becomes of the attempt, an unpersisted record with a live
    primary binding is saved first. *)
Lemma Connect_first_time w row m info b l ret m' effects :
  at_ (devices_ m) row = Some info ->
  database_id_ info = -1 -> device_ info = None ->
  BestBackend w info = Some b -> lister_ b = Some l ->
  Connect w row m = Some (ret, m', effects) ->
  exists rest info',
    effects = backend_AddDevice (SaveToDb info) :: rest
    /\ existsb is_AddDevice rest = false
    /\ at_ (devices_ m') row = Some info'
    /\ database_id_ info' = AddDevice w (SaveToDb info)
    /\ backends_ info' = backends_ info
    /\ device_ info' = ret
    /\ (MakeDeviceUrls w l (unique_id_ b) = [] -> ret = None /\ rest = [])
    /\ (unsupported (device_classes_ m) (MakeDeviceUrls w l (unique_id_ b)) ->
        ret = None
        /\ (MakeDeviceUrls w l (unique_id_ b) <> [] ->
            rest = [Error (unsupported_message
                             (MakeDeviceUrls w l (unique_id_ b)))]))
    /\ ((forall meta_object,
            smap_find (scheme (choose_url (device_classes_ m)
                                 (MakeDeviceUrls w l (unique_id_ b))))
                      (device_classes_ m) = Some meta_object ->
            newInstance w meta_object
                        (choose_url (device_classes_ m)
                                    (MakeDeviceUrls w l (unique_id_ b)))
                        l (unique_id_ b) (AddDevice w (SaveToDb info)) true
            = None) ->
        ret = None).
Proof.
  intros A P D Bb L. unfold Connect. rewrite A, D, Bb, L. cbv zeta.
  rewrite P. change (-1 =? -1) with true. cbv iota.
  rewrite (BestBackend_backends w info) by reflexivity. rewrite Bb, L.
  set (saved := set_database_id (AddDevice w (SaveToDb info)) info).
  destruct (MakeDeviceUrls w l (unique_id_ b)) as [|u urls] eqn:U.
  - intros [= <- <- <-]. exists [], saved. simpl.
    rewrite (at_replace_same _ _ _ _ A). subst saved. simpl. rewrite D.
    repeat split; auto; congruence.
  - cbn [device_classes_ set_devices].
    destruct (isEmpty (choose_url (device_classes_ m) (u :: urls))) eqn:E.
    + intros [= <- <- <-]. eexists _, saved. subst saved. still_saved A D.
    + assert (~ unsupported (device_classes_ m) (u :: urls)) as NU.
      { intros UN. unfold choose_url in E.
        rewrite choose_url_unsupported in E by exact UN. discriminate. }
      destruct (smap_find
                  (scheme (choose_url (device_classes_ m) (u :: urls)))
                  (device_classes_ m)) as [meta|] eqn:F.
      * destruct (newInstance w meta _ l (unique_id_ b) _ true)
          as [obj|] eqn:NI.
        -- intros [= <- <- <-]. eexists _, _. simpl app.
           cbn [devices_ set_devices].
           rewrite replace_twice, (at_replace_same _ _ _ _ A). simpl.
           repeat split; auto; try discriminate; try contradiction.
           intros H. specialize (H _ eq_refl). simpl in NI. congruence.
        -- intros [= <- <- <-]. eexists _, saved. subst saved. still_saved A D.
      * intros [= <- <- <-]. eexists _, saved. subst saved. still_saved A D.
Qed.

(** A persisted record is never saved again by [Connect]. *)
Lemma Connect_persisted w row m info :
  at_ (devices_ m) row = Some info ->
  database_id_ info <> -1 ->
  backends_ info <> [] ->
  exists ret m' effects info',
    Connect w row m = Some (ret, m', effects)
    /\ existsb is_AddDevice effects = false
    /\ at_ (devices_ m') row = Some info'
    /\ database_id_ info' = database_id_ info
    /\ backends_ info' = backends_ info.
Proof.
  intros A P N.
  destruct (Connect_total w row m info A N) as (ret & m' & effects & H).
  exists ret, m', effects. rewrite H.
  unfold Connect in H. rewrite A in H. cbv zeta in H.
  apply Z.eqb_neq in P. rewrite P in H.
  repeat break_in H; try discriminate; injection H as <- <- <-;
    cbn [devices_ set_devices]; rewrite ?replace_twice;
    try rewrite (at_replace_same _ _ _ _ A);
    eexists; (split; [reflexivity|]); (split; [reflexivity|]);
    (split; [eassumption || reflexivity|]); split; reflexivity.
Qed.

Lemma Disconnect_persisted row m info :
  at_ (devices_ m) row = Some info ->
  exists m' effects info',
    Disconnect row m = Some (m', effects)
    /\ existsb is_AddDevice effects = false
    /\ at_ (devices_ m') row = Some info'
    /\ database_id_ info' = database_id_ info
    /\ backends_ info' = backends_ info.
Proof.
  intros A. unfold Disconnect. rewrite A. destruct (device_ info).
  - eexists _, _, _. split; [reflexivity|]. simpl.
    rewrite (at_replace_same _ _ _ _ A). auto.
  - eexists _, _, _. split; [reflexivity|]. simpl. rewrite A. auto.
Qed.

Lemma connect_disconnect_cycles row d bs cs :
  d <> -1 -> bs <> [] ->
  Forall (connects_or_disconnects row) cs ->
  forall m info,
    at_ (devices_ m) row = Some info ->
    database_id_ info = d -> backends_ info = bs ->
    exists m' effects,
      calls cs m = Some (m', effects)
      /\ existsb is_AddDevice effects = false
      /\ GetDatabaseId m' row = Some d.
Proof.
  intros P N. induction 1 as [|[w c] cs [C|C] _ IH]; intros m info A Hd Hb.
  - exists m, []. unfold GetDatabaseId. rewrite A. simpl. now subst.
  - simpl in C. subst c. simpl.
    destruct (Connect_persisted w row m info A)
      as (ret & m1 & e1 & info1 & H & E1 & A1 & D1 & B1);
      [congruence|congruence|].
    rewrite H.
    destruct (IH m1 info1 A1) as (m2 & e2 & H2 & E2 & G2);
      [congruence|congruence|].
    rewrite H2. exists m2, (e1 ++ e2). repeat split; auto.
    rewrite existsb_app, E1, E2. reflexivity.
  - simpl in C. subst c. simpl.
    destruct (Disconnect_persisted row m info A)
      as (m1 & e1 & info1 & H & E1 & A1 & D1 & B1).
    rewrite H.
    destruct (IH m1 info1 A1) as (m2 & e2 & H2 & E2 & G2);
      [congruence|congruence|].
    rewrite H2. exists m2, (e1 ++ e2). repeat split; auto.
    rewrite existsb_app, E1, E2. reflexivity.
Qed.

(** C5: the first [Connect] of an unpersisted, physically present row
    saves the record (one [AddDevice], whose answer becomes the
    [database_id_]); afterwards no sequence of [Connect] and [Disconnect]
    calls on that row, in whatever worlds, calls [AddDevice] again, and
    the [database_id_] stays the one assigned. *)
Theorem C5_first_connect_promotes_once w row m info b l :
  at_ (devices_ m) row = Some info ->
  database_id_ info = -1 -> device_ info = None ->
  BestBackend w info = Some b -> lister_ b = Some l ->
  AddDevice w (SaveToDb info) <> -1 ->
  exists ret m1 rest,
    Connect w row m
    = Some (ret, m1, backend_AddDevice (SaveToDb info) :: rest)
    /\ existsb is_AddDevice rest = false
    /\ GetDatabaseId m1 row = Some (AddDevice w (SaveToDb info))
    /\ forall cs,
        Forall (connects_or_disconnects row) cs ->
        exists m2 effects,
          calls cs m1 = Some (m2, effects)
          /\ existsb is_AddDevice effects = false
          /\ GetDatabaseId m2 row = Some (AddDevice w (SaveToDb info)).
Proof.
  intros A P D Bb L V.
  assert (backends_ info <> []) as N.
  { apply BestBackend_In in Bb. now destruct (backends_ info). }
  destruct (Connect_total w row m info A N) as (ret & m1 & effects & H).
  destruct (Connect_first_time w row m info b l ret m1 effects A P D Bb L H)
    as (rest & info1 & -> & E & A1 & D1 & B1 & _).
  exists ret, m1, rest. repeat split; auto.
  - unfold GetDatabaseId. rewrite A1. simpl. now rewrite D1.
  - intros cs F.
    eapply connect_disconnect_cycles with (bs := backends_ info); eauto.
Qed.

(** C10: when [Connect] is called on an unpersisted row whose primary
    binding is live, [AddDevice] is its first effect and its answer is
    stored as the [database_id_] of the record, whatever happens next; in
    particular when the URL list is empty, when no scheme is registered or
    when the construction fails, no session is returned or stored and the
    record nevertheless stays persisted. *)
Theorem C10_failed_connect_stays_persisted w row m info b l :
  at_ (devices_ m) row = Some info ->
  database_id_ info = -1 -> device_ info = None ->
  BestBackend w info = Some b -> lister_ b = Some l ->
  AddDevice w (SaveToDb info) <> -1 ->
  let urls := MakeDeviceUrls w l (unique_id_ b) in
  let device_url := choose_url (device_classes_ m) urls in
  exists ret m' rest info',
    Connect w row m
    = Some (ret, m', backend_AddDevice (SaveToDb info) :: rest)
    /\ at_ (devices_ m') row = Some info'
    /\ database_id_ info' = AddDevice w (SaveToDb info)
    /\ database_id_ info' <> -1
    /\ device_ info' = ret
    /\ (urls = [] -> ret = None)
    /\ (unsupported (device_classes_ m) urls -> ret = None)
    /\ ((forall meta_object,
            smap_find (scheme device_url) (device_classes_ m)
            = Some meta_object ->
            newInstance w meta_object device_url l (unique_id_ b)
                        (AddDevice w (SaveToDb info)) true = None) ->
        ret = None).
Proof.
  intros A P D Bb L V urls device_url.
  assert (backends_ info <> []) as N.
  { apply BestBackend_In in Bb. now destruct (backends_ info). }
  destruct (Connect_total w row m info A N) as (ret & m1 & effects & H).
  destruct (Connect_first_time w row m info b l ret m1 effects A P D Bb L H)
    as (rest & info1 & -> & E & A1 & D1 & B1 & S1 & F1 & F2 & F3).
  exists ret, m1, rest, info1. repeat split; auto.
  - congruence.
  - intros U. now apply F1.
  - intros U. now apply F2.
Qed.

Import Scenario.

(** The manager of the scenario is the one the code builds when lister 0
    reports "X" to an empty registry. *)
Example scenario_X_present :
  PhysicalDeviceAdded (world [usb_dev1] 1 None) 0%nat "X" empty
  = Some (manager [X_present], [rowsInserted 0 0]).
Proof. reflexivity. Qed.

(** When no candidate URL has a registered scheme the error carries every
    attempted URL and no session is returned. *)
Lemma Connect_unsupported_device_type w row m info b l :
  at_ (devices_ m) row = Some info ->
  database_id_ info <> -1 -> device_ info = None ->
  BestBackend w info = Some b -> lister_ b = Some l ->
  MakeDeviceUrls w l (unique_id_ b) <> [] ->
  unsupported (device_classes_ m) (MakeDeviceUrls w l (unique_id_ b)) ->
  Connect w row m
  = Some (None, set_devices (replace (devices_ m) row info) m,
          [Error (unsupported_message (MakeDeviceUrls w l (unique_id_ b)))]).
Proof.
  intros A P D Bb L N U. unfold Connect. rewrite A, D, Bb, L. cbv zeta.
  apply Z.eqb_neq in P. rewrite P, Bb, L.
  destruct (MakeDeviceUrls w l (unique_id_ b)) as [|u urls]; [contradiction|].
  cbn [device_classes_ set_devices]. unfold choose_url.
  rewrite choose_url_unsupported by exact U. reflexivity.
Qed.

(** C1: a run of [Connect] on a record whose lister offers two URLs, both
    with a registered scheme: the session is built for the second URL, the
    last one with a registered scheme, and not for the first. *)
Theorem C1_Connect_takes_last_registered_url :
  MakeDeviceUrls (world [usb_dev1; file_dev1] 1 (Some 7%nat)) 0%nat "X"
  = [usb_dev1; file_dev1]
  /\ smap_contains (scheme usb_dev1) classes = true
  /\ smap_contains (scheme file_dev1) classes = true
  /\ exists ret m' effects,
      Connect (world [usb_dev1; file_dev1] 1 (Some 7%nat)) 0
              (manager [X_present])
      = Some (Some ret, m', effects)
      /\ url_ ret = file_dev1
      /\ url_ ret <> usb_dev1.
Proof.
  repeat split. eexists _, _, _. split; [reflexivity|].
  split; [reflexivity|discriminate].
Qed.

(** C2: a run of [Connect] in which the factory returns null: the record
    stays without session, the warning is logged, and [DeviceConnected] is
    emitted all the same. *)
Theorem C2_DeviceConnected_emitted_without_session :
  exists info',
    Connect (world [usb_dev1] 1 None) 0 (manager [X_present])
    = Some (None, manager [info'],
            [backend_AddDevice (SaveToDb X_present);
             qWarning "Could not create device for usb://dev1";
             DeviceConnected 0])
    /\ device_ info' = None.
Proof. eexists. split; reflexivity. Qed.

(** C7, as the code has it: on a row whose primary binding has no live
    lister, [Connect] returns what the record holds as session (none,
    unless one is already stored), leaves the manager as it is and has no
    effect at all: no [Error] is emitted. *)
Theorem C7_Connect_on_absent_device_is_silent w row m info b :
  at_ (devices_ m) row = Some info ->
  BestBackend w info = Some b -> lister_ b = None ->
  Connect w row m = Some (device_ info, m, []).
Proof.
  intros A Bb L. unfold Connect. rewrite A.
  destruct (device_ info); [reflexivity|]. now rewrite Bb, L.
Qed.

Lemma C7_witness :
  Connect (world [usb_dev1] 1 None) 0 (manager [X_remembered])
  = Some (device_ X_remembered, manager [X_remembered], []).
Proof.
  apply (C7_Connect_on_absent_device_is_silent
           (world [usb_dev1] 1 None) 0 (manager [X_remembered])
           X_remembered (mkBackend None "X"));
    reflexivity.
Defined.

(** C7 as stated fails on a remembered device: its primary binding has
    no live lister, and the call reports nothing on the error channel. *)
Lemma C7_counterexample :
  option_map lister_ (BestBackend (world [usb_dev1] 1 None) X_remembered)
  = Some None
  /\ ~ exists ret m' effects message,
        Connect (world [usb_dev1] 1 None) 0 (manager [X_remembered])
        = Some (ret, m', effects)
        /\ In (Error message) effects.
Proof.
  split; [reflexivity|].
  intros (ret & m' & effects & message & H & I).
  vm_compute in H. injection H as _ _ <-. exact I.
Qed.

Lemma C5_witness :
  exists ret m1 rest,
    Connect (world [usb_dev1] 1 (Some 7%nat)) 0 (manager [X_present])
    = Some (ret, m1, backend_AddDevice (SaveToDb X_present) :: rest)
    /\ existsb is_AddDevice rest = false
    /\ GetDatabaseId m1 0 = Some 1
    /\ forall cs,
        Forall (connects_or_disconnects 0) cs ->
        exists m2 effects,
          calls cs m1 = Some (m2, effects)
          /\ existsb is_AddDevice effects = false
          /\ GetDatabaseId m2 0 = Some 1.
Proof.
  apply (C5_first_connect_promotes_once
           (world [usb_dev1] 1 (Some 7%nat)) 0 (manager [X_present])
           X_present (mkBackend (Some 0%nat) "X") 0%nat);
    try reflexivity.
  vm_compute. discriminate.
Defined.

Lemma C10_witness :
  exists ret m' rest info',
    Connect (world [] 1 None) 0 (manager [X_present])
    = Some (ret, m', backend_AddDevice (SaveToDb X_present) :: rest)
    /\ at_ (devices_ m') 0 = Some info'
    /\ database_id_ info' = 1
    /\ database_id_ info' <> -1
    /\ device_ info' = ret
    /\ (MakeDeviceUrls (world [] 1 None) 0%nat "X" = [] -> ret = None)
    /\ (unsupported classes (MakeDeviceUrls (world [] 1 None) 0%nat "X") ->
        ret = None)
    /\ ((forall meta_object,
            smap_find (scheme (choose_url classes []))  classes
            = Some meta_object ->
            newInstance (world [] 1 None) meta_object (choose_url classes [])
                        0%nat "X" 1 true = None) ->
        ret = None).
Proof.
  apply (C10_failed_connect_stays_persisted
           (world [] 1 None) 0 (manager [X_present])
           X_present (mkBackend (Some 0%nat) "X") 0%nat);
    try reflexivity.
  vm_compute. discriminate.
Defined.

(** ** Reads of a row *)

(** C9: in every manager a run can reach, each listed record has a
    non-empty [backends_]; [BestBackend] therefore answers one of its
    bindings and never null, the first binding when no binding has a live
    lister; and no read of [data] on the row dereferences null. *)
Theorem C9_listed_record_has_primary_binding m :
  reachable m ->
  forall w row info,
    at_ (devices_ m) row = Some info ->
    backends_ info <> []
    /\ (exists b, BestBackend w info = Some b /\ In b (backends_ info))
    /\ ((forall b, In b (backends_ info) -> lister_ b = None) ->
        BestBackend w info = hd_error (backends_ info)
        /\ hd_error (backends_ info) <> None)
    /\ forall role, data w m (Some (row, 0)) role <> None.
Proof.
  intros R w row info A.
  assert (backends_ info <> []) as N.
  { eapply reachable_bound; eauto. eapply at_In; eauto. }
  destruct (BestBackend_nonempty w info N) as [b Bb].
  repeat split; auto.
  - exists b. split; auto. eapply BestBackend_In; eauto.
  - now apply BestBackend_no_lister.
  - now destruct (backends_ info).
  - intros role. unfold data. change (negb (0 =? 0)) with false. cbv iota.
    rewrite A, Bb. destruct role; simpl; try discriminate.
    + destruct (negb (String.eqb (friendly_name_ info) EmptyString));
        destruct (negb (size_ info =? 0)); discriminate.
    + destruct (device_ info); discriminate.
    + destruct (task_percentage_ info =? -1); discriminate.
    + destruct (device_ info); discriminate.
Qed.

Lemma C9_witness :
  backends_ X_present <> []
  /\ (exists b, BestBackend (world [] 1 None) X_present = Some b
                /\ In b (backends_ X_present))
  /\ ((forall b, In b (backends_ X_present) -> lister_ b = None) ->
      BestBackend (world [] 1 None) X_present
      = hd_error (backends_ X_present)
      /\ hd_error (backends_ X_present) <> None)
  /\ forall role,
      data (world [] 1 None) (manager [X_present]) (Some (0, 0)) role
      <> None.
Proof.
  apply (C9_listed_record_has_primary_binding
           (manager [X_present])
           (reachable_call (world [usb_dev1] 1 None)
                           (CallPhysicalDeviceAdded 0%nat "X")
                           empty (manager [X_present]) [rowsInserted 0 0]
                           (reachable_new (world [] 1 None) [] classes)
                           eq_refl)
           (world [] 1 None) 0 X_present eq_refl).
Defined.

(** ** A lister takes a device away *)

Lemma set_lister_first id l pre x post :
  (forall b, In b pre -> unique_id_ b <> id) ->
  set_lister id l (pre ++ mkBackend x id :: post)
  = pre ++ mkBackend l id :: post.
Proof.
  induction pre as [|b pre IH]; simpl; intros H.
  - now rewrite String.eqb_refl.
  - destruct (String.eqb_spec (unique_id_ b) id) as [E|_].
    + exfalso. eapply H; eauto.
    + now rewrite IH by auto.
Qed.

Lemma index_in_range m r :
  0 <= r < rowCount m -> index m r 0 = Some (r, 0).
Proof.
  unfold index. intros R.
  destruct (Z.leb_spec 0 r), (Z.ltb_spec r (rowCount m)); try lia.
  reflexivity.
Qed.

Lemma on_model_range m r c :
  on_model m (Some (r, c)) -> 0 <= r < rowCount m /\ c = 0.
Proof.
  unfold on_model, index.
  destruct (Z.leb_spec 0 r), (Z.ltb_spec r (rowCount m)),
           (Z.eqb_spec c 0); simpl; try discriminate.
  intros _. lia.
Qed.

(** C3, as the code has it: when a lister removes the only live binding of
    a persisted record, the record and all its bindings stay where they
    are, that binding loses its lister, a session made by that lister is
    dropped, and once the record has no session its state reads
    [State_Remembered]. *)
Theorem C3_removed_persisted_record_is_remembered
        w sender id m i info pre post :
  FindDeviceById m id = i ->
  at_ (devices_ m) i = Some info ->
  database_id_ info <> -1 ->
  backends_ info = pre ++ mkBackend (Some sender) id :: post ->
  (forall b, In b pre -> lister_ b = None /\ unique_id_ b <> id) ->
  (forall b, In b post -> lister_ b = None) ->
  exists m' info',
    PhysicalDeviceRemoved sender id m
    = Some (m',
            dataChanged (Some (i, 0)) (Some (i, 0))
            :: match device_ info' with
               | None => [DeviceDisconnected i]
               | Some _ => []
               end)
    /\ rowCount m' = rowCount m
    /\ at_ (devices_ m') i = Some info'
    /\ (forall j, j <> i -> at_ (devices_ m') j = at_ (devices_ m) j)
    /\ database_id_ info' = database_id_ info
    /\ backends_ info' = pre ++ mkBackend None id :: post
    /\ (forall d, device_ info = Some d -> lister d = sender ->
                  device_ info' = None)
    /\ (device_ info' = None ->
        data w m' (Some (i, 0)) Role_State = Some (VState State_Remembered)).
Proof.
  intros F A P Bs Hpre Hpost.
  pose proof (at_range _ _ _ A) as R.
  unfold PhysicalDeviceRemoved. rewrite F.
  destruct (Z.eqb_spec i (-1)) as [E|_]; [lia|]. rewrite A.
  apply Z.eqb_neq in P. rewrite P. cbv zeta. cbn [negb].
  rewrite Bs, set_lister_first by (intros b I; now apply Hpre).
  rewrite index_in_range by exact R.
  eexists _, _. split; [reflexivity|].
  cbn [devices_ set_devices]. unfold rowCount. cbn [devices_ set_devices].
  rewrite count_replace, (at_replace_same _ _ _ _ A).
  split; [reflexivity|]. split; [reflexivity|].
  split; [intros j N; now apply at_replace_other|].
  assert (forall x : DeviceInfo,
             backends_ x = pre ++ mkBackend None id :: post ->
             device_ x = None ->
             data w (mkDeviceManager (replace (devices_ m) i x)
                                     (device_classes_ m) (active_tasks_ m)
                                     (persistent_ m))
                  (Some (i, 0)) Role_State
             = Some (VState State_Remembered)) as S.
  { intros x Bx Dx. unfold data. change (negb (0 =? 0)) with false.
    cbv iota. cbn [devices_]. rewrite (at_replace_same _ _ _ _ A), Dx.
    assert (backends_ x <> []) as N by (rewrite Bx; now destruct pre).
    destruct (BestBackend_nonempty w x N) as [b Bb]. rewrite Bb. simpl.
    apply BestBackend_In in Bb. rewrite Bx in Bb.
    apply in_app_or in Bb as [I|[<-|I]].
    - now rewrite (proj1 (Hpre b I)).
    - reflexivity.
    - now rewrite (Hpost b I). }
  destruct (device_ info) as [d|] eqn:D; cbn [device_ set_backends];
    rewrite ?D.
  - destruct (Nat.eqb_spec (lister d) sender) as [E|NE];
      cbn [device_ set_device database_id_ backends_].
    + repeat split; auto. intros _. apply S; auto.
    + repeat split; auto; try congruence. intros X. apply S; auto.
  - repeat split; auto; try discriminate; try (intros _; apply S; auto).
Qed.

Lemma C3_witness :
  exists m' info',
    PhysicalDeviceRemoved 0%nat "X" (manager [X_connected])
    = Some (m',
            dataChanged (Some (0, 0)) (Some (0, 0))
            :: match device_ info' with
               | None => [DeviceDisconnected 0]
               | Some _ => []
               end)
    /\ rowCount m' = rowCount (manager [X_connected])
    /\ at_ (devices_ m') 0 = Some info'
    /\ (forall j, j <> 0 ->
                  at_ (devices_ m') j
                  = at_ (devices_ (manager [X_connected])) j)
    /\ database_id_ info' = database_id_ X_connected
    /\ backends_ info' = [] ++ mkBackend None "X" :: []
    /\ (forall d, device_ X_connected = Some d -> lister d = 0%nat ->
                  device_ info' = None)
    /\ (device_ info' = None ->
        data (world [] 1 None) m' (Some (0, 0)) Role_State
        = Some (VState State_Remembered)).
Proof.
  apply (C3_removed_persisted_record_is_remembered
           (world [] 1 None) 0%nat "X" (manager [X_connected]) 0 X_connected
           [] []); try reflexivity.
  - vm_compute. discriminate.
  - intros b [].
  - intros b [].
Defined.

(** C3 as stated fails on a persisted, connected record with one binding:
    after the removal its state reads [State_Remembered], not
    [State_NotConnected]. *)
Lemma C3_counterexample :
  exists m' effects,
    PhysicalDeviceRemoved 0%nat "X" (manager [X_connected])
    = Some (m', effects)
    /\ data (world [] 1 None) m' (Some (0, 0)) Role_State
       = Some (VState State_Remembered)
    /\ data (world [] 1 None) m' (Some (0, 0)) Role_State
       <> Some (VState State_NotConnected).
Proof.
  eexists _, _. split; [reflexivity|]. split; [reflexivity|discriminate].
Qed.

Lemma removedPersistentIndex_moved_twice m m' i idx :
  0 <= i -> rowCount m' = rowCount m - 1 ->
  on_model m idx ->
  moved_twice i idx (removedPersistentIndex m' i idx).
Proof.
  intros Hi C O. destruct idx as [[r c]|]; [|constructor].
  apply on_model_range in O as [R ->].
  unfold removedPersistentIndex, changePersistentIndex. cbv zeta.
  destruct (Z.gtb_spec r i) as [G|G].
  - destruct (Z.eqb_spec r i) as [E|_]; [lia|].
    rewrite index_in_range by lia. unfold rowsRemoved_moved.
    destruct (Z.eq_dec r 1) as [->|N].
    + replace i with 0 by lia. unfold index. simpl. now constructor.
    + rewrite index_in_range by lia.
      replace (r - 1 - 1) with (r - 2) by lia. constructor; lia.
  - destruct (Z.eqb_spec r i) as [->|N]; constructor. lia.
Qed.

(** What the removal does when a lister removes the only binding of an
    unpersisted record: the record leaves the list, the rows below it
    keep their place, the rows above it move down by one, and the
    persistent indexes are left as [moved_twice] says. *)
Lemma unpersisted_record_is_removed sender id m i info b :
  FindDeviceById m id = i ->
  at_ (devices_ m) i = Some info ->
  database_id_ info = -1 ->
  backends_ info = [b] ->
  Forall (on_model m) (persistentIndexList m) ->
  exists m',
    PhysicalDeviceRemoved sender id m = Some (m', [rowsRemoved i i])
    /\ devices_ m' = removeAt (devices_ m) i
    /\ rowCount m' = rowCount m - 1
    /\ (forall j, 0 <= j < i -> at_ (devices_ m') j = at_ (devices_ m) j)
    /\ (forall j, i <= j -> at_ (devices_ m') j = at_ (devices_ m) (j + 1))
    /\ Forall2 (moved_twice i) (persistentIndexList m)
               (persistentIndexList m').
Proof.
  intros F A P Bs W.
  pose proof (at_range _ _ _ A) as R.
  assert (String.eqb (unique_id_ b) id = true) as U.
  { destruct (FindDeviceById_found m id) as (info' & A' & H); [lia|].
    rewrite F, A in A'. injection A' as <-.
    unfold has_unique_id in H. rewrite Bs in H. simpl in H.
    now rewrite orb_false_r in H. }
  unfold PhysicalDeviceRemoved. rewrite F.
  destruct (Z.eqb_spec i (-1)) as [E|_]; [lia|]. rewrite A, P.
  change (negb (-1 =? -1)) with false. cbv iota zeta.
  cbn [backends_ set_backends]. rewrite Bs. cbn [remove_backend].
  rewrite U. eexists. split; [reflexivity|].
  assert (count (removeAt (devices_ m) i) = count (devices_ m) - 1) as C
    by now apply count_removeAt.
  unfold removeRow, rowCount.
  cbn [devices_ set_devices active_tasks_ persistent_ device_classes_].
  rewrite removeAt_replace. split; [reflexivity|]. split; [exact C|].
  split; [intros j Hj; now apply at_removeAt_below|].
  split; [intros j Hj; apply at_removeAt_above; lia|].
  unfold persistentIndexList, qmap_values in *.
  cbn [active_tasks_ persistent_]. rewrite map_map. cbn [snd fst].
  rewrite <- (map_map snd), <- map_app.
  induction W as [|idx l O _ IH]; simpl; constructor; auto.
  apply (removedPersistentIndex_moved_twice m); auto; lia.
Qed.

(** C6: a lister removes the only binding of the unpersisted record on
    row 0 of three rows, a view holding a persistent index on each row.
    The record leaves the list and its index becomes invalid, but the
    indexes above it are not renumbered down by one: the loop of the file
    moves them down by one and [endRemoveRows], which noted them in
    [beginRemoveRows], moves them again, so the index of row 1 becomes
    invalid and the index of row 2 designates row 0, where the record of
    the old row 1 now is. *)
Theorem C6_references_above_are_moved_twice :
  exists m',
    PhysicalDeviceRemoved 0%nat "X" three_devices
    = Some (m', [rowsRemoved 0 0])
    /\ devices_ m' = [Y_present; Z_present]
    /\ persistentIndexList three_devices
       = [Some (0, 0); Some (1, 0); Some (2, 0)]
    /\ persistentIndexList m' = [None; None; Some (0, 0)]
    /\ ~ renumbered 0 (Some (1, 0)) None
    /\ ~ renumbered 0 (Some (2, 0)) (Some (0, 0))
    /\ ~ Forall2 (renumbered 0) (persistentIndexList three_devices)
                 (persistentIndexList m').
Proof.
  eexists. split; [reflexivity|]. do 3 (split; [reflexivity|]).
  assert (~ renumbered 0 (Some (1, 0)) None) as N1.
  { intros H. inversion H. }
  assert (~ renumbered 0 (Some (2, 0)) (Some (0, 0))) as N2.
  { intros H. inversion H; lia. }
  do 2 (split; [assumption|]).
  intros H. inversion H as [|? ? ? ? _ H']. subst.
  inversion H' as [|? ? ? ? H1 _]. subst. exact (N1 H1).
Qed.

(** The same on a run from the constructor, with the index of a tracked
    task: "X" and "Y" are reported, "Y" is connected and starts task 5,
    "X" is removed.  The index of the task, on row 1, becomes invalid
    instead of designating row 0, and the next refresh skips the task. *)
Example task_index_lost_on_removal :
  option_map
    (fun r => (active_tasks_ (fst r),
               map task_percentage_ (devices_ (fst r)), snd r))
    (calls [(world [] 1 None, CallPhysicalDeviceAdded 0%nat "X");
            (world [] 1 None, CallPhysicalDeviceAdded 0%nat "Y");
            (world [usb_dev1] 1 (Some 7%nat), CallConnect 1);
            (world [] 1 None, CallDeviceTaskStarted (Some 7%nat) 5);
            (world [] 1 None, CallPhysicalDeviceRemoved 0%nat "X");
            (world [] 1 None, CallTasksChanged [mkTask 5 5 10])]
           empty)
  = Some ([(5, None)], [0],
          [rowsInserted 0 0; rowsInserted 1 1; backend_AddDevice
             (SaveToDb Y_present);
           dataChanged (Some (1, 0)) (Some (1, 0)); DeviceConnected 1;
           dataChanged (Some (1, 0)) (Some (1, 0)); rowsRemoved 0 0]).
Proof. reflexivity. Qed.

(** ** A lister reports a device *)

Lemma with_unique_id_none id bs :
  existsb (fun b => String.eqb (unique_id_ b) id) bs = false ->
  with_unique_id id bs = [].
Proof.
  induction bs as [|b bs IH]; simpl; auto.
  destruct (String.eqb (unique_id_ b) id); simpl; [discriminate|auto].
Qed.

Lemma with_unique_id_absent id ds :
  (forall d, In d ds -> has_unique_id id d = false) ->
  with_unique_id id (flat_map backends_ ds) = [].
Proof.
  induction ds as [|d ds IH]; simpl; intros H; auto.
  unfold with_unique_id in *. rewrite filter_app, IH by auto.
  fold (with_unique_id id (backends_ d)).
  rewrite (with_unique_id_none id (backends_ d)) by (apply H; now left).
  reflexivity.
Qed.

Lemma flat_map_replace_nth ds n x y :
  nth_error ds n = Some y ->
  exists before after,
    flat_map backends_ ds = before ++ backends_ y ++ after
    /\ flat_map backends_ (replace_nth ds n x)
       = before ++ backends_ x ++ after.
Proof.
  revert n. induction ds as [|d ds IH]; intros [|n]; simpl;
    try discriminate.
  - intros [= ->]. exists [], (flat_map backends_ ds). auto.
  - intros E. destruct (IH n E) as (before & after & -> & ->).
    exists (backends_ d ++ before), after. now rewrite <- !app_assoc.
Qed.

Lemma flat_map_replace ds i x y :
  at_ ds i = Some y ->
  exists before after,
    flat_map backends_ ds = before ++ backends_ y ++ after
    /\ flat_map backends_ (replace ds i x) = before ++ backends_ x ++ after.
Proof.
  unfold at_, replace. destruct (i <? 0); [discriminate|].
  apply flat_map_replace_nth.
Qed.

Lemma set_lister_has id l bs :
  existsb (fun b => String.eqb (unique_id_ b) id) (set_lister id l bs)
  = existsb (fun b => String.eqb (unique_id_ b) id) bs.
Proof.
  induction bs as [|b bs IH]; simpl; auto.
  destruct (String.eqb (unique_id_ b) id) eqn:E; simpl; rewrite E; auto.
Qed.

Lemma set_lister_again id l bs :
  set_lister id l (set_lister id l bs) = set_lister id l bs.
Proof.
  induction bs as [|b bs IH]; simpl; auto.
  destruct (String.eqb (unique_id_ b) id) eqn:E; simpl; rewrite E; congruence.
Qed.

(** With at most one binding of that id, the bindings of that id after
    [set_lister] are the one binding, now attached to [l]. *)
Lemma set_lister_with_unique_id id l bs :
  existsb (fun b => String.eqb (unique_id_ b) id) bs = true ->
  (List.length (with_unique_id id bs) <= 1)%nat ->
  with_unique_id id (set_lister id l bs) = [mkBackend l id].
Proof.
  unfold with_unique_id. induction bs as [|b bs IH]; simpl; [discriminate|].
  destruct (String.eqb_spec (unique_id_ b) id) as [E|N]; simpl.
  - intros _ L. rewrite E, String.eqb_refl.
    destruct (filter _ bs); [reflexivity|simpl in L; lia].
  - apply String.eqb_neq in N. rewrite N. exact IH.
Qed.

Lemma not_has_unique_id id bs b :
  existsb (fun b => String.eqb (unique_id_ b) id) bs = false ->
  In b bs -> unique_id_ b <> id.
Proof.
  intros H I E. apply String.eqb_eq in E.
  assert (existsb (fun b => String.eqb (unique_id_ b) id) bs = true)
    by (apply existsb_exists; eauto).
  congruence.
Qed.

Lemma FindDeviceById_from_ext id ds :
  forall ds' k,
    map (has_unique_id id) ds' = map (has_unique_id id) ds ->
    FindDeviceById_from id ds' k = FindDeviceById_from id ds k.
Proof.
  induction ds as [|d ds IH]; intros [|d' ds'] k; simpl; try discriminate;
    auto.
  intros [= -> E]. now rewrite (IH ds').
Qed.

Lemma map_replace_nth {A B} (f : A -> B) l n x y :
  nth_error l n = Some y -> f x = f y ->
  map f (replace_nth l n x) = map f l.
Proof.
  revert n. induction l as [|h t IH]; intros [|n]; simpl; try discriminate.
  - now intros [= ->] ->.
  - intros E F. now rewrite IH.
Qed.

Lemma map_replace {A B} (f : A -> B) l i x y :
  at_ l i = Some y -> f x = f y -> map f (replace l i x) = map f l.
Proof.
  unfold at_, replace. destruct (i <? 0); [discriminate|].
  apply map_replace_nth.
Qed.

Lemma FindDeviceById_from_replace_nth id ds :
  forall n k x y,
    (forall d, In d ds -> has_unique_id id d = false) ->
    nth_error ds n = Some y -> has_unique_id id x = true ->
    FindDeviceById_from id (replace_nth ds n x) k = k + Z.of_nat n.
Proof.
  induction ds as [|d ds IH]; intros [|n] k x y H E T; simpl;
    try discriminate.
  - rewrite T. lia.
  - rewrite (H d) by (now left).
    rewrite (IH n (k + 1) x y); auto; [lia|]. intros d' I. apply H. now right.
Qed.

Lemma FindDeviceById_from_app id ds :
  forall k x,
    (forall d, In d ds -> has_unique_id id d = false) ->
    has_unique_id id x = true ->
    FindDeviceById_from id (ds ++ [x]) k = k + count ds.
Proof.
  unfold count. induction ds as [|d ds IH]; intros k x H T; simpl.
  - rewrite T. lia.
  - rewrite (H d) by (now left). rewrite IH; auto; [lia|].
    intros d' I. apply H. now right.
Qed.

(** A second report of an id whose first binding already points at the
    sender changes nothing and emits one [dataChanged]. *)
Lemma PhysicalDeviceAdded_again w sender id m i info :
  FindDeviceById m id = i ->
  at_ (devices_ m) i = Some info ->
  set_lister id (Some sender) (backends_ info) = backends_ info ->
  PhysicalDeviceAdded w sender id m
  = Some (m, [dataChanged (Some (i, 0)) (Some (i, 0))]).
Proof.
  intros F A S. pose proof (at_range _ _ _ A) as R.
  unfold PhysicalDeviceAdded. rewrite F.
  destruct (Z.eqb_spec i (-1)) as [E|_]; [lia|]. cbn [negb]. rewrite A.
  cbv zeta. rewrite S, index_in_range by exact R.
  replace (set_backends (backends_ info) info) with info by now destruct info.
  rewrite (replace_id _ _ _ A). now destruct m.
Qed.

(** The three ways [PhysicalDeviceAdded] ends: the id is known and its
    first binding is attached to the sender; the id is new and a binding is
    appended to the record that shares a URL; the id is new and a record is
    appended. *)
Lemma PhysicalDeviceAdded_cases w sender id m :
  exists ds effects,
    PhysicalDeviceAdded w sender id m
    = Some (set_devices ds m, effects)
    /\ ((exists info,
            at_ (devices_ m) (FindDeviceById m id) = Some info
            /\ has_unique_id id info = true
            /\ ds = replace (devices_ m) (FindDeviceById m id)
                            (set_backends
                               (set_lister id (Some sender) (backends_ info))
                               info))
        \/ (exists j info x,
               (forall d, In d (devices_ m) -> has_unique_id id d = false)
               /\ at_ (devices_ m) j = Some info
               /\ backends_ x
                  = backends_ info ++ [mkBackend (Some sender) id]
               /\ ds = replace (devices_ m) j x)
        \/ (exists x,
               (forall d, In d (devices_ m) -> has_unique_id id d = false)
               /\ backends_ x = [mkBackend (Some sender) id]
               /\ ds = devices_ m ++ [x])).
Proof.
  unfold PhysicalDeviceAdded.
  destruct (Z.eqb_spec (FindDeviceById m id) (-1)) as [E|NE]; cbn [negb].
  - pose proof (FindDeviceById_none m id E) as Hn.
    destruct (Z.eqb_spec (FindDeviceByUrl w m (MakeDeviceUrls w sender id))
                         (-1)) as [Ej|NEj]; cbn [negb].
    + eexists _, _. split; [reflexivity|]. right. right.
      eexists. split; [exact Hn|]. split; [|reflexivity].
      now rewrite refresh_from_lister_backends.
    + destruct (FindDeviceByUrl_found w m _ NEj) as [info A]. rewrite A.
      cbv zeta. cbn [database_id_ set_backends].
      set (info1 := set_backends
                      (backends_ info ++ [mkBackend (Some sender) id]) info).
      destruct (BestBackend_nonempty w info1) as [b Bb];
        [apply app_not_nil|].
      rewrite Bb. cbn [option_map].
      destruct (database_id_ info =? -1);
        [destruct (lister_eqb (lister_ b) (Some sender))|];
        (eexists _, _; split; [reflexivity|]; right; left;
         eexists _, info, _; split; [exact Hn|]; split; [exact A|];
         split; [|reflexivity];
         rewrite ?refresh_from_lister_backends; reflexivity).
  - destruct (FindDeviceById_found m id NE) as (info & A & H). rewrite A.
    eexists _, _. split; [reflexivity|]. left. eauto.
Qed.

Lemma with_unique_id_some id bs :
  existsb (fun b => String.eqb (unique_id_ b) id) bs = true ->
  (1 <= List.length (with_unique_id id bs))%nat.
Proof.
  unfold with_unique_id. induction bs as [|b bs IH]; simpl; [discriminate|].
  destruct (String.eqb (unique_id_ b) id); simpl; [lia|auto].
Qed.

Lemma with_unique_id_app id l1 l2 :
  with_unique_id id (l1 ++ l2) = with_unique_id id l1 ++ with_unique_id id l2.
Proof. apply filter_app. Qed.

Lemma with_unique_id_new id bs l :
  with_unique_id id bs = [] ->
  with_unique_id id (bs ++ [mkBackend l id]) = [mkBackend l id].
Proof.
  intros E. rewrite with_unique_id_app, E. unfold with_unique_id. simpl.
  now rewrite String.eqb_refl.
Qed.

Lemma FindDeviceById_replace id m j x y :
  (forall d, In d (devices_ m) -> has_unique_id id d = false) ->
  at_ (devices_ m) j = Some y -> has_unique_id id x = true ->
  FindDeviceById (set_devices (replace (devices_ m) j x) m) id = j.
Proof.
  intros H A T. pose proof (at_range _ _ _ A) as R. revert A.
  unfold FindDeviceById, at_, replace. cbn [devices_ set_devices].
  destruct (Z.ltb_spec j 0); [lia|]. intros A.
  rewrite (FindDeviceById_from_replace_nth id _ _ 0 x y H A T). lia.
Qed.

(** C4: the same "device added" signal delivered twice.  The first
    delivery returns; the second finds the record by its id, leaves the
    whole manager as the first left it and emits one [dataChanged] for that
    row; and, the id having been carried by at most one binding before,
    exactly one binding carries it afterwards, attached to the sender. *)
Theorem C4_device_added_twice w w' sender id m :
  (List.length (with_unique_id id (bindings m)) <= 1)%nat ->
  exists m1 effects1 i,
    PhysicalDeviceAdded w sender id m = Some (m1, effects1)
    /\ FindDeviceById m1 id = i
    /\ PhysicalDeviceAdded w' sender id m1
       = Some (m1, [dataChanged (Some (i, 0)) (Some (i, 0))])
    /\ with_unique_id id (bindings m1) = [mkBackend (Some sender) id].
Proof.
  intros Hc.
  destruct (PhysicalDeviceAdded_cases w sender id m)
    as (ds & effects & H & [(info & A & T & ->)
                           |[(j & info & x & Hn & A & Bx & ->)
                            |(x & Hn & Bx & ->)]]);
    eexists _, _, _; (split; [exact H|]); (split; [reflexivity|]).
  - (* the id was known *)
    set (info1 := set_backends (set_lister id (Some sender) (backends_ info))
                               info).
    assert (FindDeviceById
              (set_devices (replace (devices_ m) (FindDeviceById m id) info1)
                           m) id
            = FindDeviceById m id) as F.
    { unfold FindDeviceById at 1 3. cbn [devices_ set_devices].
      apply FindDeviceById_from_ext. apply (map_replace _ _ _ _ info A).
      unfold has_unique_id, info1. cbn [backends_ set_backends].
      apply set_lister_has. }
    rewrite F. split.
    + apply (PhysicalDeviceAdded_again w' sender id _ _ info1 F).
      * cbn [devices_ set_devices]. eapply at_replace_same, A.
      * apply set_lister_again.
    + unfold bindings in *. cbn [devices_ set_devices].
      destruct (flat_map_replace (devices_ m) _ info1 info A)
        as (before & after & E1 & ->).
      rewrite E1, !with_unique_id_app, !length_app in Hc.
      pose proof (with_unique_id_some id _ T) as L.
      rewrite !with_unique_id_app.
      unfold info1 at 1. cbn [backends_ set_backends].
      rewrite (set_lister_with_unique_id id (Some sender) (backends_ info) T)
        by lia.
      destruct (with_unique_id id before); [|simpl in Hc; lia].
      destruct (with_unique_id id after); [|simpl in Hc; lia].
      reflexivity.
  - (* the id was new, the record was known by a URL *)
    assert (has_unique_id id x = true) as T.
    { unfold has_unique_id. rewrite Bx, existsb_app. simpl.
      rewrite String.eqb_refl. apply orb_true_iff. right. reflexivity. }
    pose proof (FindDeviceById_replace id m j x info Hn A T) as F.
    rewrite F. split.
    + apply (PhysicalDeviceAdded_again w' sender id _ _ x F).
      * cbn [devices_ set_devices]. eapply at_replace_same, A.
      * rewrite Bx. apply (set_lister_first id (Some sender) _ _ []).
        intros b0 I0. eapply not_has_unique_id; [|exact I0].
        apply Hn. eapply at_In, A.
    + unfold bindings in *. cbn [devices_ set_devices].
      pose proof (with_unique_id_absent id _ Hn) as Z0.
      destruct (flat_map_replace (devices_ m) j x info A)
        as (before & after & E1 & ->).
      rewrite E1, !with_unique_id_app in Z0.
      apply app_eq_nil in Z0 as [Z1 Z2]. apply app_eq_nil in Z2 as [Z2 Z3].
      rewrite !with_unique_id_app, Z1, Z3, Bx.
      rewrite (with_unique_id_new id _ _ Z2). reflexivity.
  - (* the id was new, the record is new *)
    assert (has_unique_id id x = true) as T.
    { unfold has_unique_id. rewrite Bx. simpl. now rewrite String.eqb_refl. }
    assert (FindDeviceById (set_devices (devices_ m ++ [x]) m) id
            = count (devices_ m)) as F.
    { unfold FindDeviceById. cbn [devices_ set_devices].
      now rewrite FindDeviceById_from_app. }
    rewrite F. split.
    + apply (PhysicalDeviceAdded_again w' sender id _ _ x F).
      * cbn [devices_ set_devices]. apply at_app_last.
      * rewrite Bx. simpl. now rewrite String.eqb_refl.
    + unfold bindings. cbn [devices_ set_devices].
      rewrite flat_map_app, with_unique_id_app.
      rewrite (with_unique_id_absent id _ Hn). simpl.
      rewrite app_nil_r, Bx. unfold with_unique_id. simpl.
      now rewrite String.eqb_refl.
Qed.

Lemma C4_witness :
  exists m1 effects1 i,
    PhysicalDeviceAdded (world [usb_dev1] 1 None) 0%nat "X" empty
    = Some (m1, effects1)
    /\ FindDeviceById m1 "X" = i
    /\ PhysicalDeviceAdded (world [usb_dev1] 1 None) 0%nat "X" m1
       = Some (m1, [dataChanged (Some (i, 0)) (Some (i, 0))])
    /\ with_unique_id "X" (bindings m1) = [mkBackend (Some 0%nat) "X"].
Proof.
  apply (C4_device_added_twice
           (world [usb_dev1] 1 None) (world [usb_dev1] 1 None) 0%nat "X"
           empty).
  vm_compute. lia.
Defined.

(** The storage holds two devices and the native id "X" is among the ids
    of both, so the manager starts with a binding "X" on row 0 and another
    on row 1.  Both deliveries of (lister 0, "X") return and attach the
    binding of row 0, the first row that knows the id; the binding of
    row 1 is left as it is, and two bindings carry the id afterwards, not
    exactly one. *)
Lemma C4_counterexample :
  reachable stored_twice
  /\ exists m1 effects1 m2 effects2,
      PhysicalDeviceAdded (world [] 1 None) 0%nat "X" stored_twice
      = Some (m1, effects1)
      /\ PhysicalDeviceAdded (world [] 1 None) 0%nat "X" m1
         = Some (m2, effects2)
      /\ with_unique_id "X" (bindings m2)
         = [mkBackend (Some 0%nat) "X"; mkBackend None "X"]
      /\ List.length (with_unique_id "X" (bindings m2)) <> 1%nat.
Proof.
  split; [apply reachable_new|].
  eexists _, _, _, _. split; [reflexivity|]. split; [reflexivity|].
  split; [reflexivity|]. simpl. discriminate.
Qed.

(** ** Task progress *)

Lemma qmap_find_insert {V} k (v : V) mp :
  qmap_find k (qmap_insert k v mp) = Some v.
Proof.
  induction mp as [|[k' v'] mp IH]; simpl.
  - now rewrite Z.eqb_refl.
  - destruct (Z.ltb_spec k k'); simpl; [now rewrite Z.eqb_refl|].
    destruct (Z.eqb_spec k k'); simpl; [now rewrite Z.eqb_refl|].
    destruct (Z.eqb_spec k' k); [congruence|exact IH].
Qed.

Lemma qmap_values_insert {V} k (v x : V) mp :
  In x (qmap_values (qmap_insert k v mp)) -> x = v \/ In x (qmap_values mp).
Proof.
  unfold qmap_values. induction mp as [|[k' v'] mp IH]; simpl.
  - intros [<-|[]]. now left.
  - destruct (k <? k'); simpl; [intros [<-|H]; auto|].
    destruct (k =? k'); simpl; [intros [<-|H]; auto|].
    intros [<-|H]; auto. destruct (IH H); auto.
Qed.

Lemma qmap_find_In {V} k (v : V) mp :
  qmap_find k mp = Some v -> In v (qmap_values mp).
Proof.
  unfold qmap_values. induction mp as [|[k' v'] mp IH]; simpl;
    [discriminate|].
  destruct (k' =? k); [intros [= ->]; now left|auto].
Qed.

Lemma find_session_range device ds :
  forall k i, find_session device ds k = Some i -> k <= i < k + count ds.
Proof.
  unfold count. induction ds as [|d ds IH]; simpl; intros k i;
    [discriminate|].
  destruct (device_ d) as [c|].
  - destruct (Nat.eqb (object_ c) device).
    + intros [= <-]. lia.
    + intros H. apply IH in H. lia.
  - intros H. apply IH in H. lia.
Qed.

Section Refresh.

(** The tracked tasks and the number of rows do not change during a
    refresh. *)
Variable A : QMap QModelIndex.
Variable n : Z.
Variable r : Z.
Hypothesis A_on_model :
  forall k r' c', qmap_find k A = Some (Some (r', c')) ->
                  0 <= r' < n /\ c' = 0.

Lemma TasksChanged_tasks_other_rows tasks :
  forall m fin eff,
    active_tasks_ m = A -> count (devices_ m) = n -> converts tasks ->
    (forall task c, In task tasks ->
                    qmap_find (task_id task) A <> Some (Some (r, c))) ->
    exists m' fin' eff',
      TasksChanged_tasks tasks m fin eff = Some (m', fin', eff')
      /\ active_tasks_ m' = A /\ count (devices_ m') = n
      /\ at_ (devices_ m') r = at_ (devices_ m) r
      /\ incl fin' fin
      /\ (forall c, In (Some (r, c)) fin -> In (Some (r, c)) fin')
      /\ incl eff eff'.
Proof.
  induction tasks as [|task tasks IH]; intros m fin eff HA Hn Hc Ho; simpl.
  - exists m, fin, eff. repeat split; auto using incl_refl.
  - assert (converts tasks) as Hc' by (intros x I; apply Hc; now right).
    assert (forall task c, In task tasks ->
                           qmap_find (task_id task) A <> Some (Some (r, c)))
      as Ho' by (intros x c I; apply Ho; now right).
    rewrite HA.
    destruct (qmap_find (task_id task) A) as [[[r' c']|]|] eqn:F; auto.
    destruct (A_on_model _ _ _ F) as [R ->].
    destruct (at_in_range (devices_ m) r') as [info Ai]; [lia|].
    rewrite Ai. fold (fraction task).
    destruct (fraction task) as [p|] eqn:Fr;
      [|exfalso; apply (Hc task); [now left|exact Fr]].
    assert (r' <> r) as Nr.
    { intros ->. apply (Ho task 0); [now left|exact F]. }
    edestruct (IH (set_devices
                     (replace (devices_ m) r' (set_task_percentage p info))
                     m)
                  (removeAll (Some (r', 0)) fin)
                  (eff ++ [dataChanged (Some (r', 0)) (Some (r', 0))]))
      as (m' & fin' & eff' & H & HA' & Hn' & Hr & Hf & Hk & He); auto.
    { cbn [devices_ set_devices]. now rewrite count_replace. }
    exists m', fin', eff'. rewrite H. repeat split; auto.
    + rewrite Hr. cbn [devices_ set_devices]. now apply at_replace_other.
    + intros x I. apply Hf in I. unfold removeAll in I.
      now apply filter_In in I.
    + intros c I. apply Hk. unfold removeAll. apply filter_In. split; auto.
      simpl. destruct (Z.eqb_spec r r'); [congruence|reflexivity].
    + intros x I. apply He. apply in_or_app. now left.
Qed.


Lemma TasksChanged_finished_row fin :
  forall m eff,
    count (devices_ m) = n ->
    (forall r' c', In (Some (r', c')) fin -> 0 <= r' < n) ->
    exists m' eff',
      TasksChanged_finished fin m eff = Some (m', eff')
      /\ active_tasks_ m' = active_tasks_ m /\ count (devices_ m') = n
      /\ incl eff eff'
      /\ at_ (devices_ m') r
         = (if existsb (row_is r) fin
            then option_map (set_task_percentage (-1)) (at_ (devices_ m) r)
            else at_ (devices_ m) r)
      /\ (forall c, In (Some (r, c)) fin ->
                    In (dataChanged (Some (r, c)) (Some (r, c))) eff').
Proof.
  induction fin as [|[[r' c']|] fin IH]; intros m eff Hn Hw; simpl.
  - exists m, eff. repeat split; auto using incl_refl. intros c [].
  - destruct (at_in_range (devices_ m) r') as [info Ai];
      [rewrite Hn; apply (Hw r' c'); now left|].
    rewrite Ai.
    edestruct (IH (set_devices
                     (replace (devices_ m) r' (set_task_percentage (-1) info))
                     m)
                  (eff ++ [dataChanged (Some (r', c')) (Some (r', c'))]))
      as (m' & eff' & H & HA & Hn' & He & Hr & Hx).
    { cbn [devices_ set_devices]. now rewrite count_replace. }
    { intros x y I. apply (Hw x y). now right. }
    exists m', eff'. rewrite H. repeat split; auto.
    + intros x I. apply He. apply in_or_app. now left.
    + rewrite Hr. cbn [devices_ set_devices].
      destruct (Z.eqb_spec r' r) as [->|Nr]; simpl.
      * rewrite (at_replace_same _ _ _ _ Ai), Ai. simpl.
        now destruct (existsb (row_is r) fin).
      * now rewrite (at_replace_other _ _ _ _ Nr).
    + intros c [[= -> ->]|I]; [|now apply Hx].
      apply He. apply in_or_app. right. now left.
  - destruct (IH m eff Hn) as (m' & eff' & H & HA & Hn' & He & Hr & Hx).
    { intros x y I. apply (Hw x y). now right. }
    exists m', eff'. rewrite H. repeat split; auto.
    intros c [I|I]; [discriminate|now apply Hx].
Qed.

End Refresh.

Lemma TasksChanged_tasks_shape tasks :
  forall m fin eff m' fin' eff',
    TasksChanged_tasks tasks m fin eff = Some (m', fin', eff') ->
    active_tasks_ m' = active_tasks_ m
    /\ count (devices_ m') = count (devices_ m).
Proof.
  induction tasks as [|task tasks IH]; simpl; intros m fin eff m' fin' eff' H.
  - now injection H as <- _ _.
  - repeat break_in H; try discriminate; eauto.
    apply IH in H as [H1 H2]. cbn [active_tasks_ devices_ set_devices] in *.
    now rewrite count_replace in H2.
Qed.

Lemma TasksChanged_finished_shape fin :
  forall m eff m' eff',
    TasksChanged_finished fin m eff = Some (m', eff') ->
    active_tasks_ m' = active_tasks_ m
    /\ count (devices_ m') = count (devices_ m).
Proof.
  induction fin as [|[[r c]|] fin IH]; simpl; intros m eff m' eff' H.
  - now injection H as <- _.
  - destruct (at_ (devices_ m) r); [|discriminate].
    apply IH in H as [H1 H2]. cbn [active_tasks_ devices_ set_devices] in *.
    now rewrite count_replace in H2.
  - eauto.
Qed.



(** ** The tracked indexes designate rows of the model *)

Lemma on_model_rowCount m m' idx :
  rowCount m <= rowCount m' -> on_model m idx -> on_model m' idx.
Proof.
  destruct idx as [[r c]|]; [|auto]. intros L O.
  apply on_model_range in O as [R ->]. simpl.
  apply index_in_range. lia.
Qed.

Lemma on_model_index m m' r c :
  rowCount m' = rowCount m -> on_model m' (index m r c).
Proof.
  intros E. unfold index.
  destruct ((0 <=? r) && (r <? rowCount m) && (c =? 0)) eqn:T; simpl; auto.
  unfold index. now rewrite E, T.
Qed.

Lemma tracked_same_rows m m' :
  active_tasks_ m' = active_tasks_ m -> rowCount m <= rowCount m' ->
  Forall (on_model m) (qmap_values (active_tasks_ m)) ->
  Forall (on_model m') (qmap_values (active_tasks_ m')).
Proof.
  intros -> L W. eapply Forall_impl; [|exact W].
  intros idx. now apply on_model_rowCount.
Qed.

Lemma on_model_rowsRemoved_moved m m' idx :
  rowCount m' = rowCount m -> on_model m' (rowsRemoved_moved m idx).
Proof.
  intros E. destruct idx as [[r c]|]; unfold rowsRemoved_moved;
    now apply on_model_index.
Qed.

Lemma tracked_removeRow m i info :
  at_ (devices_ m) i = Some info ->
  Forall (on_model m) (qmap_values (active_tasks_ m)) ->
  Forall (on_model (removeRow i m))
         (qmap_values (active_tasks_ (removeRow i m))).
Proof.
  intros A W. pose proof (at_range _ _ _ A) as R.
  assert (rowCount (removeRow i m) = rowCount m - 1) as C.
  { unfold rowCount. simpl. now apply count_removeAt. }
  unfold qmap_values in *. simpl active_tasks_. rewrite map_map.
  cbn [snd]. rewrite <- (map_map snd). apply Forall_map.
  eapply Forall_impl; [|exact W]. intros [[r c]|] O; [|exact I].
  apply on_model_range in O as [Rr ->].
  unfold removedPersistentIndex. cbv zeta.
  destruct (Z.gtb_spec r i).
  - apply on_model_rowsRemoved_moved. unfold rowCount. reflexivity.
  - destruct (Z.eqb_spec r i) as [E|N]; [exact I|].
    unfold changePersistentIndex.
    destruct (Z.eqb_spec r i) as [E|_]; [contradiction|].
    destruct (Z.gtb_spec r i); [lia|].
    apply index_in_range. unfold rowCount in *. lia.
Qed.

(** Closes the goal for a manager that differs from [m] by assignments to
    records. *)
Ltac same_rows W :=
  match type of W with
  | Forall (on_model ?m0) _ => apply (tracked_same_rows m0)
  end; [reflexivity| |exact W];
  unfold rowCount; cbn [devices_ set_devices]; rewrite ?count_replace;
  apply Z.le_refl.

Lemma call_tracked w c m m' effects :
  call w c m = Some (m', effects) ->
  Forall (on_model m) (qmap_values (active_tasks_ m)) ->
  Forall (on_model m') (qmap_values (active_tasks_ m')).
Proof.
  destruct c; simpl; intros H W.
  - destruct (PhysicalDeviceAdded_cases w sender id m)
      as (ds & e & H' & [(info & A & T & ->)
                        |[(j & info & x & Hn & A & Bx & ->)
                         |(x & Hn & Bx & ->)]]);
      rewrite H' in H; injection H as <- _.
    + same_rows W.
    + same_rows W.
    + apply (tracked_same_rows m); [reflexivity| |exact W].
      unfold rowCount, count. cbn [devices_ set_devices].
      rewrite length_app. simpl. lia.
  - unfold PhysicalDeviceRemoved in H. returned H; auto;
      try (same_rows W).
    eapply tracked_removeRow.
    + cbn [devices_ set_devices]. eapply at_replace_same. eassumption.
    + same_rows W.
  - now injection H as <- _.
  - destruct (Connect w row m) as [[[ret m1] e1]|] eqn:E; [|discriminate].
    injection H as <- _. unfold Connect in E. cbv zeta in E.
    repeat break_in E; try discriminate; injection E as _ <- _; auto;
      same_rows W.
  - unfold Disconnect in H. returned H; auto. same_rows W.
  - unfold Forget in H.
    destruct (at_ (devices_ m) row) as [info|] eqn:A; [|discriminate].
    destruct (database_id_ info =? -1); [now injection H as <- <-|].
    assert (exists m1 e1,
               match device_ info with
               | Some _ => Disconnect row m
               | None => Some (m, [])
               end = Some (m1, e1)
               /\ Forall (on_model m1) (qmap_values (active_tasks_ m1)))
      as (m1 & e1 & D & W1).
    { destruct (device_ info).
      - destruct (Disconnect row m) as [[m1 e1]|] eqn:D; [|discriminate].
        exists m1, e1. split; auto. unfold Disconnect in D. returned D; auto.
        same_rows W.
      - exists m, []. auto. }
    rewrite D in H. returned H.
    + same_rows W1.
    + eapply tracked_removeRow.
      * cbn [devices_ set_devices]. eapply at_replace_same. eassumption.
      * same_rows W1.
  - unfold SetDeviceIdentity in H.
    destruct (at_ (devices_ m) row) as [info|] eqn:A; [|discriminate].
    cbv zeta in H. injection H as <- _. same_rows W.
  - unfold DeviceTaskStarted in H. returned H; auto.
    cbn [active_tasks_]. apply Forall_forall. intros idx I.
    apply qmap_values_insert in I as [->|I].
    + apply on_model_index. unfold rowCount. cbn [devices_].
      now rewrite count_replace.
    + rewrite Forall_forall in W. apply W in I.
      eapply on_model_rowCount; [|exact I].
      unfold rowCount. cbn [devices_]. rewrite count_replace. lia.
  - unfold TasksChanged in H.
    destruct (TasksChanged_tasks tasks m (qmap_values (active_tasks_ m)) [])
      as [[[m1 f1] e1]|] eqn:E; [|discriminate].
    apply TasksChanged_tasks_shape in E as [E1 E2].
    apply TasksChanged_finished_shape in H as [H1 H2].
    apply (tracked_same_rows m); [congruence| |exact W].
    unfold rowCount. lia.
  - unfold Unmount in H.
    destruct (at_ (devices_ m) row) as [info|] eqn:A; [|discriminate].
    destruct (database_id_ info =? -1); [now injection H as <- <-|].
    destruct (device_ info).
    + destruct (Disconnect row m) as [[m1 e1]|] eqn:D; [|discriminate].
      assert (Forall (on_model m1) (qmap_values (active_tasks_ m1))) as W1.
      { unfold Disconnect in D. returned D; auto. same_rows W. }
      returned H; auto.
    + returned H; auto.
Qed.

(** In every manager a run can reach, the indexes of the tracked tasks
    are invalid or designate rows of the model. *)
Lemma reachable_tracked m :
  reachable m -> Forall (on_model m) (qmap_values (active_tasks_ m)).
Proof.
  induction 1 as [w devices classes|w c m m' effects _ IH H].
  - constructor.
  - eapply call_tracked; eauto.
Qed.



(** The life of one task of the connected device "X": started, reported
    at 0/10, 5/10 and 10/10, then gone from the snapshot. *)
Example task_progress_0_50_100_absent :
  let w := world [] 1 None in
  let started := [(w, CallDeviceTaskStarted (Some 7%nat) 1)] in
  let at_0 := started ++ [(w, CallTasksChanged [mkTask 1 0 10])] in
  let at_5 := at_0 ++ [(w, CallTasksChanged [mkTask 1 5 10])] in
  let at_10 := at_5 ++ [(w, CallTasksChanged [mkTask 1 10 10])] in
  let gone := at_10 ++ [(w, CallTasksChanged [])] in
  percentage_after started (manager [X_connected]) = Some (Some (VInt 0))
  /\ percentage_after at_0 (manager [X_connected]) = Some (Some (VInt 0))
  /\ percentage_after at_5 (manager [X_connected]) = Some (Some (VInt 50))
  /\ percentage_after at_10 (manager [X_connected])
     = Some (Some (VInt 100))
  /\ percentage_after gone (manager [X_connected]) = Some (Some Invalid).
Proof. vm_compute. repeat split. Qed.


(** * Further properties of the code *)

(** ** The primary binding and the lookups *)

Lemma BestBackend_loop_spec w bs :
  forall best_priority ret,
    (BestBackend_loop w bs best_priority ret = ret
     /\ forall b l, In b bs -> lister_ b = Some l ->
                    priority w l <= best_priority)
    \/ (exists pre b l post,
           bs = pre ++ b :: post
           /\ BestBackend_loop w bs best_priority ret = Some b
           /\ lister_ b = Some l
           /\ best_priority < priority w l
           /\ (forall b' l', In b' pre -> lister_ b' = Some l' ->
                             priority w l' < priority w l)
           /\ (forall b' l', In b' post -> lister_ b' = Some l' ->
                             priority w l' <= priority w l)).
Proof.
  induction bs as [|x bs IH]; intros bp ret; simpl.
  - left. split; [reflexivity|]. intros b l [].
  - destruct (lister_ x) as [lx|] eqn:Lx.
    + destruct (Z.gtb_spec (priority w lx) bp) as [G|G].
      * destruct (IH (priority w lx) (Some x))
          as [[E H]|(pre & b & l & post & -> & E & Lb & Lt & Hpre & Hpost)].
        -- right. exists [], x, lx, bs. repeat split; auto.
           intros b' l' [].
        -- right. exists (x :: pre), b, l, post.
           repeat split; auto; try lia.
           intros b' l' [<-|I] Lb'; [|eapply Hpre; eauto].
           rewrite Lx in Lb'. injection Lb' as <-. exact Lt.
      * destruct (IH bp ret)
          as [[E H]|(pre & b & l & post & -> & E & Lb & Lt & Hpre & Hpost)].
        -- left. split; [exact E|]. intros b l [<-|I] Lb; [|eauto].
           rewrite Lx in Lb. injection Lb as <-. lia.
        -- right. exists (x :: pre), b, l, post.
           repeat split; auto; try lia.
           intros b' l' [<-|I] Lb'; [|eapply Hpre; eauto].
           rewrite Lx in Lb'. injection Lb' as <-. lia.
    + destruct (IH bp ret)
        as [[E H]|(pre & b & l & post & -> & E & Lb & Lt & Hpre & Hpost)].
      * left. split; [exact E|]. intros b l [<-|I] Lb; [congruence|eauto].
      * right. exists (x :: pre), b, l, post.
        repeat split; auto; try lia.
        intros b' l' [<-|I] Lb'; [congruence|eapply Hpre; eauto].
Qed.

(** X1: [BestBackend] answers the live binding whose lister has the
    highest priority, the first of them when several share it, and counts
    only priorities of 0 and more: when no live lister has one, it answers
    the first binding of the record, live or not. *)
Theorem BestBackend_highest_priority w info :
  ((forall b l, In b (backends_ info) -> lister_ b = Some l ->
                priority w l < 0)
   /\ BestBackend w info = hd_error (backends_ info))
  \/ (exists pre b l post,
         backends_ info = pre ++ b :: post
         /\ BestBackend w info = Some b
         /\ lister_ b = Some l
         /\ 0 <= priority w l
         /\ (forall b' l', In b' pre -> lister_ b' = Some l' ->
                           priority w l' < priority w l)
         /\ (forall b' l', In b' post -> lister_ b' = Some l' ->
                           priority w l' <= priority w l)).
Proof.
  unfold BestBackend.
  destruct (BestBackend_loop_spec w (backends_ info) (-1) None)
    as [[E H]|(pre & b & l & post & Bs & E & Lb & Lt & Hpre & Hpost)].
  - left. rewrite E. split.
    + intros b l I Lb. specialize (H b l I Lb). lia.
    + now destruct (backends_ info).
  - right. exists pre, b, l, post. rewrite E. repeat split; auto. lia.
Qed.

Lemma FindDeviceById_from_least id ds :
  forall k j d,
    0 <= k -> 0 <= j ->
    FindDeviceById_from id ds k <> -1 ->
    j < FindDeviceById_from id ds k - k ->
    at_ ds j = Some d -> has_unique_id id d = false.
Proof.
  induction ds as [|x ds IH]; intros k j d Hk Hj N L A; simpl in *.
  - congruence.
  - destruct (has_unique_id id x) eqn:E; [lia|].
    unfold at_ in A. destruct (Z.ltb_spec j 0); [lia|].
    destruct (Z.to_nat j) as [|n] eqn:J; simpl in A.
    + now injection A as <-.
    + apply (IH (k + 1) (j - 1) d); try lia; auto.
      unfold at_. destruct (Z.ltb_spec (j - 1) 0); [lia|].
      replace (Z.to_nat (j - 1)) with n by lia. exact A.
Qed.

Lemma has_unique_id_knows id info :
  has_unique_id id info = true <-> knows id info.
Proof.
  unfold has_unique_id, knows. rewrite existsb_exists.
  split; intros (b & I & E); exists b; split; auto;
    now apply String.eqb_eq.
Qed.

Lemma has_unique_id_unknown id info :
  has_unique_id id info = false <-> ~ knows id info.
Proof.
  rewrite <- has_unique_id_knows. now destruct (has_unique_id id info).
Qed.

(** X3: [FindDeviceById] answers -1 exactly when no record has a binding
    with that id, and otherwise the first row whose record has one. *)
Theorem FindDeviceById_first_row m id :
  (FindDeviceById m id = -1
   /\ forall info, In info (devices_ m) -> ~ knows id info)
  \/ (exists info,
         at_ (devices_ m) (FindDeviceById m id) = Some info
         /\ knows id info
         /\ forall j info', 0 <= j < FindDeviceById m id ->
                            at_ (devices_ m) j = Some info' ->
                            ~ knows id info').
Proof.
  destruct (Z.eq_dec (FindDeviceById m id) (-1)) as [E|N].
  - left. split; [exact E|]. intros info I.
    apply has_unique_id_unknown. now apply (FindDeviceById_none m id E).
  - right. destruct (FindDeviceById_found m id N) as (info & A & H).
    exists info. split; [exact A|]. split; [now apply has_unique_id_knows|].
    intros j info' R A'. apply has_unique_id_unknown.
    unfold FindDeviceById in *.
    apply (FindDeviceById_from_least id (devices_ m) 0 j info');
      auto; lia.
Qed.

Lemma url_eqb_eq u v : url_eqb u v = true <-> u = v.
Proof.
  unfold url_eqb. destruct u as [s1 a1 p1], v as [s2 a2 p2]. simpl.
  rewrite !andb_true_iff, !String.eqb_eq. split.
  - now intros [[-> ->] ->].
  - now intros [= -> -> ->].
Qed.

Lemma has_url_shares w urls info :
  has_url w urls info = true <-> shares_url w urls info.
Proof.
  unfold has_url, shares_url. rewrite existsb_exists. split.
  - intros (b & I & H). destruct (lister_ b) as [l|] eqn:L; [|discriminate].
    apply existsb_exists in H as (url & Iu & H).
    apply existsb_exists in H as (url' & Iu' & E).
    apply url_eqb_eq in E. subst url'. exists b, l, url. auto.
  - intros (b & l & url & I & L & Iu & Iu'). exists b. split; auto.
    rewrite L. apply existsb_exists. exists url. split; auto.
    apply existsb_exists. exists url. split; auto. now apply url_eqb_eq.
Qed.

Lemma has_url_none w urls info :
  has_url w urls info = false <-> ~ shares_url w urls info.
Proof.
  rewrite <- has_url_shares. now destruct (has_url w urls info).
Qed.

Lemma FindDeviceByUrl_from_none w urls ds :
  forall k, 0 <= k -> FindDeviceByUrl_from w urls ds k = -1 ->
            forall d, In d ds -> has_url w urls d = false.
Proof.
  induction ds as [|x ds IH]; intros k Hk E d I; simpl in *; [destruct I|].
  destruct (has_url w urls x) eqn:H; [lia|].
  destruct I as [<-|I]; [exact H|]. apply (IH (k + 1)); auto. lia.
Qed.

Lemma FindDeviceByUrl_from_least w urls ds :
  forall k j d,
    0 <= k -> 0 <= j ->
    FindDeviceByUrl_from w urls ds k <> -1 ->
    j < FindDeviceByUrl_from w urls ds k - k ->
    at_ ds j = Some d -> has_url w urls d = false.
Proof.
  induction ds as [|x ds IH]; intros k j d Hk Hj N L A; simpl in *.
  - congruence.
  - destruct (has_url w urls x) eqn:E; [lia|].
    unfold at_ in A. destruct (Z.ltb_spec j 0); [lia|].
    destruct (Z.to_nat j) as [|n] eqn:J; simpl in A.
    + now injection A as <-.
    + apply (IH (k + 1) (j - 1) d); try lia; auto.
      unfold at_. destruct (Z.ltb_spec (j - 1) 0); [lia|].
      replace (Z.to_nat (j - 1)) with n by lia. exact A.
Qed.

Lemma FindDeviceByUrl_from_hit w urls ds :
  forall k, 0 <= k -> FindDeviceByUrl_from w urls ds k <> -1 ->
            exists d, at_ ds (FindDeviceByUrl_from w urls ds k - k) = Some d
                      /\ has_url w urls d = true.
Proof.
  induction ds as [|x ds IH]; intros k Hk N; simpl in *; [congruence|].
  destruct (has_url w urls x) eqn:E.
  - exists x. rewrite Z.sub_diag. auto.
  - destruct (IH (k + 1)) as (d & A & H); [lia|exact N|].
    exists d. split; [|exact H].
    destruct (FindDeviceByUrl_from_spec w urls ds (k + 1)) as [F|(i & R & _)];
      [lia|contradiction|].
    revert A. unfold at_.
    destruct (Z.ltb_spec (FindDeviceByUrl_from w urls ds (k + 1) - (k + 1)) 0),
             (Z.ltb_spec (FindDeviceByUrl_from w urls ds (k + 1) - k) 0);
      try lia.
    replace (Z.to_nat (FindDeviceByUrl_from w urls ds (k + 1) - k))
      with (S (Z.to_nat (FindDeviceByUrl_from w urls ds (k + 1) - (k + 1))))
      by lia.
    auto.
Qed.

Lemma FindDeviceByUrl_cases w m urls :
  (FindDeviceByUrl w m urls = -1
   /\ forall info, In info (devices_ m) -> ~ shares_url w urls info)
  \/ (exists info,
         at_ (devices_ m) (FindDeviceByUrl w m urls) = Some info
         /\ shares_url w urls info
         /\ forall j info', 0 <= j < FindDeviceByUrl w m urls ->
                            at_ (devices_ m) j = Some info' ->
                            ~ shares_url w urls info').
Proof.
  destruct urls as [|u urls].
  - left. split; [reflexivity|].
    intros info _ (b & l & url & _ & _ & _ & []).
  - unfold FindDeviceByUrl.
    destruct (Z.eq_dec (FindDeviceByUrl_from w (u :: urls) (devices_ m) 0)
                       (-1)) as [E|N].
    + left. split; [exact E|]. intros info I. apply has_url_none.
      apply (FindDeviceByUrl_from_none w (u :: urls) (devices_ m) 0); auto.
      lia.
    + right.
      destruct (FindDeviceByUrl_from_hit w (u :: urls) (devices_ m) 0)
        as (d & A & H); [lia|exact N|].
      rewrite Z.sub_0_r in A. exists d. split; [exact A|].
      split; [now apply has_url_shares|].
      intros j info' R A'. apply has_url_none.
      apply (FindDeviceByUrl_from_least w (u :: urls) (devices_ m) 0 j info');
        auto; lia.
Qed.

(** X4: [FindDeviceByUrl] answers -1 exactly when no record has a live
    binding that its lister resolves to one of the given URLs (always so
    for an empty list), and otherwise the first row whose record has
    one; a binding without lister never matches. *)
Theorem FindDeviceByUrl_first_row w m urls :
  (FindDeviceByUrl w m urls = -1
   /\ forall info, In info (devices_ m) -> ~ shares_url w urls info)
  \/ (exists info,
         at_ (devices_ m) (FindDeviceByUrl w m urls) = Some info
         /\ shares_url w urls info
         /\ forall j info', 0 <= j < FindDeviceByUrl w m urls ->
                            at_ (devices_ m) j = Some info' ->
                            ~ shares_url w urls info').
Proof. exact (FindDeviceByUrl_cases w m urls). Qed.

(** ** A lister reports a device that is not known by its id *)

Lemma LoadIcon_name_size w icons hint info :
  friendly_name_ (LoadIcon w icons hint info) = friendly_name_ info
  /\ size_ (LoadIcon w icons hint info) = size_ info.
Proof.
  unfold LoadIcon. destruct icons as [|first icons]; [now simpl|].
  destruct (find (IconLoader_Load w) (first :: icons)); [now simpl|].
  destruct (contains _ "phone"); [now simpl|].
  destruct (contains _ "ipod" || contains _ "apple"); now simpl.
Qed.

Lemma refresh_from_lister_fields w sender id info :
  friendly_name_ (refresh_from_lister w sender id info)
  = MakeFriendlyName w sender id
  /\ size_ (refresh_from_lister w sender id info) = DeviceCapacity w sender id
  /\ database_id_ (refresh_from_lister w sender id info) = database_id_ info
  /\ device_ (refresh_from_lister w sender id info) = device_ info
  /\ task_percentage_ (refresh_from_lister w sender id info)
     = task_percentage_ info.
Proof.
  unfold refresh_from_lister.
  destruct (LoadIcon_name_size
              w (DeviceIcons w sender id)
              (friendly_name_
                 (set_size (DeviceCapacity w sender id)
                    (set_friendly_name (MakeFriendlyName w sender id) info)))
              (set_size (DeviceCapacity w sender id)
                 (set_friendly_name (MakeFriendlyName w sender id) info)))
    as [N S].
  destruct (LoadIcon_fields
              w (DeviceIcons w sender id)
              (friendly_name_
                 (set_size (DeviceCapacity w sender id)
                    (set_friendly_name (MakeFriendlyName w sender id) info)))
              (set_size (DeviceCapacity w sender id)
                 (set_friendly_name (MakeFriendlyName w sender id) info)))
    as (D & V & _ & T).
  cbv zeta. rewrite N, S, D, V, T. repeat split.
Qed.

Lemma unknown_id_not_found m id :
  (forall info, In info (devices_ m) -> ~ knows id info) ->
  FindDeviceById m id = -1.
Proof.
  intros U. destruct (Z.eq_dec (FindDeviceById m id) (-1)) as [E|N]; auto.
  destruct (FindDeviceById_found m id N) as (info & A & H).
  exfalso. apply (U info); [eapply at_In; eauto|].
  now apply has_unique_id_knows.
Qed.

(** X5: a lister reports an id that no record knows, and some record has
    a live binding that resolves to one of the URLs of the new id: no row
    is added; the first such record gets a new binding (sender, id) at the
    end of its bindings and [dataChanged] is emitted for its row.  Its
    database id, session and progress are kept; a persisted record keeps
    its name, size and icon too, while an unpersisted one takes name and
    size from the sender when the new binding becomes the primary one. *)
Theorem PhysicalDeviceAdded_merges_by_url w sender id m k known :
  (forall info, In info (devices_ m) -> ~ knows id info) ->
  at_ (devices_ m) k = Some known ->
  shares_url w (MakeDeviceUrls w sender id) known ->
  exists i info info',
    i = FindDeviceByUrl w m (MakeDeviceUrls w sender id)
    /\ 0 <= i <= k
    /\ at_ (devices_ m) i = Some info
    /\ shares_url w (MakeDeviceUrls w sender id) info
    /\ PhysicalDeviceAdded w sender id m
       = Some (set_devices (replace (devices_ m) i info') m,
               [dataChanged (Some (i, 0)) (Some (i, 0))])
    /\ backends_ info' = backends_ info ++ [mkBackend (Some sender) id]
    /\ database_id_ info' = database_id_ info
    /\ device_ info' = device_ info
    /\ task_percentage_ info' = task_percentage_ info
    /\ (database_id_ info <> -1 ->
        info' = set_backends
                  (backends_ info ++ [mkBackend (Some sender) id]) info)
    /\ (database_id_ info = -1 ->
        option_map lister_
                   (BestBackend
                      w (set_backends
                           (backends_ info ++ [mkBackend (Some sender) id])
                           info))
        = Some (Some sender) ->
        friendly_name_ info' = MakeFriendlyName w sender id
        /\ size_ info' = DeviceCapacity w sender id).
Proof.
  intros U A S.
  pose proof (unknown_id_not_found m id U) as F.
  pose proof (at_range _ _ _ A) as Rk.
  set (urls := MakeDeviceUrls w sender id) in *.
  destruct (FindDeviceByUrl_cases w m urls)
    as [[E N]|(info & Ai & Si & Least)].
  { exfalso. apply (N known); [eapply at_In; eauto|exact S]. }
  pose proof (at_range _ _ _ Ai) as Ri.
  assert (FindDeviceByUrl w m urls <= k) as Lk.
  { destruct (Z.le_gt_cases (FindDeviceByUrl w m urls) k) as [L|G]; auto.
    exfalso. apply (Least k known); auto. lia. }
  unfold PhysicalDeviceAdded. rewrite F. change (negb (-1 =? -1)) with false.
  cbv iota. fold urls.
  destruct (Z.eqb_spec (FindDeviceByUrl w m urls) (-1)) as [E|_]; [lia|].
  cbn [negb]. rewrite Ai. cbv zeta. cbn [database_id_ set_backends].
  rewrite index_in_range by (unfold rowCount; lia).
  set (info1 := set_backends
                  (backends_ info ++ [mkBackend (Some sender) id]) info).
  destruct (BestBackend_nonempty w info1) as [b Bb]; [apply app_not_nil|].
  rewrite Bb. cbn [option_map].
  destruct (Z.eqb_spec (database_id_ info) (-1)) as [P|P].
  - destruct (lister_eqb (lister_ b) (Some sender)) eqn:Q.
    + destruct (refresh_from_lister_fields w sender id info1)
        as (N1 & S1 & D1 & V1 & T1).
      exists (FindDeviceByUrl w m urls), info,
             (refresh_from_lister w sender id info1).
      rewrite refresh_from_lister_backends, D1, V1, T1.
      do 9 (split; [first [reflexivity|lia|assumption]|]).
      split; [congruence|auto].
    + exists (FindDeviceByUrl w m urls), info, info1.
      do 9 (split; [first [reflexivity|lia|assumption]|]).
      split; [congruence|]. intros _ H. fold info1 in H.
      rewrite Bb in H. simpl in H.
      injection H as H. rewrite H in Q. simpl in Q.
      now rewrite Nat.eqb_refl in Q.
  - exists (FindDeviceByUrl w m urls), info, info1.
    do 9 (split; [first [reflexivity|lia|assumption]|]).
    split; [reflexivity|congruence].
Qed.

Lemma PhysicalDeviceAdded_merges_by_url_witness :
  exists i info info',
    i = FindDeviceByUrl (world [usb_dev1] 1 None) (manager [X_present])
                        [usb_dev1]
    /\ 0 <= i <= 0
    /\ at_ [X_present] i = Some info
    /\ shares_url (world [usb_dev1] 1 None) [usb_dev1] info
    /\ PhysicalDeviceAdded (world [usb_dev1] 1 None) 1%nat "Y"
                           (manager [X_present])
       = Some (manager (replace [X_present] i info'),
               [dataChanged (Some (i, 0)) (Some (i, 0))])
    /\ backends_ info' = backends_ info ++ [mkBackend (Some 1%nat) "Y"]
    /\ database_id_ info' = database_id_ info
    /\ device_ info' = device_ info
    /\ task_percentage_ info' = task_percentage_ info
    /\ (database_id_ info <> -1 ->
        info' = set_backends
                  (backends_ info ++ [mkBackend (Some 1%nat) "Y"]) info)
    /\ (database_id_ info = -1 ->
        option_map lister_
                   (BestBackend
                      (world [usb_dev1] 1 None)
                      (set_backends
                         (backends_ info ++ [mkBackend (Some 1%nat) "Y"])
                         info))
        = Some (Some 1%nat) ->
        friendly_name_ info' = "Y"%string /\ size_ info' = 0).
Proof.
  apply (PhysicalDeviceAdded_merges_by_url
           (world [usb_dev1] 1 None) 1%nat "Y" (manager [X_present])
           0 X_present).
  - intros info [<-|[]] (b & [<-|[]] & E). discriminate.
  - reflexivity.
  - exists (mkBackend (Some 0%nat) "X"), 0%nat, usb_dev1.
    repeat split; now left.
Defined.

Lemma at_app_first {A} (l : list A) x j :
  0 <= j < count l -> at_ (l ++ [x]) j = at_ l j.
Proof.
  unfold at_, count. intros R. destruct (Z.ltb_spec j 0); [lia|].
  apply nth_error_app1. lia.
Qed.

Lemma unshared_url_not_found w m urls :
  (forall info, In info (devices_ m) -> ~ shares_url w urls info) ->
  FindDeviceByUrl w m urls = -1.
Proof.
  intros U.
  destruct (FindDeviceByUrl_cases w m urls) as [[E _]|(info & A & S & _)];
    auto.
  exfalso. apply (U info); [eapply at_In; eauto|exact S].
Qed.

Lemma PhysicalDeviceAdded_appends w sender id m :
  (forall info, In info (devices_ m) -> ~ knows id info) ->
  (forall info, In info (devices_ m) ->
                ~ shares_url w (MakeDeviceUrls w sender id) info) ->
  exists info,
    PhysicalDeviceAdded w sender id m
    = Some (set_devices (devices_ m ++ [info]) m,
            [rowsInserted (rowCount m) (rowCount m)])
    /\ backends_ info = [mkBackend (Some sender) id]
    /\ database_id_ info = -1
    /\ device_ info = None
    /\ task_percentage_ info = -1
    /\ friendly_name_ info = MakeFriendlyName w sender id
    /\ size_ info = DeviceCapacity w sender id
    /\ at_ (devices_ m ++ [info]) (rowCount m) = Some info
    /\ (forall j, 0 <= j < rowCount m ->
                  at_ (devices_ m ++ [info]) j = at_ (devices_ m) j)
    /\ forall w',
        data w' (set_devices (devices_ m ++ [info]) m)
             (Some (rowCount m, 0)) Role_State
        = Some (VState State_NotConnected).
Proof.
  intros U V. unfold PhysicalDeviceAdded.
  rewrite (unknown_id_not_found m id U), (unshared_url_not_found w m _ V).
  change (negb (-1 =? -1)) with false. cbv iota zeta.
  set (info0 := set_backends
                  (backends_ DeviceInfo_new ++ [mkBackend (Some sender) id])
                  DeviceInfo_new).
  destruct (refresh_from_lister_fields w sender id info0)
    as (N1 & S1 & D1 & V1 & T1).
  pose proof (refresh_from_lister_backends w sender id info0) as B1.
  exists (refresh_from_lister w sender id info0).
  rewrite N1, S1, D1, V1, T1, B1.
  do 7 (split; [reflexivity|]).
  split; [apply at_app_last|]. split; [intros j R; now apply at_app_first|].
  intros w'. unfold data. change (negb (0 =? 0)) with false. cbv iota.
  cbn [devices_ set_devices]. unfold rowCount. rewrite at_app_last, V1.
  cbn [device_ info0 set_backends DeviceInfo_new].
  unfold BestBackend. rewrite B1. unfold info0. simpl.
  destruct (priority w' sender >? -1); reflexivity.
Qed.

(** X6: a lister reports an id that no record knows and whose URLs no
    record shares: a record is appended as the last row and
    [rowsInserted] is emitted for it; the record is unpersisted, without
    session or progress, has the one binding (sender, id) and the name and
    size the sender gives; the rows before it are untouched and the new
    row reads [State_NotConnected]. *)
Theorem PhysicalDeviceAdded_new_device w sender id m :
  (forall info, In info (devices_ m) -> ~ knows id info) ->
  (forall info, In info (devices_ m) ->
                ~ shares_url w (MakeDeviceUrls w sender id) info) ->
  exists info,
    PhysicalDeviceAdded w sender id m
    = Some (set_devices (devices_ m ++ [info]) m,
            [rowsInserted (rowCount m) (rowCount m)])
    /\ backends_ info = [mkBackend (Some sender) id]
    /\ database_id_ info = -1
    /\ device_ info = None
    /\ task_percentage_ info = -1
    /\ friendly_name_ info = MakeFriendlyName w sender id
    /\ size_ info = DeviceCapacity w sender id
    /\ at_ (devices_ m ++ [info]) (rowCount m) = Some info
    /\ (forall j, 0 <= j < rowCount m ->
                  at_ (devices_ m ++ [info]) j = at_ (devices_ m) j)
    /\ forall w',
        data w' (set_devices (devices_ m ++ [info]) m)
             (Some (rowCount m, 0)) Role_State
        = Some (VState State_NotConnected).
Proof.
  intros U V. exact (PhysicalDeviceAdded_appends w sender id m U V).
Qed.

Lemma PhysicalDeviceAdded_new_device_witness :
  exists info,
    PhysicalDeviceAdded (world [usb_dev1] 1 None) 0%nat "X" empty
    = Some (manager [info], [rowsInserted 0 0])
    /\ backends_ info = [mkBackend (Some 0%nat) "X"]
    /\ database_id_ info = -1
    /\ device_ info = None
    /\ task_percentage_ info = -1
    /\ friendly_name_ info = "X"%string
    /\ size_ info = 0
    /\ at_ [info] 0 = Some info
    /\ (forall j, 0 <= j < 0 -> at_ [info] j = at_ [] j)
    /\ forall w',
        data w' (manager [info]) (Some (0, 0)) Role_State
        = Some (VState State_NotConnected).
Proof.
  apply (PhysicalDeviceAdded_new_device
           (world [usb_dev1] 1 None) 0%nat "X" empty);
    intros info [].
Defined.

Lemma remove_nth_app_last {A} (l : list A) x :
  remove_nth (l ++ [x]) (List.length l) = l.
Proof. induction l as [|h t IH]; simpl; congruence. Qed.

Lemma removedPersistentIndex_below m m' idx :
  on_model m idx -> removedPersistentIndex m' (rowCount m) idx = idx.
Proof.
  destruct idx as [[r c]|]; [|reflexivity]. intros O.
  apply on_model_range in O as [R _].
  unfold removedPersistentIndex, changePersistentIndex. cbv zeta.
  destruct (Z.gtb_spec r (rowCount m)); [lia|].
  destruct (Z.eqb_spec r (rowCount m)); [lia|reflexivity].
Qed.

Lemma map_fixed {A} (f : A -> A) l :
  (forall x, In x l -> f x = x) -> map f l = l.
Proof.
  induction l as [|h t IH]; simpl; intros H; auto.
  rewrite H by (now left). rewrite IH; auto.
Qed.

(** X7: reporting a brand-new device and then removing it leaves the
    manager exactly as it was: the appended row is removed again and no
    persistent index on the rows that were there is touched. *)
Theorem PhysicalDeviceAdded_then_Removed w sender sender' id m :
  (forall info, In info (devices_ m) -> ~ knows id info) ->
  (forall info, In info (devices_ m) ->
                ~ shares_url w (MakeDeviceUrls w sender id) info) ->
  Forall (on_model m) (persistentIndexList m) ->
  exists m1,
    PhysicalDeviceAdded w sender id m
    = Some (m1, [rowsInserted (rowCount m) (rowCount m)])
    /\ rowCount m1 = rowCount m + 1
    /\ PhysicalDeviceRemoved sender' id m1
       = Some (m, [rowsRemoved (rowCount m) (rowCount m)]).
Proof.
  intros U V W.
  destruct (PhysicalDeviceAdded_appends w sender id m U V)
    as (x & H & Bx & Dx & _).
  rewrite H. eexists. split; [reflexivity|].
  assert (has_unique_id id x = true) as T.
  { unfold has_unique_id. rewrite Bx. simpl. now rewrite String.eqb_refl. }
  assert (FindDeviceById (set_devices (devices_ m ++ [x]) m) id
          = rowCount m) as F.
  { unfold FindDeviceById, rowCount. cbn [devices_ set_devices].
    rewrite FindDeviceById_from_app; [unfold count; lia| |exact T].
    intros d I. apply has_unique_id_unknown. now apply U. }
  split.
  { unfold rowCount, count. cbn [devices_ set_devices].
    rewrite length_app. simpl. lia. }
  unfold PhysicalDeviceRemoved. rewrite F.
  destruct (Z.eqb_spec (rowCount m) (-1)) as [E|_];
    [unfold rowCount, count in E; lia|].
  cbn [devices_ set_devices]. unfold rowCount at 1. rewrite at_app_last.
  rewrite Dx. change (negb (-1 =? -1)) with false. cbv iota zeta.
  cbn [backends_ set_backends]. rewrite Bx. cbn [remove_backend unique_id_].
  rewrite String.eqb_refl. f_equal. f_equal.
  unfold removeRow. cbn [devices_ set_devices active_tasks_ persistent_
                           device_classes_].
  rewrite removeAt_replace.
  assert (removeAt (devices_ m ++ [x]) (rowCount m) = devices_ m) as R.
  { unfold removeAt, rowCount, count.
    destruct (Z.ltb_spec (Z.of_nat (List.length (devices_ m))) 0); [lia|].
    rewrite Nat2Z.id. apply remove_nth_app_last. }
  rewrite R.
  unfold persistentIndexList in W. apply Forall_app in W as [Wp Wt].
  rewrite Forall_forall in Wp, Wt.
  assert (forall m',
             map (removedPersistentIndex m' (rowCount m)) (persistent_ m)
             = persistent_ m) as Ep.
  { intros m'. apply map_fixed.
    intros idx I. apply removedPersistentIndex_below. now apply Wp. }
  assert (forall m',
             map (fun kv =>
                    (fst kv,
                     removedPersistentIndex m' (rowCount m) (snd kv)))
                 (active_tasks_ m)
             = active_tasks_ m) as Et.
  { intros m'. apply map_fixed.
    intros [k idx] I. simpl. f_equal. apply removedPersistentIndex_below.
    apply Wt. unfold qmap_values. apply in_map_iff. exists (k, idx). auto. }
  rewrite Ep, Et. now destruct m.
Qed.

Lemma PhysicalDeviceAdded_then_Removed_witness :
  exists m1,
    PhysicalDeviceAdded (world [usb_dev1] 1 None) 0%nat "X" empty
    = Some (m1, [rowsInserted 0 0])
    /\ rowCount m1 = 0 + 1
    /\ PhysicalDeviceRemoved 0%nat "X" m1 = Some (empty, [rowsRemoved 0 0]).
Proof.
  apply (PhysicalDeviceAdded_then_Removed
           (world [usb_dev1] 1 None) 0%nat 0%nat "X" empty).
  - intros info [].
  - intros info [].
  - constructor.
Defined.

(** ** Sessions *)

Lemma data_after_disconnect w m row info idx role :
  at_ (devices_ m) row = Some info ->
  role <> Role_State -> role <> Role_MountPath ->
  data w (set_devices (replace (devices_ m) row (set_device None info)) m)
       idx role
  = data w m idx role.
Proof.
  intros A N1 N2. unfold data. destruct idx as [[r c]|]; [|reflexivity].
  destruct (negb (c =? 0)); [reflexivity|]. cbn [devices_ set_devices].
  destruct (Z.eq_dec row r) as [<-|N].
  - rewrite (at_replace_same _ _ _ _ A), A.
    destruct role; try reflexivity; congruence.
  - now rewrite (at_replace_other _ _ _ _ N).
Qed.

(** X8: [Disconnect] of a connected row drops the session, emits
    [DeviceDisconnected] and then [dataChanged] for the row and changes
    nothing else: every read of every row other than the state and the
    mount path answers as before.  The row no longer reads
    [State_Connected], and a second [Disconnect] changes and emits
    nothing. *)
Theorem Disconnect_drops_the_session_once w row m info d :
  at_ (devices_ m) row = Some info -> device_ info = Some d ->
  exists m',
    Disconnect row m
    = Some (m', [DeviceDisconnected row;
                 dataChanged (Some (row, 0)) (Some (row, 0))])
    /\ devices_ m' = replace (devices_ m) row (set_device None info)
    /\ GetConnectedDevice m' row = Some None
    /\ data w m' (Some (row, 0)) Role_State <> Some (VState State_Connected)
    /\ (forall idx role,
           role <> Role_State -> role <> Role_MountPath ->
           data w m' idx role = data w m idx role)
    /\ Disconnect row m' = Some (m', []).
Proof.
  intros A D. pose proof (at_range _ _ _ A) as R.
  unfold Disconnect at 1. rewrite A, D.
  rewrite index_in_range by exact R.
  eexists. split; [reflexivity|]. split; [reflexivity|].
  split; [|split; [|split]].
  - unfold GetConnectedDevice. cbn [devices_ set_devices].
    now rewrite (at_replace_same _ _ _ _ A).
  - unfold data. change (negb (0 =? 0)) with false. cbv iota.
    cbn [devices_ set_devices]. rewrite (at_replace_same _ _ _ _ A).
    cbn [device_ set_device].
    destruct (BestBackend w (set_device None info)) as [b|]; simpl;
      [destruct (lister_ b)|]; discriminate.
  - intros idx role N1 N2. now apply data_after_disconnect.
  - unfold Disconnect. cbn [devices_ set_devices].
    now rewrite (at_replace_same _ _ _ _ A).
Qed.

Lemma Disconnect_drops_the_session_once_witness :
  exists m',
    Disconnect 0 (manager [X_connected])
    = Some (m', [DeviceDisconnected 0;
                 dataChanged (Some (0, 0)) (Some (0, 0))])
    /\ devices_ m' = replace [X_connected] 0 (set_device None X_connected)
    /\ GetConnectedDevice m' 0 = Some None
    /\ data (world [] 1 None) m' (Some (0, 0)) Role_State
       <> Some (VState State_Connected)
    /\ (forall idx role,
           role <> Role_State -> role <> Role_MountPath ->
           data (world [] 1 None) m' idx role
           = data (world [] 1 None) (manager [X_connected]) idx role)
    /\ Disconnect 0 m' = Some (m', []).
Proof.
  apply (Disconnect_drops_the_session_once
           (world [] 1 None) 0 (manager [X_connected]) X_connected X_session);
    reflexivity.
Defined.

Lemma choose_url_registered (classes : list (string * nat)) urls :
  forall device_url,
    let chosen :=
      fold_left
        (fun device_url url =>
           if smap_contains (scheme url) classes then url else device_url)
        urls device_url in
    chosen = device_url
    \/ (In chosen urls /\ smap_contains (scheme chosen) classes = true).
Proof.
  induction urls as [|u urls IH]; intros d; simpl; [now left|].
  destruct (smap_contains (scheme u) classes) eqn:E.
  - destruct (IH u) as [->|[I S]]; right; auto.
  - destruct (IH d) as [->|[I S]]; auto.
Qed.

(** X9: a session that [Connect] returns is the session stored on the
    row: the row reads [State_Connected], and any further [Connect] of the
    row returns that same session without any effect, in whatever world.
    Unless the row was already connected, the session was built for the
    primary binding (its lister and native id), with the database id of
    the record and one of the candidate URLs whose scheme is registered,
    and the effects end with [dataChanged] and [DeviceConnected] for the
    row. *)
Theorem Connect_returns_the_stored_session w row m d m' effects :
  Connect w row m = Some (Some d, m', effects) ->
  exists info',
    at_ (devices_ m') row = Some info'
    /\ device_ info' = Some d
    /\ rowCount m' = rowCount m
    /\ (forall w', Connect w' row m' = Some (Some d, m', []))
    /\ (forall w', data w' m' (Some (row, 0)) Role_State
                   = Some (VState State_Connected))
    /\ ((m' = m /\ effects = [])
        \/ exists b saved,
            BestBackend w info' = Some b
            /\ lister_ b = Some (lister d)
            /\ device_unique_id_ d = unique_id_ b
            /\ device_database_id_ d = database_id_ info'
            /\ In (url_ d) (MakeDeviceUrls w (lister d) (unique_id_ b))
            /\ smap_contains (scheme (url_ d)) (device_classes_ m) = true
            /\ effects
               = saved ++ [dataChanged (Some (row, 0)) (Some (row, 0));
                           DeviceConnected row]).
Proof.
  intros H. unfold Connect in H.
  destruct (at_ (devices_ m) row) as [info|] eqn:A; [|discriminate].
  pose proof (at_range _ _ _ A) as R.
  assert (forall x : DeviceInfo, forall ds,
             at_ ds row = Some x -> device_ x = Some d ->
             forall m0, devices_ m0 = ds ->
             (forall w', Connect w' row m0 = Some (Some d, m0, []))
             /\ (forall w', data w' m0 (Some (row, 0)) Role_State
                            = Some (VState State_Connected))) as Again.
  { intros x ds Ax Dx m0 <-. split; intros w'.
    - unfold Connect. now rewrite Ax, Dx.
    - unfold data. change (negb (0 =? 0)) with false. cbv iota.
      now rewrite Ax, Dx. }
  destruct (device_ info) as [d0|] eqn:D.
  - injection H as <- <- <-. exists info.
    destruct (Again info (devices_ m) A D m eq_refl) as [C S].
    repeat split; auto.
  - destruct (BestBackend w info) as [b|] eqn:Bb; [|discriminate].
    destruct (lister_ b) as [l0|] eqn:L; [|discriminate].
    cbv zeta in H.
    set (info1 := if database_id_ info =? -1
                  then set_database_id (AddDevice w (SaveToDb info)) info
                  else info) in *.
    assert (BestBackend w info1 = Some b) as Bb1.
    { subst info1. destruct (database_id_ info =? -1); exact Bb. }
    assert (device_ info1 = None) as D1.
    { subst info1. destruct (database_id_ info =? -1); exact D. }
    rewrite Bb1, L in H. cbn [device_classes_ set_devices] in H.
    destruct (MakeDeviceUrls w l0 (unique_id_ b)) as [|u urls] eqn:U;
      [discriminate|].
    destruct (isEmpty (choose_url (device_classes_ m) (u :: urls))) eqn:E;
      [discriminate|].
    destruct (smap_find (scheme (choose_url (device_classes_ m) (u :: urls)))
                        (device_classes_ m)) as [meta|] eqn:F;
      [|discriminate].
    destruct (newInstance w meta (choose_url (device_classes_ m) (u :: urls))
                          l0 (unique_id_ b) (database_id_ info1)
                          (database_id_ info =? -1)) as [obj|] eqn:NI;
      [|discriminate].
    injection H as <- <- <-. cbn [devices_ set_devices].
    rewrite replace_twice.
    eexists. split; [eapply at_replace_same, A|].
    split; [reflexivity|].
    split; [unfold rowCount; cbn [devices_ set_devices];
            now rewrite count_replace|].
    match goal with
    | |- context [replace (devices_ m) row ?x] =>
        destruct (Again x (replace (devices_ m) row x)
                        (at_replace_same _ _ _ _ A) eq_refl
                        (mkDeviceManager (replace (devices_ m) row x)
                                         (device_classes_ m)
                                         (active_tasks_ m) (persistent_ m))
                        eq_refl) as [C S]
    end.
    split; [exact C|]. split; [exact S|]. right.
    exists b, (if database_id_ info =? -1
               then [backend_AddDevice (SaveToDb info)] else []).
    cbn [lister device_unique_id_ device_database_id_ url_ database_id_
           set_device].
    split; [exact Bb1|]. split; [exact L|]. split; [reflexivity|].
    split; [reflexivity|].
    destruct (choose_url_registered (device_classes_ m) (u :: urls) emptyUrl)
      as [Z0|[I S']].
    + unfold choose_url in E. rewrite Z0 in E. discriminate.
    + split; [rewrite U; exact I|]. split; [exact S'|].
      rewrite index_in_range; [reflexivity|].
      unfold rowCount. cbn [devices_ set_devices]. now rewrite count_replace.
Qed.

Lemma Connect_returns_the_stored_session_witness :
  exists info',
    at_ [X_connected] 0 = Some info'
    /\ device_ info' = Some X_session
    /\ rowCount (manager [X_connected]) = rowCount (manager [X_present])
    /\ (forall w', Connect w' 0 (manager [X_connected])
                   = Some (Some X_session, manager [X_connected], []))
    /\ (forall w', data w' (manager [X_connected]) (Some (0, 0)) Role_State
                   = Some (VState State_Connected))
    /\ ((manager [X_connected] = manager [X_present]
         /\ [backend_AddDevice (SaveToDb X_present);
             dataChanged (Some (0, 0)) (Some (0, 0)); DeviceConnected 0]
            = [])
        \/ exists b saved,
            BestBackend (world [usb_dev1] 1 (Some 7%nat)) info' = Some b
            /\ lister_ b = Some (lister X_session)
            /\ device_unique_id_ X_session = unique_id_ b
            /\ device_database_id_ X_session = database_id_ info'
            /\ In (url_ X_session)
                  (MakeDeviceUrls (world [usb_dev1] 1 (Some 7%nat))
                                  (lister X_session) (unique_id_ b))
            /\ smap_contains (scheme (url_ X_session)) classes = true
            /\ [backend_AddDevice (SaveToDb X_present);
                dataChanged (Some (0, 0)) (Some (0, 0)); DeviceConnected 0]
               = saved ++ [dataChanged (Some (0, 0)) (Some (0, 0));
                           DeviceConnected 0]).
Proof.
  apply (Connect_returns_the_stored_session
           (world [usb_dev1] 1 (Some 7%nat)) 0 (manager [X_present])
           X_session (manager [X_connected])
           [backend_AddDevice (SaveToDb X_present);
            dataChanged (Some (0, 0)) (Some (0, 0)); DeviceConnected 0]).
  reflexivity.
Defined.

(** ** Forgetting, renaming and unmounting a device *)

Lemma Forget_steps w row m info :
  at_ (devices_ m) row = Some info ->
  database_id_ info <> -1 ->
  Forget w row m
  = (let info1 := set_database_id (-1) (set_device None info) in
     let m1 := set_devices (replace (devices_ m) row info1) m in
     let effects :=
       disconnected row info ++ [backend_RemoveDevice (database_id_ info)] in
     match BestBackend w info with
     | None => None
     | Some best =>
         match lister_ best with
         | None => Some (removeRow row m1, effects ++ [rowsRemoved row row])
         | Some l =>
             let id := unique_id_ best in
             let info2 :=
               set_friendly_name (MakeFriendlyName w l id) info1 in
             let info3 :=
               LoadIcon w (DeviceIcons w l id) (friendly_name_ info2) info2 in
             Some (set_devices (replace (devices_ m) row info3) m,
                   effects ++ [dataChanged (Some (row, 0)) (Some (row, 0))])
         end
     end).
Proof.
  intros A P. pose proof (at_range _ _ _ A) as R.
  apply Z.eqb_neq in P. unfold Forget, disconnected. rewrite A, P.
  destruct (device_ info) as [d|] eqn:D.
  - unfold Disconnect. rewrite A, D. cbn [devices_ set_devices].
    rewrite (at_replace_same _ _ _ _ A). cbv zeta.
    cbn [database_id_ set_device].
    change (BestBackend w (set_database_id (-1) (set_device None info)))
      with (BestBackend w info).
    destruct (BestBackend w info) as [b|]; [|reflexivity].
    destruct (lister_ b) as [l|].
    + rewrite !replace_twice.
      rewrite !index_in_range
        by (unfold rowCount; cbn [devices_ set_devices];
            rewrite ?count_replace; exact R).
      rewrite <- !app_assoc. reflexivity.
    + rewrite !index_in_range by exact R.
      unfold removeRow. cbn [devices_ set_devices active_tasks_ persistent_
                               device_classes_].
      rewrite !replace_twice, <- !app_assoc. reflexivity.
  - rewrite A. cbv zeta.
    assert (set_device None info = info) as ->
      by (destruct info; simpl in D; now subst).
    change (BestBackend w (set_database_id (-1) info))
      with (BestBackend w info).
    destruct (BestBackend w info) as [b|]; [|reflexivity].
    destruct (lister_ b) as [l|].
    + cbn [devices_ set_devices]. rewrite ?replace_twice.
      rewrite !index_in_range
        by (unfold rowCount; cbn [devices_ set_devices];
            rewrite ?count_replace; exact R).
      reflexivity.
    + reflexivity.
Qed.

Lemma LoadIcon_icon_name w icons hint info :
  (forall name, find (IconLoader_Load w) icons = Some name ->
                icon_name_ (LoadIcon w icons hint info) = name)
  /\ (find (IconLoader_Load w) icons = None ->
      icon_name_ (LoadIcon w icons hint info) = "phone"%string
      \/ icon_name_ (LoadIcon w icons hint info)
         = "multimedia-player-ipod-standard-monochrome"%string
      \/ icon_name_ (LoadIcon w icons hint info) = usb_pendrive).
Proof.
  unfold LoadIcon. destruct icons as [|first icons].
  - split; [discriminate|]. intros _. right. right. reflexivity.
  - destruct (find (IconLoader_Load w) (first :: icons)) as [name|].
    + split; [now intros ? [= <-]|discriminate].
    + split; [discriminate|]. intros _.
      destruct (contains _ "phone"); [now left|].
      destruct (contains _ "ipod" || contains _ "apple");
        right; [now left|now right].
Qed.

Lemma find_first_loadable {A} (f : A -> bool) pre x post :
  f x = true -> (forall y, In y pre -> f y = false) ->
  find f (pre ++ x :: post) = Some x.
Proof.
  intros Fx N. induction pre as [|h t IH]; simpl.
  - now rewrite Fx.
  - rewrite (N h (or_introl eq_refl)). apply IH.
    intros y I. apply N. now right.
Qed.

Lemma find_none_loadable {A} (f : A -> bool) l :
  (forall y, In y l -> f y = false) -> find f l = None.
Proof.
  induction l as [|h t IH]; simpl; intros N; [reflexivity|].
  rewrite (N h (or_introl eq_refl)). apply IH.
  intros y I. apply N. now right.
Qed.

(** X10: [Forget] of a persisted device that is still attached (its
    primary binding is live): the session, if any, is dropped first, the
    record is removed from the storage and loses its database id, and its
    name and icon are taken again from the lister of the primary binding:
    the name is the one the lister makes for the native id, the icon is
    what [LoadIcon] chooses among the icons the lister gives for it - the
    first one that loads, else one of the three fallbacks, the memory
    stick when the lister gives none.  The row, its bindings, size and
    progress stay, [dataChanged] is emitted, and a second [Forget] does
    nothing. *)
Theorem Forget_attached_device w row m info b l :
  at_ (devices_ m) row = Some info ->
  database_id_ info <> -1 ->
  BestBackend w info = Some b -> lister_ b = Some l ->
  exists info',
    Forget w row m
    = Some (set_devices (replace (devices_ m) row info') m,
            disconnected row info
            ++ [backend_RemoveDevice (database_id_ info);
                dataChanged (Some (row, 0)) (Some (row, 0))])
    /\ database_id_ info' = -1
    /\ device_ info' = None
    /\ backends_ info' = backends_ info
    /\ friendly_name_ info' = MakeFriendlyName w l (unique_id_ b)
    /\ size_ info' = size_ info
    /\ task_percentage_ info' = task_percentage_ info
    /\ icon_name_ info'
       = icon_name_ (LoadIcon w (DeviceIcons w l (unique_id_ b))
                              (MakeFriendlyName w l (unique_id_ b)) info)
    /\ (forall pre name post,
           DeviceIcons w l (unique_id_ b) = pre ++ name :: post ->
           IconLoader_Load w name = true ->
           (forall n, In n pre -> IconLoader_Load w n = false) ->
           icon_name_ info' = name)
    /\ ((forall n, In n (DeviceIcons w l (unique_id_ b)) ->
                   IconLoader_Load w n = false) ->
        icon_name_ info' = "phone"%string
        \/ icon_name_ info'
           = "multimedia-player-ipod-standard-monochrome"%string
        \/ icon_name_ info' = usb_pendrive)
    /\ (DeviceIcons w l (unique_id_ b) = [] ->
        icon_name_ info' = usb_pendrive)
    /\ forall w',
        Forget w' row (set_devices (replace (devices_ m) row info') m)
        = Some (set_devices (replace (devices_ m) row info') m, []).
Proof.
  intros A P Bb L. rewrite (Forget_steps w row m info A P). cbv zeta.
  rewrite Bb, L.
  match goal with
  | |- context [LoadIcon w ?icons ?hint ?x] =>
      destruct (LoadIcon_fields w icons hint x) as (D1 & V1 & B1 & T1);
      destruct (LoadIcon_name_size w icons hint x) as (N1 & S1);
      destruct (LoadIcon_icon_name w icons hint x) as (I1 & I2);
      assert (icon_name_ (LoadIcon w icons hint x)
              = icon_name_ (LoadIcon w icons hint info)) as I3;
      [|exists (LoadIcon w icons hint x)]
  end.
  { unfold LoadIcon.
    destruct (DeviceIcons w l (unique_id_ b)) as [|first icons];
      [reflexivity|].
    destruct (find (IconLoader_Load w) (first :: icons)); [reflexivity|].
    destruct (contains _ "phone"); [reflexivity|].
    destruct (contains _ "ipod" || contains _ "apple"); reflexivity. }
  cbn [friendly_name_ set_friendly_name] in *.
  rewrite D1, V1, B1, T1, N1, S1, <- app_assoc.
  do 7 (split; [reflexivity|]).
  split; [exact I3|].
  split.
  { intros pre name post E Ln Lp. apply I1. rewrite E.
    now apply find_first_loadable. }
  split. { intros Nl. apply I2. now apply find_none_loadable. }
  split. { intros E. rewrite I3, E. reflexivity. }
  intros w'. unfold Forget. cbn [devices_ set_devices].
  rewrite (at_replace_same _ _ _ _ A), D1. reflexivity.
Qed.

Lemma Forget_attached_device_witness :
  exists info',
    Forget (world [usb_dev1] 1 None) 0 (manager [X_renamed])
    = Some (manager (replace [X_renamed] 0 info'),
            disconnected 0 X_renamed
            ++ [backend_RemoveDevice (database_id_ X_renamed);
                dataChanged (Some (0, 0)) (Some (0, 0))])
    /\ database_id_ info' = -1
    /\ device_ info' = None
    /\ backends_ info' = backends_ X_renamed
    /\ friendly_name_ info' = "X"%string
    /\ size_ info' = size_ X_renamed
    /\ task_percentage_ info' = task_percentage_ X_renamed
    /\ icon_name_ info' = usb_pendrive
    /\ (forall pre name post,
           [] = pre ++ name :: post ->
           false = true ->
           (forall n, In n pre -> false = false) ->
           icon_name_ info' = name)
    /\ ((forall n : string, False -> false = false) ->
        icon_name_ info' = "phone"%string
        \/ icon_name_ info'
           = "multimedia-player-ipod-standard-monochrome"%string
        \/ icon_name_ info' = usb_pendrive)
    /\ ([] = @nil string -> icon_name_ info' = usb_pendrive)
    /\ forall w',
        Forget w' 0 (manager (replace [X_renamed] 0 info'))
        = Some (manager (replace [X_renamed] 0 info'), []).
Proof.
  apply (Forget_attached_device
           (world [usb_dev1] 1 None) 0 (manager [X_renamed]) X_renamed
           (mkBackend (Some 0%nat) "X") 0%nat); try reflexivity.
  vm_compute. discriminate.
Defined.

(** X11: [Forget] of a persisted device that is not attached (its
    primary binding has no lister): the record is removed from the storage
    and its row from the list, [rowsRemoved] is emitted and the rows
    above move down by one.  The persistent indexes on the model below
    the row are unchanged and those on the row become invalid; those
    above the row are moved down twice, by the loop of the file and again
    by [endRemoveRows], so that they end two rows lower, or invalid for
    the index of row 1 when row 0 is forgotten. *)
Theorem Forget_absent_device w row m info b :
  at_ (devices_ m) row = Some info ->
  database_id_ info <> -1 ->
  BestBackend w info = Some b -> lister_ b = None ->
  Forall (on_model m) (persistentIndexList m) ->
  exists m',
    Forget w row m
    = Some (m',
            disconnected row info
            ++ [backend_RemoveDevice (database_id_ info);
                rowsRemoved row row])
    /\ devices_ m' = removeAt (devices_ m) row
    /\ rowCount m' = rowCount m - 1
    /\ (forall j, 0 <= j < row -> at_ (devices_ m') j = at_ (devices_ m) j)
    /\ (forall j, row <= j ->
                  at_ (devices_ m') j = at_ (devices_ m) (j + 1))
    /\ Forall2 (moved_twice row) (persistentIndexList m)
               (persistentIndexList m').
Proof.
  intros A P Bb L W. pose proof (at_range _ _ _ A) as R.
  rewrite (Forget_steps w row m info A P). cbv zeta. rewrite Bb, L.
  rewrite <- app_assoc. eexists. split; [reflexivity|].
  assert (count (removeAt (devices_ m) row) = count (devices_ m) - 1) as C
    by now apply count_removeAt.
  unfold removeRow, rowCount.
  cbn [devices_ set_devices active_tasks_ persistent_ device_classes_].
  rewrite removeAt_replace. split; [reflexivity|]. split; [exact C|].
  split; [intros j Hj; now apply at_removeAt_below|].
  split; [intros j Hj; apply at_removeAt_above; lia|].
  unfold persistentIndexList, qmap_values in *.
  cbn [active_tasks_ persistent_]. rewrite map_map. cbn [snd fst].
  rewrite <- (map_map snd), <- map_app.
  induction W as [|idx l0 O _ IH]; simpl; constructor; auto.
  apply (removedPersistentIndex_moved_twice m); auto; lia.
Qed.

Lemma Forget_absent_device_witness :
  exists m',
    Forget (world [] 1 None) 0 remembered_first
    = Some (m',
            disconnected 0 X_remembered
            ++ [backend_RemoveDevice (database_id_ X_remembered);
                rowsRemoved 0 0])
    /\ devices_ m' = removeAt (devices_ remembered_first) 0
    /\ rowCount m' = rowCount remembered_first - 1
    /\ (forall j, 0 <= j < 0 ->
                  at_ (devices_ m') j = at_ (devices_ remembered_first) j)
    /\ (forall j, 0 <= j ->
                  at_ (devices_ m') j
                  = at_ (devices_ remembered_first) (j + 1))
    /\ Forall2 (moved_twice 0) (persistentIndexList remembered_first)
               (persistentIndexList m').
Proof.
  apply (Forget_absent_device
           (world [] 1 None) 0 remembered_first X_remembered
           (mkBackend None "X")); try reflexivity.
  - vm_compute. discriminate.
  - repeat constructor.
Defined.

(** X12: [SetDeviceIdentity] gives the row the new name at once, emits
    [dataChanged] and pushes the change to the storage exactly when the
    record is persisted.  The icon is the requested one when it loads, and
    otherwise one of the three fallbacks guessed from the names; the
    database id, session, bindings, size and progress are untouched. *)
Theorem SetDeviceIdentity_renames w row name icon m info :
  at_ (devices_ m) row = Some info ->
  exists info',
    SetDeviceIdentity w row name icon m
    = Some (set_devices (replace (devices_ m) row info') m,
            dataChanged (Some (row, 0)) (Some (row, 0))
            :: (if database_id_ info =? -1 then []
                else [backend_SetDeviceIdentity (database_id_ info)
                                                name icon]))
    /\ friendly_name_ info' = name
    /\ (if IconLoader_Load w icon
        then icon_name_ info' = icon
        else icon_name_ info' = "phone"%string
             \/ icon_name_ info'
                = "multimedia-player-ipod-standard-monochrome"%string
             \/ icon_name_ info' = usb_pendrive)
    /\ database_id_ info' = database_id_ info
    /\ device_ info' = device_ info
    /\ backends_ info' = backends_ info
    /\ size_ info' = size_ info
    /\ task_percentage_ info' = task_percentage_ info
    /\ data w (set_devices (replace (devices_ m) row info') m)
            (Some (row, 0)) Role_FriendlyName
       = Some (VString name).
Proof.
  intros A. pose proof (at_range _ _ _ A) as R.
  unfold SetDeviceIdentity. rewrite A. cbv zeta.
  rewrite index_in_range by exact R.
  destruct (LoadIcon_fields w [icon] name (set_friendly_name name info))
    as (D1 & V1 & B1 & T1).
  destruct (LoadIcon_name_size w [icon] name (set_friendly_name name info))
    as (N1 & S1).
  destruct (LoadIcon_icon_name w [icon] name (set_friendly_name name info))
    as (I1 & I2).
  exists (LoadIcon w [icon] name (set_friendly_name name info)).
  rewrite D1, V1, B1, T1, N1, S1. cbn [friendly_name_ set_friendly_name
    database_id_ device_ backends_ size_ task_percentage_].
  split; [now destruct (database_id_ info =? -1)|].
  split; [reflexivity|]. split.
  { simpl in I1, I2. destruct (IconLoader_Load w icon); auto. }
  do 5 (split; [reflexivity|]).
  unfold data. change (negb (0 =? 0)) with false. cbv iota.
  cbn [devices_ set_devices]. rewrite (at_replace_same _ _ _ _ A).
  now rewrite N1.
Qed.

Lemma SetDeviceIdentity_renames_witness :
  exists info',
    SetDeviceIdentity (world [] 1 None) 0 "My player" "ipod"
                      (manager [X_remembered])
    = Some (manager (replace [X_remembered] 0 info'),
            dataChanged (Some (0, 0)) (Some (0, 0))
            :: (if database_id_ X_remembered =? -1 then []
                else [backend_SetDeviceIdentity (database_id_ X_remembered)
                                                "My player" "ipod"]))
    /\ friendly_name_ info' = "My player"%string
    /\ (if IconLoader_Load (world [] 1 None) "ipod"
        then icon_name_ info' = "ipod"%string
        else icon_name_ info' = "phone"%string
             \/ icon_name_ info'
                = "multimedia-player-ipod-standard-monochrome"%string
             \/ icon_name_ info' = usb_pendrive)
    /\ database_id_ info' = database_id_ X_remembered
    /\ device_ info' = device_ X_remembered
    /\ backends_ info' = backends_ X_remembered
    /\ size_ info' = size_ X_remembered
    /\ task_percentage_ info' = task_percentage_ X_remembered
    /\ data (world [] 1 None) (manager (replace [X_remembered] 0 info'))
            (Some (0, 0)) Role_FriendlyName
       = Some (VString "My player").
Proof.
  apply (SetDeviceIdentity_renames
           (world [] 1 None) 0 "My player" "ipod" (manager [X_remembered])
           X_remembered).
  reflexivity.
Defined.

(** X13: [Unmount] does nothing to an unpersisted device.  For a
    persisted one it drops the session, if any, as [Disconnect] does, and
    then asks the lister of the primary binding to unmount the native id
    of that binding, or asks nobody when the primary binding has no
    lister; the rows, bindings and database ids are never changed. *)
Theorem Unmount_asks_the_primary_lister w row m info b :
  at_ (devices_ m) row = Some info ->
  BestBackend w info = Some b ->
  (database_id_ info = -1 -> Unmount w row m = Some (m, []))
  /\ (database_id_ info <> -1 ->
      Unmount w row m
      = Some (match device_ info with
              | Some _ =>
                  set_devices
                    (replace (devices_ m) row (set_device None info)) m
              | None => m
              end,
              disconnected row info
              ++ match lister_ b with
                 | Some l => [lister_UnmountDevice l (unique_id_ b)]
                 | None => []
                 end)).
Proof.
  intros A Bb. pose proof (at_range _ _ _ A) as R. split; intros P.
  - unfold Unmount. now rewrite A, P.
  - apply Z.eqb_neq in P. unfold Unmount, disconnected. rewrite A, P.
    destruct (device_ info) as [d|] eqn:D.
    + unfold Disconnect. rewrite A, D. cbn [devices_ set_devices].
      rewrite (at_replace_same _ _ _ _ A).
      change (BestBackend w (set_device None info))
        with (BestBackend w info).
      rewrite Bb, index_in_range by exact R.
      now destruct (lister_ b).
    + rewrite A, Bb. now destruct (lister_ b).
Qed.

Lemma Unmount_asks_the_primary_lister_witness :
  (database_id_ X_connected = -1 ->
   Unmount (world [] 1 None) 0 (manager [X_connected])
   = Some (manager [X_connected], []))
  /\ (database_id_ X_connected <> -1 ->
      Unmount (world [] 1 None) 0 (manager [X_connected])
      = Some (match device_ X_connected with
              | Some _ =>
                  manager (replace [X_connected] 0
                                   (set_device None X_connected))
              | None => manager [X_connected]
              end,
              disconnected 0 X_connected
              ++ match lister_ (mkBackend (Some 0%nat) "X") with
                 | Some l => [lister_UnmountDevice l "X"]
                 | None => []
                 end)).
Proof.
  apply (Unmount_asks_the_primary_lister
           (world [] 1 None) 0 (manager [X_connected]) X_connected
           (mkBackend (Some 0%nat) "X")); reflexivity.
Defined.

(** ** What the calls leave alone *)

(** Closes the goal for a manager that differs from [m] by assignments to
    a record that keep its bindings. *)
Ltac keeps_bindings :=
  cbn [devices_ set_devices device_classes_ persistent_ active_tasks_];
  rewrite ?replace_twice;
  repeat split; try reflexivity;
  try (eapply map_replace;
       [eassumption
       |cbn [backends_ set_device set_database_id set_friendly_name
                       set_task_percentage];
        rewrite ?LoadIcon_backends; reflexivity]).

Lemma Connect_keeps w row m ret m' effects :
  Connect w row m = Some (ret, m', effects) ->
  map backends_ (devices_ m') = map backends_ (devices_ m)
  /\ device_classes_ m' = device_classes_ m
  /\ persistent_ m' = persistent_ m.
Proof.
  unfold Connect. intros H. cbv zeta in H.
  repeat break_in H; try discriminate; injection H as <- <- <-;
    keeps_bindings.
Qed.

Lemma Disconnect_keeps row m m' effects :
  Disconnect row m = Some (m', effects) ->
  map backends_ (devices_ m') = map backends_ (devices_ m)
  /\ device_classes_ m' = device_classes_ m
  /\ persistent_ m' = persistent_ m.
Proof.
  unfold Disconnect. intros H. returned H; keeps_bindings.
Qed.

Lemma TasksChanged_tasks_keeps tasks :
  forall m fin eff m' fin' eff',
    TasksChanged_tasks tasks m fin eff = Some (m', fin', eff') ->
    map backends_ (devices_ m') = map backends_ (devices_ m)
    /\ device_classes_ m' = device_classes_ m
    /\ persistent_ m' = persistent_ m.
Proof.
  induction tasks as [|task tasks IH]; simpl; intros m fin eff m' fin' eff' H.
  - now injection H as <- _ _.
  - repeat break_in H; try discriminate; eauto.
    apply IH in H as (H1 & H2 & H3).
    cbn [devices_ set_devices device_classes_ persistent_] in *.
    rewrite H1. repeat split; auto.
    eapply map_replace; [eassumption|reflexivity].
Qed.

Lemma TasksChanged_finished_keeps fin :
  forall m eff m' eff',
    TasksChanged_finished fin m eff = Some (m', eff') ->
    map backends_ (devices_ m') = map backends_ (devices_ m)
    /\ device_classes_ m' = device_classes_ m
    /\ persistent_ m' = persistent_ m.
Proof.
  induction fin as [|[[r c]|] fin IH]; simpl; intros m eff m' eff' H.
  - now injection H as <- _.
  - destruct (at_ (devices_ m) r) eqn:A; [|discriminate].
    apply IH in H as (H1 & H2 & H3).
    cbn [devices_ set_devices device_classes_ persistent_] in *.
    rewrite H1. repeat split; auto.
    eapply map_replace; [eassumption|reflexivity].
  - eauto.
Qed.

Lemma FindDeviceById_bindings m m' id :
  map backends_ (devices_ m') = map backends_ (devices_ m) ->
  FindDeviceById m' id = FindDeviceById m id.
Proof.
  intros E. unfold FindDeviceById. apply FindDeviceById_from_ext.
  unfold has_unique_id.
  rewrite <- (map_map backends_
                      (existsb (fun b => String.eqb (unique_id_ b) id))),
          <- (map_map backends_
                      (existsb (fun b => String.eqb (unique_id_ b) id))).
  now rewrite E.
Qed.

(** The calls other than a lister's added or removed signal and
    [Forget] assign to records only, and never to their bindings. *)
Lemma other_calls_keep w c m m' effects :
  structural c = false ->
  call w c m = Some (m', effects) ->
  map backends_ (devices_ m') = map backends_ (devices_ m)
  /\ device_classes_ m' = device_classes_ m
  /\ persistent_ m' = persistent_ m.
Proof.
  intros S H.
  destruct c; try discriminate; simpl in H.
  - now injection H as <- _.
  - destruct (Connect w row m) as [[[ret m1] e1]|] eqn:E; [|discriminate].
    injection H as <- _. eapply Connect_keeps; eauto.
  - eapply Disconnect_keeps; eauto.
  - unfold SetDeviceIdentity in H.
    destruct (at_ (devices_ m) row) as [info|] eqn:A; [|discriminate].
    cbv zeta in H. injection H as <- _. keeps_bindings.
  - unfold DeviceTaskStarted in H. returned H; keeps_bindings.
  - unfold TasksChanged in H.
    destruct (TasksChanged_tasks tasks m (qmap_values (active_tasks_ m)) [])
      as [[[m1 f1] e1]|] eqn:E; [|discriminate].
    apply TasksChanged_tasks_keeps in E as (E1 & E2 & E3).
    apply TasksChanged_finished_keeps in H as (H1 & H2 & H3).
    repeat split; congruence.
  - unfold Unmount in H.
    destruct (at_ (devices_ m) row) as [info|] eqn:A; [|discriminate].
    destruct (database_id_ info =? -1); [now injection H as <- <-|].
    destruct (device_ info).
    + destruct (Disconnect row m) as [[m1 e1]|] eqn:D; [|discriminate].
      apply Disconnect_keeps in D. returned H; exact D.
    + returned H; auto.
Qed.

(** X14: only a lister signal or [Forget] can change which rows and
    bindings exist.  [Connect], [Disconnect], [SetDeviceIdentity],
    [Unmount], [DeviceTaskStarted], [TasksChanged] and
    [PhysicalDeviceChanged] leave the number of rows, the bindings of
    every row (native ids and listers), the device classes and the
    persistent indexes of the views as they are, so [FindDeviceById]
    answers as before. *)
Theorem only_structural_calls_change_bindings w c m m' effects :
  structural c = false ->
  call w c m = Some (m', effects) ->
  map backends_ (devices_ m') = map backends_ (devices_ m)
  /\ rowCount m' = rowCount m
  /\ device_classes_ m' = device_classes_ m
  /\ persistent_ m' = persistent_ m
  /\ forall id, FindDeviceById m' id = FindDeviceById m id.
Proof.
  intros S H.
  destruct (other_calls_keep w c m m' effects S H) as (K1 & K2 & K3).
  repeat split; auto.
  - unfold rowCount, count.
    rewrite <- (length_map backends_ (devices_ m')), K1.
    now rewrite length_map.
  - intros id. now apply FindDeviceById_bindings.
Qed.

Lemma only_structural_calls_change_bindings_witness :
  map backends_ (devices_ (manager [set_device None X_connected]))
  = map backends_ (devices_ (manager [X_connected]))
  /\ rowCount (manager [set_device None X_connected])
     = rowCount (manager [X_connected])
  /\ device_classes_ (manager [set_device None X_connected])
     = device_classes_ (manager [X_connected])
  /\ persistent_ (manager [set_device None X_connected])
     = persistent_ (manager [X_connected])
  /\ forall id, FindDeviceById (manager [set_device None X_connected]) id
                = FindDeviceById (manager [X_connected]) id.
Proof.
  apply (only_structural_calls_change_bindings
           (world [] 1 None) (CallDisconnect 0) (manager [X_connected])
           (manager [set_device None X_connected])
           [DeviceDisconnected 0; dataChanged (Some (0, 0)) (Some (0, 0))]);
    reflexivity.
Defined.

(** ** Calls on a reachable manager return *)

Lemma TasksChanged_returns tasks m :
  Forall (on_model m) (qmap_values (active_tasks_ m)) ->
  converts tasks ->
  exists m' effects, TasksChanged tasks m = Some (m', effects).
Proof.
  intros W Hc.
  assert (forall k r' c',
             qmap_find k (active_tasks_ m) = Some (Some (r', c')) ->
             0 <= r' < count (devices_ m) /\ c' = 0) as W2.
  { intros k r' c' F. apply qmap_find_In in F.
    rewrite Forall_forall in W. apply W in F.
    now apply on_model_range in F. }
  unfold TasksChanged.
  destruct (TasksChanged_tasks_other_rows
              (active_tasks_ m) (count (devices_ m)) (-1) W2 tasks m
              (qmap_values (active_tasks_ m)) [])
    as (m2 & fin2 & eff2 & H & HA & Hn & _ & Hf & _); auto.
  { intros task c I F. apply W2 in F. lia. }
  rewrite H.
  destruct (TasksChanged_finished_row
              (count (devices_ m)) (-1) fin2 m2 eff2 Hn)
    as (m' & eff' & H' & _).
  { intros r' c' I. apply Hf in I. rewrite Forall_forall in W.
    apply W in I. now apply on_model_range in I. }
  eauto.
Qed.

Lemma PhysicalDeviceRemoved_returns sender id m :
  exists m' effects, PhysicalDeviceRemoved sender id m = Some (m', effects).
Proof.
  unfold PhysicalDeviceRemoved.
  destruct (Z.eqb_spec (FindDeviceById m id) (-1)) as [E|N]; [eauto|].
  destruct (FindDeviceById_found m id N) as (info & A & _). rewrite A.
  destruct (negb (database_id_ info =? -1)); [eauto|]. cbv zeta.
  destruct (backends_
              (set_backends (remove_backend id (backends_ info)) info));
    eauto.
Qed.

Lemma Forget_returns w row m info :
  at_ (devices_ m) row = Some info -> backends_ info <> [] ->
  exists m' effects, Forget w row m = Some (m', effects).
Proof.
  intros A N. destruct (Z.eq_dec (database_id_ info) (-1)) as [P|P].
  - unfold Forget. rewrite A, P. simpl. eauto.
  - rewrite (Forget_steps w row m info A P). cbv zeta.
    destruct (BestBackend_nonempty w info N) as [b ->].
    destruct (lister_ b); eauto.
Qed.

Lemma Unmount_returns w row m info :
  at_ (devices_ m) row = Some info -> backends_ info <> [] ->
  exists m' effects, Unmount w row m = Some (m', effects).
Proof.
  intros A N. unfold Unmount. rewrite A.
  destruct (database_id_ info =? -1); [eauto|].
  destruct (BestBackend_nonempty w info N) as [b Bb].
  destruct (device_ info) as [d|] eqn:D.
  - unfold Disconnect. rewrite A, D. cbn [devices_ set_devices].
    rewrite (at_replace_same _ _ _ _ A).
    change (BestBackend w (set_device None info)) with (BestBackend w info).
    rewrite Bb. destruct (lister_ b); eauto.
  - rewrite A, Bb. destruct (lister_ b); eauto.
Qed.

(** X15: on a manager that a run can reach, no call goes out of range or
    through a null pointer: every lister signal and task-started signal
    returns, every call on a row returns when the row is below
    [rowCount], and a refresh returns when its fractions convert to
    [int]; the getters of a row below [rowCount] answer too. *)
Theorem reachable_calls_return w c m :
  reachable m -> addressed m c ->
  (exists m' effects, call w c m = Some (m', effects))
  /\ forall row,
      0 <= row < rowCount m ->
      (exists l, GetLister w m row = Some l)
      /\ (exists id, GetDatabaseId m row = Some id)
      /\ (exists d, GetConnectedDevice m row = Some d).
Proof.
  intros Rm Ad. pose proof (reachable_bound m Rm) as B.
  pose proof (reachable_tracked m Rm) as W. split.
  - destruct c; simpl in Ad |- *.
    + destruct (PhysicalDeviceAdded_cases w sender id m)
        as (ds & e & H & _). eauto.
    + apply PhysicalDeviceRemoved_returns.
    + unfold PhysicalDeviceChanged. eauto.
    + destruct (at_in_range (devices_ m) row Ad) as [info A].
      destruct (Connect_total w row m info A) as (ret & m' & e & H).
      { apply B. eapply at_In; eauto. }
      rewrite H. eauto.
    + destruct (at_in_range (devices_ m) row Ad) as [info A].
      unfold Disconnect. rewrite A. destruct (device_ info); eauto.
    + destruct (at_in_range (devices_ m) row Ad) as [info A].
      apply (Forget_returns w row m info A). apply B. eapply at_In; eauto.
    + destruct (at_in_range (devices_ m) row Ad) as [info A].
      unfold SetDeviceIdentity. rewrite A. eauto.
    + unfold DeviceTaskStarted. destruct device as [dev|]; [|eauto].
      destruct (find_session dev (devices_ m) 0) as [i|] eqn:F; [|eauto].
      apply find_session_range in F.
      destruct (at_in_range (devices_ m) i) as [info A]; [lia|].
      rewrite A. eauto.
    + now apply TasksChanged_returns.
    + destruct (at_in_range (devices_ m) row Ad) as [info A].
      apply (Unmount_returns w row m info A). apply B. eapply at_In; eauto.
  - intros row Rr. destruct (at_in_range (devices_ m) row Rr) as [info A].
    unfold GetLister, GetDatabaseId, GetConnectedDevice. rewrite A.
    destruct (BestBackend_nonempty w info) as [b ->];
      [apply B; eapply at_In; eauto|].
    simpl. split; [|split]; eexists; reflexivity.
Qed.

Lemma reachable_calls_return_witness :
  (exists m' effects,
      call (world [usb_dev1] 1 (Some 7%nat)) (CallConnect 0)
           (manager [X_present])
      = Some (m', effects))
  /\ forall row,
      0 <= row < rowCount (manager [X_present]) ->
      (exists l, GetLister (world [usb_dev1] 1 (Some 7%nat))
                           (manager [X_present]) row = Some l)
      /\ (exists id, GetDatabaseId (manager [X_present]) row = Some id)
      /\ (exists d, GetConnectedDevice (manager [X_present]) row = Some d).
Proof.
  apply (reachable_calls_return
           (world [usb_dev1] 1 (Some 7%nat)) (CallConnect 0)
           (manager [X_present])).
  - apply (reachable_call (world [usb_dev1] 1 None)
                          (CallPhysicalDeviceAdded 0%nat "X")
                          empty (manager [X_present]) [rowsInserted 0 0]
                          (reachable_new (world [] 1 None) [] classes)
                          eq_refl).
  - vm_compute. split; [discriminate|reflexivity].
Defined.

(** ** The tracked tasks *)

Lemma qmap_find_renumbered {V} (f : V -> V) id (A : QMap V) :
  qmap_find id (map (fun kv => (fst kv, f (snd kv))) A)
  = option_map f (qmap_find id A).
Proof.
  induction A as [|[k v] A IH]; simpl; [reflexivity|].
  destruct (k =? id); auto.
Qed.

Lemma qmap_find_insert_other {V} k k' (v : V) mp :
  k <> k' -> qmap_find k' (qmap_insert k v mp) = qmap_find k' mp.
Proof.
  intros N. induction mp as [|[k0 v0] mp IH]; simpl.
  - destruct (Z.eqb_spec k k'); [contradiction|reflexivity].
  - destruct (Z.ltb_spec k k0); simpl.
    + destruct (Z.eqb_spec k k'); [contradiction|reflexivity].
    + destruct (Z.eqb_spec k k0) as [<-|N0]; simpl.
      * destruct (Z.eqb_spec k k'); [contradiction|reflexivity].
      * destruct (k0 =? k'); auto.
Qed.

Lemma TasksChanged_tasks_active tasks :
  forall m fin eff m' fin' eff',
    TasksChanged_tasks tasks m fin eff = Some (m', fin', eff') ->
    active_tasks_ m' = active_tasks_ m.
Proof.
  induction tasks as [|task tasks IH]; simpl; intros m fin eff m' fin' eff' H.
  - now injection H as <- _ _.
  - repeat break_in H; try discriminate; eauto.
    apply IH in H. exact H.
Qed.

Lemma TasksChanged_finished_active fin :
  forall m eff m' eff',
    TasksChanged_finished fin m eff = Some (m', eff') ->
    active_tasks_ m' = active_tasks_ m.
Proof.
  induction fin as [|[[r c]|] fin IH]; simpl; intros m eff m' eff' H.
  - now injection H as <- _.
  - destruct (at_ (devices_ m) r) eqn:A; [|discriminate].
    apply IH in H. exact H.
  - eauto.
Qed.

Lemma Disconnect_active row m m' effects :
  Disconnect row m = Some (m', effects) -> active_tasks_ m' = active_tasks_ m.
Proof. unfold Disconnect. intros H. returned H; reflexivity. Qed.

(** What a call does to the map of the tracked tasks: nothing, a
    renumbering of its indexes, or one assignment. *)
Lemma call_active_tasks w c m m' effects :
  call w c m = Some (m', effects) ->
  active_tasks_ m' = active_tasks_ m
  \/ (exists m1 i,
         active_tasks_ m'
         = map (fun kv => (fst kv, removedPersistentIndex m1 i (snd kv)))
               (active_tasks_ m))
  \/ (exists id idx, c = CallDeviceTaskStarted (fst id) (snd id)
                     /\ active_tasks_ m'
                        = qmap_insert (snd id) idx (active_tasks_ m)).
Proof.
  destruct c; simpl; intros H.
  - destruct (PhysicalDeviceAdded_cases w sender id m)
      as (ds & e & H' & _).
    rewrite H' in H. injection H as <- _. now left.
  - unfold PhysicalDeviceRemoved in H. returned H; auto.
    right. left. eexists _, _. reflexivity.
  - injection H as <- _. now left.
  - destruct (Connect w row m) as [[[ret m1] e1]|] eqn:E; [|discriminate].
    injection H as <- _. unfold Connect in E. cbv zeta in E.
    repeat break_in E; try discriminate; injection E as _ <- _; auto.
  - left. eapply Disconnect_active; eauto.
  - unfold Forget in H.
    destruct (at_ (devices_ m) row) as [info|] eqn:A; [|discriminate].
    destruct (database_id_ info =? -1); [injection H as <- <-; now left|].
    assert (exists m1 e1,
               match device_ info with
               | Some _ => Disconnect row m
               | None => Some (m, [])
               end = Some (m1, e1)
               /\ active_tasks_ m1 = active_tasks_ m)
      as (m1 & e1 & D & W1).
    { destruct (device_ info).
      - destruct (Disconnect row m) as [[m1 e1]|] eqn:D; [|discriminate].
        exists m1, e1. split; auto. eapply Disconnect_active; eauto.
      - exists m, []. auto. }
    rewrite D in H. returned H.
    + left. exact W1.
    + right. left. simpl. rewrite W1. eexists _, _. reflexivity.
  - unfold SetDeviceIdentity in H.
    destruct (at_ (devices_ m) row) as [info|] eqn:A; [|discriminate].
    cbv zeta in H. injection H as <- _. now left.
  - unfold DeviceTaskStarted in H. returned H; auto.
    right. right. exists (Some n, id), (index m z 0). auto.
  - unfold TasksChanged in H.
    destruct (TasksChanged_tasks tasks m (qmap_values (active_tasks_ m)) [])
      as [[[m1 f1] e1]|] eqn:E; [|discriminate].
    apply TasksChanged_tasks_active in E.
    apply TasksChanged_finished_active in H. left. congruence.
  - unfold Unmount in H.
    destruct (at_ (devices_ m) row) as [info|] eqn:A; [|discriminate].
    destruct (database_id_ info =? -1); [injection H as <- <-; now left|].
    assert (exists m1 e1,
               match device_ info with
               | Some _ => Disconnect row m
               | None => Some (m, [])
               end = Some (m1, e1)
               /\ active_tasks_ m1 = active_tasks_ m)
      as (m1 & e1 & D & W1).
    { destruct (device_ info).
      - destruct (Disconnect row m) as [[m1 e1]|] eqn:D; [|discriminate].
        exists m1, e1. split; auto. eapply Disconnect_active; eauto.
      - exists m, []. auto. }
    rewrite D in H. returned H; now left.
Qed.

(** X16: no call ever takes a task id out of [active_tasks_]: an id that
    is tracked stays tracked after every call (a removed row only
    invalidates or renumbers its index), a refresh leaves the map as it
    is even for the tasks it finds finished, and the only call that
    assigns to the map is a task-started signal, for its own id. *)
Theorem task_ids_stay_tracked w c m m' effects :
  call w c m = Some (m', effects) ->
  (forall id,
      qmap_find id (active_tasks_ m) <> None ->
      qmap_find id (active_tasks_ m') <> None)
  /\ (forall tasks,
         c = CallTasksChanged tasks -> active_tasks_ m' = active_tasks_ m)
  /\ (forall id,
         qmap_find id (active_tasks_ m) = None ->
         qmap_find id (active_tasks_ m') <> None ->
         exists device, c = CallDeviceTaskStarted device id).
Proof.
  intros H. split; [|split].
  - intros id T.
    destruct (call_active_tasks w c m m' effects H)
      as [->|[(m1 & i & ->)|([d k] & idx & _ & ->)]]; auto.
    + rewrite qmap_find_renumbered.
      destruct (qmap_find id (active_tasks_ m)); [discriminate|auto].
    + simpl. destruct (Z.eq_dec k id) as [->|N].
      * rewrite qmap_find_insert. discriminate.
      * now rewrite qmap_find_insert_other.
  - intros tasks ->. simpl in H. unfold TasksChanged in H.
    destruct (TasksChanged_tasks tasks m (qmap_values (active_tasks_ m)) [])
      as [[[m1 f1] e1]|] eqn:E; [|discriminate].
    apply TasksChanged_tasks_active in E.
    apply TasksChanged_finished_active in H. congruence.
  - intros id T T'.
    destruct (call_active_tasks w c m m' effects H)
      as [E|[(m1 & i & E)|([d k] & idx & -> & E)]]; rewrite E in T'.
    + contradiction.
    + rewrite qmap_find_renumbered, T in T'. now contradiction T'.
    + simpl in *. destruct (Z.eq_dec k id) as [->|N]; [eauto|].
      rewrite qmap_find_insert_other in T' by assumption. contradiction.
Qed.

Lemma task_ids_stay_tracked_witness :
  (forall id,
      qmap_find id (active_tasks_ (manager [X_connected])) <> None ->
      qmap_find id
                (active_tasks_
                   (mkDeviceManager [set_task_percentage 0 X_connected]
                                    classes [(5, Some (0, 0))] []))
      <> None)
  /\ (forall tasks,
         CallDeviceTaskStarted (Some 7%nat) 5 = CallTasksChanged tasks ->
         active_tasks_
           (mkDeviceManager [set_task_percentage 0 X_connected]
                            classes [(5, Some (0, 0))] [])
         = active_tasks_ (manager [X_connected]))
  /\ (forall id,
         qmap_find id (active_tasks_ (manager [X_connected])) = None ->
         qmap_find id
                   (active_tasks_
                      (mkDeviceManager [set_task_percentage 0 X_connected]
                                       classes [(5, Some (0, 0))] []))
         <> None ->
         exists device, CallDeviceTaskStarted (Some 7%nat) 5
                        = CallDeviceTaskStarted device id).
Proof.
  apply (task_ids_stay_tracked
           (world [] 1 None) (CallDeviceTaskStarted (Some 7%nat) 5)
           (manager [X_connected])
           (mkDeviceManager [set_task_percentage 0 X_connected]
                            classes [(5, Some (0, 0))] [])
           [dataChanged (Some (0, 0)) (Some (0, 0))]).
  reflexivity.
Defined.

(** ** Native ids are not duplicated *)

Lemma at_split {A} (l : list A) i y :
  at_ l i = Some y ->
  exists pre post,
    l = pre ++ y :: post
    /\ (forall x, replace l i x = pre ++ x :: post)
    /\ removeAt l i = pre ++ post.
Proof.
  unfold at_, replace, removeAt. destruct (i <? 0); [discriminate|].
  generalize (Z.to_nat i). clear i. intros n. revert l.
  induction n as [|n IH]; intros [|h t]; simpl; try discriminate.
  - intros [= ->]. exists [], t. auto.
  - intros H. destruct (IH t H) as (pre & post & -> & R & D).
    exists (h :: pre), post. simpl. repeat split; auto.
    + intros x. now rewrite R.
    + now rewrite D.
Qed.

Lemma set_lister_ids id l bs :
  map unique_id_ (set_lister id l bs) = map unique_id_ bs.
Proof.
  induction bs as [|b bs IH]; simpl; auto.
  destruct (String.eqb (unique_id_ b) id); simpl; congruence.
Qed.

Lemma NoDup_without {A} (P Y Q : list A) :
  NoDup (P ++ Y ++ Q) -> NoDup (P ++ Q).
Proof.
  induction Y as [|y Y IH]; simpl; auto.
  intros H. apply NoDup_remove_1 in H. auto.
Qed.

Lemma remove_backend_ids id bs (P Q : list string) :
  NoDup (P ++ map unique_id_ bs ++ Q) ->
  NoDup (P ++ map unique_id_ (remove_backend id bs) ++ Q).
Proof.
  revert P. induction bs as [|b bs IH]; simpl; auto. intros P H.
  destruct (String.eqb (unique_id_ b) id).
  - now apply NoDup_remove_1 in H.
  - simpl. specialize (IH (P ++ [unique_id_ b])).
    rewrite <- !app_assoc in IH. simpl in IH. auto.
Qed.

Lemma unknown_id_not_bound id ds :
  (forall d, In d ds -> has_unique_id id d = false) ->
  ~ In id (map unique_id_ (flat_map backends_ ds)).
Proof.
  intros U I. apply in_map_iff in I as (b & E & I).
  apply in_flat_map in I as (d & Id & Ib).
  now apply (not_has_unique_id id (backends_ d) b (U d Id) Ib).
Qed.

(** X17: no call gives a native id to a second binding.  When the native
    ids of all bindings of the registry are pairwise distinct before a
    call, they are after it. *)
Theorem native_ids_stay_distinct w c m m' effects :
  ids_distinct m -> call w c m = Some (m', effects) -> ids_distinct m'.
Proof.
  unfold ids_distinct, bindings. intros D H.
  destruct (structural c) eqn:S.
  - destruct c; try discriminate; simpl in H.
    + destruct (PhysicalDeviceAdded_cases w sender id m)
        as (ds & e & H' & [(info & A & T & ->)
                          |[(j & info & x & Hn & A & Bx & ->)
                           |(x & Hn & Bx & ->)]]);
        rewrite H' in H; injection H as <- _; cbn [devices_ set_devices];
        try apply unknown_id_not_bound in Hn.
      * destruct (at_split _ _ _ A) as (pre & post & E & R & _).
        rewrite R. rewrite E in D.
        rewrite !flat_map_app, !map_app in *. simpl in *.
        rewrite !map_app in *. now rewrite set_lister_ids.
      * destruct (at_split _ _ _ A) as (pre & post & E & R & _).
        rewrite R. rewrite E in D, Hn.
        rewrite !flat_map_app, !map_app in *. simpl in *.
        rewrite !map_app in *. rewrite Bx, map_app. simpl.
        rewrite <- !app_assoc. simpl.
        rewrite app_assoc. rewrite app_assoc in D, Hn.
        eapply NoDup_Add; [apply Add_app|]. split; assumption.
      * rewrite flat_map_app, map_app. simpl. rewrite Bx. simpl.
        eapply NoDup_Add; [apply Add_app|]. rewrite app_nil_r.
        split; assumption.
    + unfold PhysicalDeviceRemoved in H.
      destruct (FindDeviceById m id =? -1); [now injection H as <- _|].
      destruct (at_ (devices_ m) (FindDeviceById m id)) as [info|] eqn:A;
        [|discriminate].
      destruct (at_split _ _ _ A) as (pre & post & E & R & Rm).
      rewrite E in D. rewrite !flat_map_app, !map_app in D. simpl in D.
      rewrite map_app in D.
      destruct (negb (database_id_ info =? -1)).
      * cbv zeta in H.
        remember (set_backends (set_lister id None (backends_ info)) info)
          as x eqn:Ex.
        assert (map unique_id_ (backends_ x)
                = map unique_id_ (backends_ info)) as K.
        { subst x. simpl. apply set_lister_ids. }
        injection H as <- _. cbn [devices_ set_devices].
        rewrite R, !flat_map_app, !map_app. cbn [flat_map].
        rewrite map_app.
        destruct (device_ x) as [d|];
          [destruct (Nat.eqb (lister d) sender)|];
          cbn [backends_ set_device]; rewrite K; exact D.
      * cbv zeta in H.
        apply (remove_backend_ids id) in D.
        destruct (backends_
                    (set_backends (remove_backend id (backends_ info)) info))
          eqn:Bk; injection H as <- _.
        -- simpl. rewrite removeAt_replace, Rm.
           rewrite flat_map_app, map_app. eapply NoDup_without; eauto.
        -- cbn [devices_ set_devices].
           rewrite R, !flat_map_app, !map_app. simpl. now rewrite map_app.
    + destruct (at_ (devices_ m) row) as [info|] eqn:A;
        [|unfold Forget in H; rewrite A in H; discriminate].
      destruct (Z.eq_dec (database_id_ info) (-1)) as [P|P].
      { unfold Forget in H. rewrite A, P in H. simpl in H.
        now injection H as <- _. }
      rewrite (Forget_steps w row m info A P) in H. cbv zeta in H.
      destruct (at_split _ _ _ A) as (pre & post & E & R & Rm).
      rewrite E in D. rewrite !flat_map_app, !map_app in D. simpl in D.
      rewrite map_app in D.
      destruct (BestBackend w info) as [b|]; [|discriminate].
      destruct (lister_ b); injection H as <- _.
      * cbn [devices_ set_devices].
        rewrite R, !flat_map_app, !map_app. simpl. rewrite map_app.
        now rewrite LoadIcon_backends.
      * simpl. rewrite removeAt_replace, Rm.
        rewrite flat_map_app, map_app. eapply NoDup_without; eauto.
  - destruct (other_calls_keep w c m m' effects S H) as (K & _).
    rewrite !flat_map_concat_map, K. rewrite flat_map_concat_map in D.
    exact D.
Qed.

Lemma native_ids_stay_distinct_witness :
  ids_distinct (manager [X_present; Y_present]).
Proof.
  apply (native_ids_stay_distinct
           (world [] 1 None) (CallPhysicalDeviceAdded 0%nat "Y")
           (manager [X_present]) (manager [X_present; Y_present])
           [rowsInserted 1 1]).
  - unfold ids_distinct. simpl. repeat constructor. simpl. tauto.
  - reflexivity.
Defined.

(** ** Saving a record and reading it back *)

Lemma split_comma_free s :
  comma_free s = true -> split "," s = [s].
Proof.
  induction s as [|c s IH]; simpl; auto.
  destruct (Ascii.eqb c ","); simpl; [discriminate|].
  intros F. now rewrite (IH F).
Qed.

Lemma split_first s rest :
  comma_free s = true ->
  split "," (s ++ String "," rest) = s :: split "," rest.
Proof.
  induction s as [|c s IH]; simpl; auto.
  destruct (Ascii.eqb c ","); simpl; [discriminate|].
  intros F. now rewrite (IH F).
Qed.

Lemma split_join ids :
  ids <> [] -> forallb comma_free ids = true ->
  split "," (join "," ids) = ids.
Proof.
  unfold join. induction ids as [|s ids IH]; [congruence|].
  intros _ F. simpl in F. apply andb_prop in F as [Fs F].
  destruct ids as [|s' ids].
  - simpl. now apply split_comma_free.
  - change (String.concat "," (s :: s' :: ids))
      with (s ++ String "," (String.concat "," (s' :: ids)))%string.
    rewrite (split_first _ _ Fs). f_equal. apply IH; [discriminate|exact F].
Qed.

(** X2: a record that is saved with [SaveToDb] and read back with
    [InitFromDb], as the constructor does at the next start, keeps its
    database id, name and size, has no session and no progress, and -
    when it has at least one binding and no native id contains a comma -
    has the same native ids in the same order, every binding without a
    lister. *)
Theorem SaveToDb_then_InitFromDb w info :
  backends_ info <> [] ->
  forallb comma_free (map unique_id_ (backends_ info)) = true ->
  let info' := InitFromDb w (SaveToDb info) DeviceInfo_new in
  backends_ info'
  = map (fun b => mkBackend None (unique_id_ b)) (backends_ info)
  /\ database_id_ info' = database_id_ info
  /\ friendly_name_ info' = friendly_name_ info
  /\ size_ info' = size_ info
  /\ device_ info' = None
  /\ task_percentage_ info' = -1.
Proof.
  intros N F. unfold InitFromDb, SaveToDb. cbv zeta.
  cbn [id_ dev_friendly_name_ dev_size_ dev_icon_name_ dev_unique_id_].
  rewrite split_join; [|now destruct (backends_ info)|exact F].
  cbn [backends_ database_id_ friendly_name_ size_ device_ task_percentage_
       set_backends].
  remember (set_size (size_ info)
              (set_friendly_name (friendly_name_ info)
                 (set_database_id (database_id_ info) DeviceInfo_new)))
    as x eqn:Ex.
  destruct (LoadIcon_fields w (split "," (icon_name_ info))
                            (friendly_name_ x) x)
    as (L1 & L2 & L3 & L4).
  destruct (LoadIcon_name_size w (split "," (icon_name_ info))
                               (friendly_name_ x) x)
    as (L5 & L6).
  rewrite L1, L2, L3, L4, L5, L6. subst x. simpl. rewrite map_map.
  repeat split; auto.
Qed.

Lemma SaveToDb_then_InitFromDb_witness :
  let info' :=
    InitFromDb (world [] 1 None) (SaveToDb X_connected) DeviceInfo_new in
  backends_ info'
  = map (fun b => mkBackend None (unique_id_ b)) (backends_ X_connected)
  /\ database_id_ info' = database_id_ X_connected
  /\ friendly_name_ info' = friendly_name_ X_connected
  /\ size_ info' = size_ X_connected
  /\ device_ info' = None
  /\ task_percentage_ info' = -1.
Proof.
  apply (SaveToDb_then_InitFromDb (world [] 1 None) X_connected).
  - discriminate.
  - reflexivity.
Defined.

(** ** The icon of a record *)

Lemma find_first {A} (f : A -> bool) l x :
  find f l = Some x ->
  exists pre post,
    l = pre ++ x :: post /\ f x = true
    /\ forall y, In y pre -> f y = false.
Proof.
  induction l as [|h t IH]; simpl; [discriminate|].
  destruct (f h) eqn:F.
  - intros [= <-]. exists [], t. repeat split; auto. intros y [].
  - intros H. destruct (IH H) as (pre & post & -> & Fx & N).
    exists (h :: pre), post. repeat split; auto.
    intros y [<-|I]; auto.
Qed.

(** X18: [LoadIcon] takes the first of the candidate icons that the icon
    loader can load; when there is none (or no candidate at all) it falls
    back on one of three built-in names, and it is the memory-stick icon
    when there is no candidate.  Nothing but the icon of the record
    changes. *)
Theorem LoadIcon_first_loadable w icons hint info :
  ((exists pre name post,
       icons = pre ++ name :: post
       /\ IconLoader_Load w name = true
       /\ (forall n, In n pre -> IconLoader_Load w n = false)
       /\ icon_name_ (LoadIcon w icons hint info) = name)
   \/ ((forall n, In n icons -> IconLoader_Load w n = false)
       /\ (icon_name_ (LoadIcon w icons hint info) = "phone"%string
           \/ icon_name_ (LoadIcon w icons hint info)
              = "multimedia-player-ipod-standard-monochrome"%string
           \/ icon_name_ (LoadIcon w icons hint info) = usb_pendrive)
       /\ (icons = [] ->
           icon_name_ (LoadIcon w icons hint info) = usb_pendrive)))
  /\ set_icon_name (icon_name_ info) (LoadIcon w icons hint info)
     = set_icon_name (icon_name_ info) info.
Proof.
  split.
  - destruct (find (IconLoader_Load w) icons) as [name|] eqn:F.
    + left. destruct (find_first _ _ _ F) as (pre & post & E & L & N).
      exists pre, name, post. repeat split; auto.
      now apply (LoadIcon_icon_name w icons hint info).
    + right. split; [|split].
      * intros n I. exact (find_none _ _ F n I).
      * now apply (LoadIcon_icon_name w icons hint info).
      * intros ->. reflexivity.
  - unfold LoadIcon. destruct icons as [|first icons]; [reflexivity|].
    destruct (find (IconLoader_Load w) (first :: icons)); [reflexivity|].
    destruct (contains _ "phone"); [reflexivity|].
    destruct (contains _ "ipod" || contains _ "apple"); reflexivity.
Qed.

(** ** The connection state that [data] reports *)

Lemma no_live_binding w bs :
  (forall l, 0 <= priority w l) ->
  (forall b l, In b bs -> lister_ b = Some l -> priority w l <= -1) ->
  existsb (fun b => match lister_ b with Some _ => true | None => false end)
          bs = false.
Proof.
  intros P H. destruct (existsb _ bs) eqn:E; [|reflexivity].
  apply existsb_exists in E as (b & I & L).
  destruct (lister_ b) as [l|] eqn:Lb; [|discriminate].
  specialize (H b l I Lb). specialize (P l). lia.
Qed.

(** X19: when no lister has a negative priority, the state that [data]
    reports for a row with at least one binding is Connected when the
    record holds a session, otherwise NotConnected when some binding of
    the record has a lister, otherwise Remembered, whatever the order of
    the bindings; the decoration carries the not-connected overlay
    exactly when no binding has a lister. *)
Theorem data_state_of_a_row w m row info :
  (forall l, 0 <= priority w l) ->
  at_ (devices_ m) row = Some info ->
  backends_ info <> [] ->
  let live :=
    existsb (fun b => match lister_ b with Some _ => true | None => false end)
            (backends_ info) in
  data w m (Some (row, 0)) Role_State
  = Some (VState match device_ info with
                 | Some _ => State_Connected
                 | None => if live then State_NotConnected
                           else State_Remembered
                 end)
  /\ data w m (Some (row, 0)) DecorationRole
     = Some (VPixmap (icon_name_ info) (negb live)).
Proof.
  intros P A N live. unfold data. simpl. rewrite A.
  assert (exists b, BestBackend w info = Some b
                    /\ live = match lister_ b with
                              | Some _ => true
                              | None => false
                              end) as (b & -> & ->).
  { unfold BestBackend, live.
    destruct (BestBackend_loop_spec w (backends_ info) (-1) None)
      as [[-> H]|(pre & b & l & post & E & -> & Lb & _)].
    - rewrite (no_live_binding w _ P H).
      destruct (backends_ info) as [|b bs] eqn:Eb; [congruence|].
      exists b. split; auto.
      destruct (lister_ b) as [l|] eqn:Lb; auto.
      specialize (H b l (or_introl eq_refl) Lb). specialize (P l). lia.
    - exists b. split; auto. rewrite Lb. apply existsb_exists.
      exists b. rewrite E, Lb. split; auto. apply in_elt. }
  simpl. split.
  - destruct (device_ info); auto. now destruct (lister_ b).
  - now destruct (lister_ b).
Qed.

Lemma data_state_of_a_row_witness :
  let live :=
    existsb (fun b => match lister_ b with Some _ => true | None => false end)
            (backends_ X_remembered) in
  data (world [] 1 None) (manager [X_remembered]) (Some (0, 0)) Role_State
  = Some (VState match device_ X_remembered with
                 | Some _ => State_Connected
                 | None => if live then State_NotConnected
                           else State_Remembered
                 end)
  /\ data (world [] 1 None) (manager [X_remembered]) (Some (0, 0))
          DecorationRole
     = Some (VPixmap (icon_name_ X_remembered) (negb live)).
Proof.
  apply (data_state_of_a_row (world [] 1 None) (manager [X_remembered]) 0
                             X_remembered).
  - intros l. simpl. lia.
  - reflexivity.
  - discriminate.
Defined.

(** ** The registry at start-up *)

Lemma InitFromDb_fields w dev :
  database_id_ (InitFromDb w dev DeviceInfo_new) = id_ dev
  /\ device_ (InitFromDb w dev DeviceInfo_new) = None
  /\ friendly_name_ (InitFromDb w dev DeviceInfo_new)
     = dev_friendly_name_ dev
  /\ size_ (InitFromDb w dev DeviceInfo_new) = dev_size_ dev
  /\ task_percentage_ (InitFromDb w dev DeviceInfo_new) = -1
  /\ backends_ (InitFromDb w dev DeviceInfo_new)
     = map (fun id => mkBackend None id) (split "," (dev_unique_id_ dev)).
Proof.
  unfold InitFromDb. cbv zeta.
  remember (set_size (dev_size_ dev)
              (set_friendly_name (dev_friendly_name_ dev)
                 (set_database_id (id_ dev) DeviceInfo_new)))
    as x eqn:Ex.
  destruct (LoadIcon_fields w (split "," (dev_icon_name_ dev))
                            (friendly_name_ x) x)
    as (L1 & L2 & L3 & L4).
  destruct (LoadIcon_name_size w (split "," (dev_icon_name_ dev))
                               (friendly_name_ x) x)
    as (L5 & L6).
  cbn [database_id_ device_ friendly_name_ size_ task_percentage_ backends_
       set_backends].
  rewrite L1, L2, L3, L4, L5, L6. subst x. simpl. repeat split; auto.
Qed.

Lemma at_map {A B} (f : A -> B) l i :
  at_ (map f l) i = option_map f (at_ l i).
Proof.
  unfold at_. destruct (i <? 0); [reflexivity|]. apply nth_error_map.
Qed.

(** X20: the constructor lists the persisted devices one row each, in
    the order of the storage, with their database id, name and size; no
    row has a session, a progress or a binding with a lister, the native
    ids of a row are the comma-separated parts of the stored string, and
    every row reads [State_Remembered] (and carries the not-connected
    overlay) until a lister reports the device.  No task is tracked. *)
Theorem DeviceManager_new_lists_the_storage w devices classes :
  let m := DeviceManager_new w devices classes in
  rowCount m = count devices
  /\ active_tasks_ m = []
  /\ device_classes_ m = classes
  /\ forall row dev,
      at_ devices row = Some dev ->
      exists info,
        at_ (devices_ m) row = Some info
        /\ GetDatabaseId m row = Some (id_ dev)
        /\ GetConnectedDevice m row = Some None
        /\ friendly_name_ info = dev_friendly_name_ dev
        /\ size_ info = dev_size_ dev
        /\ task_percentage_ info = -1
        /\ backends_ info
           = map (fun id => mkBackend None id)
                 (split "," (dev_unique_id_ dev))
        /\ forall w',
            data w' m (Some (row, 0)) Role_State
            = Some (VState State_Remembered)
            /\ data w' m (Some (row, 0)) DecorationRole
               = Some (VPixmap (icon_name_ info) true).
Proof.
  cbv zeta. unfold DeviceManager_new, rowCount, count. simpl.
  split; [now rewrite length_map|]. do 2 (split; [reflexivity|]).
  intros row dev A.
  destruct (InitFromDb_fields w dev) as (F1 & F2 & F3 & F4 & F5 & F6).
  remember (InitFromDb w dev DeviceInfo_new) as info eqn:Ei.
  exists info.
  unfold GetDatabaseId, GetConnectedDevice, data.
  cbn [devices_ negb Z.eqb]. rewrite at_map, A.
  cbn [option_map]. rewrite <- Ei, F1, F2.
  do 7 (split; [first [reflexivity|assumption]|]).
  intros w'.
  assert (exists b, BestBackend w' info = Some b /\ lister_ b = None)
    as (b & -> & Lb).
  { destruct (BestBackend_nonempty w' info) as [b Bb].
    - rewrite F6. intros E. apply map_eq_nil in E.
      now apply split_nonempty in E.
    - exists b. split; auto. apply BestBackend_In in Bb.
      rewrite F6 in Bb. apply in_map_iff in Bb as (id & <- & _).
      reflexivity. }
  simpl. now rewrite Lb.
Qed.
